(** * Task API: validation, date filters, paginated queries and mutations

    A shallow embedding of the request pipeline of the task backend:
    - [src/utils/constants.js]      the enumerations [STATUS], [PRIORITY],
                                    [DATE_FILTERS];
    - [middlewares/validateTask.js] the [validateTask] middleware;
    - [src/controllers/tasks.js]    [createTask], [getTasks], [updateTask],
                                    [deleteTask];
    - [routes/tasks.js]             the middleware chain of each route.

    Modelling conventions.
    - A JavaScript string is the list of its UTF-16 code units.
    - A JavaScript number that holds an integer is that integer ([Z]).
      [parseInt] rounds what it reads to the nearest double; sums, products
      and quotients are exact, as those of the source are while the values
      stay below 2^53.
    - The store behind the Prisma client is the list of the rows of the
      [Task] table, as the client generated from prisma/schema.prisma
      reads and writes them: it refuses an argument that is not of the
      schema, among them a status or a priority that is not a name of its
      enumeration.  A store call may also fail for reasons of its own (lost
      connection, locked file): that failure is an input of the handler.
    - The [Date] constructor, the error texts of the runtime and the
      development switch are given by the host.  Local time has two
      readings: the general one, a zone whose offset from UTC depends on
      the instant ([Zone], [dateBoundsIn], [getTasksIn]), and the one of a
      zone that keeps one offset ([tzOffset], [dateBounds], [getTasks]),
      which the routes use. *)

From Stdlib Require Import String Ascii ZArith NArith List Bool Lia.
From Stdlib Require Import DecimalString DecimalPos Permutation Sorted.
Import ListNotations.
Local Open Scope Z_scope.

(* ================================================================== *)
(** ** JavaScript values and built-ins *)
(* ================================================================== *)

Module Js.

Definition jsstring := list N.

(** A literal of the source, code unit by code unit. *)
Fixpoint lit (s : string) : jsstring :=
  match s with
  | EmptyString => []
  | String c r => N_of_ascii c :: lit r
  end.

Fixpoint str_eqb (a b : jsstring) : bool :=
  match a, b with
  | [], [] => true
  | x :: a', y :: b' => N.eqb x y && str_eqb a' b'
  | _, _ => false
  end.

(** WhiteSpace and LineTerminator of ECMAScript: what [trim] strips and
    what [parseInt] skips. *)
Definition isWhiteSpace (c : N) : bool :=
  (N.eqb c 9 || N.eqb c 10 || N.eqb c 11 || N.eqb c 12 || N.eqb c 13
   || N.eqb c 32 || N.eqb c 160 || N.eqb c 5760
   || (N.leb 8192 c && N.leb c 8202)
   || N.eqb c 8232 || N.eqb c 8233 || N.eqb c 8239 || N.eqb c 8287
   || N.eqb c 12288 || N.eqb c 65279)%bool.

Fixpoint trimStart (s : jsstring) : jsstring :=
  match s with
  | [] => []
  | c :: r => if isWhiteSpace c then trimStart r else s
  end.

Fixpoint trimEnd (s : jsstring) : jsstring :=
  match s with
  | [] => []
  | c :: r =>
      match trimEnd r with
      | [] => if isWhiteSpace c then [] else [c]
      | r' => c :: r'
      end
  end.

Definition trim (s : jsstring) : jsstring := trimEnd (trimStart s).

#[local] Set Warnings "-register-all".

(** The values a parsed JSON body can hold in a field; [JUndefined] is
    the absent field. *)
Inductive value : Type :=
| JUndefined
| JNull
| JBool (b : bool)
| JNum (n : Z)
| JStr (s : jsstring)
| JArr (items : list value)
| JObj (fields : list (jsstring * value)).

(** ToBoolean. *)
Definition truthy (v : value) : bool :=
  match v with
  | JUndefined | JNull => false
  | JBool b => b
  | JNum n => negb (n =? 0)
  | JStr s => match s with [] => false | _ => true end
  | JArr _ | JObj _ => true
  end.

(** [typeof v === 'string']. *)
Definition isString (v : value) : bool :=
  match v with JStr _ => true | _ => false end.

(** SameValueZero between an element of a module constant and a value of
    a request.  Arrays and objects are compared by identity, and no value
    of a request is the array held by a constant. *)
Definition sameValueZero (a b : value) : bool :=
  match a, b with
  | JUndefined, JUndefined => true
  | JNull, JNull => true
  | JBool x, JBool y => Bool.eqb x y
  | JNum x, JNum y => x =? y
  | JStr x, JStr y => str_eqb x y
  | _, _ => false
  end.

(** [Array.prototype.includes]. *)
Definition includes (l : list value) (v : value) : bool :=
  existsb (fun a => sameValueZero a v) l.

Fixpoint intercalate (sep : jsstring) (l : list jsstring) : jsstring :=
  match l with
  | [] => []
  | [x] => x
  | x :: r => x ++ sep ++ intercalate sep r
  end.

Definition decimal (n : Z) : jsstring :=
  lit (DecimalString.NilZero.string_of_int (Z.to_int n)).

(** ToString. *)
Fixpoint toString (v : value) : jsstring :=
  match v with
  | JUndefined => lit "undefined"
  | JNull => lit "null"
  | JBool true => lit "true"
  | JBool false => lit "false"
  | JNum n => decimal n
  | JStr s => s
  | JArr items =>
      intercalate (lit ",")
        (map (fun x => match x with
                       | JUndefined | JNull => []
                       | _ => toString x
                       end) items)
  | JObj _ => lit "[object Object]"
  end.

(** [Array.prototype.join]: [undefined] and [null] give the empty
    string, every other element its ToString. *)
Definition join (sep : jsstring) (l : list value) : jsstring :=
  intercalate sep
    (map (fun x => match x with
                   | JUndefined | JNull => []
                   | _ => toString x
                   end) l).

(** The value of a digit in the given radix. *)
Definition digitVal (radix : Z) (c : N) : option Z :=
  let v :=
    if (N.leb 48 c && N.leb c 57)%bool then Some (Z.of_N c - 48)
    else if (N.leb 97 c && N.leb c 122)%bool then Some (Z.of_N c - 87)
    else if (N.leb 65 c && N.leb c 90)%bool then Some (Z.of_N c - 55)
    else None in
  match v with
  | Some d => if d <? radix then Some d else None
  | None => None
  end.

(** The longest prefix of digits; [acc] is [None] until a digit is
    read. *)
Fixpoint digits (radix : Z) (acc : option Z) (s : jsstring) : option Z :=
  match s with
  | [] => acc
  | c :: r =>
      match digitVal radix c with
      | Some d =>
          digits radix
            (Some match acc with None => d | Some a => a * radix + d end) r
      | None => acc
      end
  end.

(** The double nearest to an integer, ties to the even mantissa; the
    integers [2^1024] and [- 2^1024], which no double holds, stand for
    [Infinity] and [-Infinity]. *)
Definition toNumber (n : Z) : Z :=
  let a := Z.abs n in
  if a <? 2 ^ 53 then n
  else
    let e := Z.log2 a - 52 in
    let m := a / 2 ^ e in
    let r := a mod 2 ^ e in
    let half := 2 ^ (e - 1) in
    let m' := if r <? half then m
              else if half <? r then m + 1
              else if Z.even m then m else m + 1 in
    let v := Z.min (m' * 2 ^ e) (2 ^ 1024) in
    if n <? 0 then - v else v.

(** [parseInt] of a string without a radix; [None] is [NaN]. *)
Definition parseInt (s : jsstring) : option Z :=
  let s1 := trimStart s in
  let '(neg, s2) :=
    match s1 with
    | c :: r => if N.eqb c 45 then (true, r)
                else if N.eqb c 43 then (false, r) else (false, s1)
    | [] => (false, s1)
    end in
  let '(radix, s3) :=
    match s2 with
    | c :: x :: r =>
        if (N.eqb c 48 && (N.eqb x 120 || N.eqb x 88))%bool
        then (16, r) else (10, s2)
    | _ => (10, s2)
    end in
  match digits radix None s3 with
  | None => None
  | Some n => Some (toNumber (if neg then - n else n))
  end.

(** A [Date] object: its time value, or the invalid date. *)
Inductive date : Type :=
| InvalidDate
| ValidDate (ms : Z).

End Js.

Import Js.
Arguments lit s%_string.

(* ================================================================== *)
(** ** utils/constants.js *)
(* ================================================================== *)

(** An object literal of the source: its own enumerable properties in
    insertion order. *)
Definition object := list (jsstring * value).

Definition Object_values (o : object) : list value := map snd o.

Definition STATUS : object :=
  [ (lit "TODO", JStr (lit "TODO"));
    (lit "IN_PROGRESS", JStr (lit "IN_PROGRESS"));
    (lit "DONE", JStr (lit "DONE"));
    (lit "_ALL",
     JArr [JStr (lit "TODO"); JStr (lit "IN_PROGRESS"); JStr (lit "DONE")]) ].

Definition PRIORITY : object :=
  [ (lit "LOW", JStr (lit "low"));
    (lit "MEDIUM", JStr (lit "medium"));
    (lit "HIGH", JStr (lit "high"));
    (lit "_ALL",
     JArr [JStr (lit "low"); JStr (lit "medium"); JStr (lit "high")]) ].

Definition DATE_FILTERS : object :=
  [ (lit "TODAY", JStr (lit "today"));
    (lit "WEEK", JStr (lit "week"));
    (lit "MONTH", JStr (lit "month"));
    (lit "OVERDUE", JStr (lit "overdue"));
    (lit "_ALL",
     JArr [JStr (lit "today"); JStr (lit "week"); JStr (lit "month");
           JStr (lit "overdue")]) ].

Definition STATUS_TODO : jsstring := lit "TODO".
Definition STATUS_IN_PROGRESS : jsstring := lit "IN_PROGRESS".
Definition STATUS_DONE : jsstring := lit "DONE".
Definition PRIORITY_LOW : jsstring := lit "low".
Definition PRIORITY_MEDIUM : jsstring := lit "medium".
Definition PRIORITY_HIGH : jsstring := lit "high".
Definition DATE_FILTERS_TODAY : jsstring := lit "today".
Definition DATE_FILTERS_WEEK : jsstring := lit "week".
Definition DATE_FILTERS_MONTH : jsstring := lit "month".
Definition DATE_FILTERS_OVERDUE : jsstring := lit "overdue".

(** [STATUS._ALL.includes(value)]: the validation helper of the
    enumeration. *)
Definition isValidStatus (v : value) : bool :=
  includes [JStr (lit "TODO"); JStr (lit "IN_PROGRESS"); JStr (lit "DONE")] v.

(** The members of the status enumeration. *)
Definition status_members : list jsstring :=
  [STATUS_TODO; STATUS_IN_PROGRESS; STATUS_DONE].

(* ================================================================== *)
(** ** Requests, responses, host *)
(* ================================================================== *)

(** A row of the [Task] table (prisma/schema.prisma) as the client
    returns it; times are milliseconds since the epoch. *)
Record Task := mkTask {
  id : jsstring;
  title : jsstring;
  status : jsstring;
  priority : jsstring;
  dueDate : option Z;
  createdAt : Z;
  updatedAt : Z
}.

Definition Store := list Task.

(** [req.body] of POST and PATCH, destructured as the handlers do. *)
Record body := mkBody {
  b_title : value;
  b_status : value;
  b_priority : value;
  b_dueDate : value
}.

(** [req.query] of GET; [None] is a parameter that is not given. *)
Record query := mkQuery {
  q_status : option jsstring;
  q_priority : option jsstring;
  q_dateFilter : option jsstring;
  q_page : option jsstring;
  q_limit : option jsstring
}.

Record Pagination := mkPagination {
  total : Z;
  page : Z;
  limit : Z;
  totalPages : Z
}.

(** The body of an error response, [success: false]; an absent key is
    [None]. *)
Record ErrorBody := mkError {
  error : jsstring;
  field : option jsstring;
  validOptions : option value;
  receivedValue : option value;
  details : option jsstring
}.

Inductive Payload : Type :=
| Data (task : Task)                           (* success, data *)
| Page (tasks : list Task) (pg : Pagination)   (* success, data, pagination *)
| Failure (e : ErrorBody).                     (* success: false *)

Inductive Response : Type :=
| Json (code : Z) (p : Payload)   (* res.status(code).json(p) *)
| Empty (code : Z).               (* res.status(code).end() *)

Definition statusCode (r : Response) : Z :=
  match r with Json c _ => c | Empty c => c end.

(** A caught exception: [error.code] and [error.message]. *)
Record Error := mkErr {
  code : option jsstring;
  message : jsstring
}.

(** What the runtime decides. *)
Record Host := mkHost {
  newDate : value -> date;        (* new Date(v) *)
  tzOffset : Z;                   (* local time minus UTC, in ms *)
  development : bool;             (* NODE_ENV === 'development' *)
  notFoundText : jsstring;        (* message of Prisma's P2025 *)
  validationText : jsstring;      (* message of Prisma's argument check *)
  typeErrorText : jsstring        (* message of "trim is not a function" *)
}.

(** What one call reads from the outside. *)
Record Call := mkCall {
  now : Z;                 (* getTasks: const now = new Date() *)
  nowOverdue : Z;          (* getTasks: new Date() of the overdue case *)
  storeNow : Z;            (* the store's clock, for the row's timestamps *)
  uuid : jsstring;         (* the identifier the store generates *)
  fault : option Error     (* a failure of the store itself, if any *)
}.

(** [process.env.NODE_ENV === 'development' ? error.message : undefined] *)
Definition detailsOf (h : Host) (e : Error) : option jsstring :=
  if development h then Some (message e) else None.

(* ================================================================== *)
(** ** The store behind [prisma.task] *)
(* ================================================================== *)

Module Prisma.

(** The [where] of [findMany] and [count]: equality on the two
    enumerations and bounds on [dueDate]. *)
Record DateBounds := mkBounds {
  gte : option Z;
  lte : option Z;
  lt : option Z
}.

Record Where := mkWhere {
  w_status : option jsstring;
  w_priority : option jsstring;
  w_dueDate : option DateBounds
}.

Definition holds (o : option Z) (p : Z -> bool) : bool :=
  match o with None => true | Some b => p b end.

(** A row without a due date satisfies no bound on it. *)
Definition inBounds (r : DateBounds) (d : option Z) : bool :=
  match d with
  | None => false
  | Some x =>
      holds (gte r) (fun b => b <=? x) && holds (lte r) (fun b => x <=? b)
      && holds (lt r) (fun b => x <? b)
  end.

Definition matches (w : Where) (t : Task) : bool :=
  match w_status w with None => true | Some s => str_eqb (status t) s end
  && match w_priority w with None => true | Some p => str_eqb (priority t) p end
  && match w_dueDate w with None => true | Some r => inBounds r (dueDate t) end.

(** [orderBy: [{ dueDate: 'asc' }, { createdAt: 'desc' }]]; SQLite sorts
    rows without a due date first. *)
Definition before (a b : Task) : bool :=
  match dueDate a, dueDate b with
  | None, None => createdAt b <=? createdAt a
  | None, Some _ => true
  | Some _, None => false
  | Some x, Some y => (x <? y) || ((x =? y) && (createdAt b <=? createdAt a))
  end.

Fixpoint insert (t : Task) (l : list Task) : list Task :=
  match l with
  | [] => [t]
  | u :: r => if before t u then t :: l else u :: insert t r
  end.

Fixpoint ordered (l : list Task) : list Task :=
  match l with
  | [] => []
  | t :: r => insert t (ordered r)
  end.

Definition validationError (h : Host) : Error :=
  mkErr None (validationText h).

(** The enumerations of prisma/schema.prisma as the generated client
    takes and returns them: the names of the values.  [@map] renames the
    value in the column only. *)
Definition TaskStatus : list jsstring :=
  [lit "TODO"; lit "IN_PROGRESS"; lit "DONE"].

Definition Priority : list jsstring :=
  [lit "LOW"; lit "MEDIUM"; lit "HIGH"].

Definition isName (enum : list jsstring) (s : jsstring) : bool :=
  existsb (str_eqb s) enum.

Definition nameOrAbsent (enum : list jsstring) (o : option jsstring) : bool :=
  match o with None => true | Some s => isName enum s end.

(** An [Int] argument: a number that fits a signed 64-bit integer. *)
Definition fitsInt (n : Z) : bool :=
  (- 2 ^ 63 <=? n) && (n <=? 2 ^ 63 - 1).

(** The [where] is of the schema. *)
Definition accepts (w : Where) : bool :=
  nameOrAbsent TaskStatus (w_status w)
  && nameOrAbsent Priority (w_priority w).

Definition recordNotFound (h : Host) : Error :=
  mkErr (Some (lit "P2025")) (notFoundText h).

(** Each call below reports the failure of the store itself when there
    is one, else refuses arguments that are not of the schema, else does
    its work.

    [findMany({ where, orderBy, skip, take })] *)
Definition findMany (h : Host) (c : Call) (st : Store) (w : Where)
  (skip take : Z) : Error + list Task :=
  match fault c with
  | Some e => inl e
  | None =>
      if accepts w && fitsInt skip && fitsInt take then
        inr (firstn (Z.to_nat take)
               (skipn (Z.to_nat skip) (ordered (filter (matches w) st))))
      else inl (validationError h)
  end.

(** [count({ where })] *)
Definition count (h : Host) (c : Call) (st : Store) (w : Where)
  : Error + Z :=
  match fault c with
  | Some e => inl e
  | None =>
      if accepts w then inr (Z.of_nat (length (filter (matches w) st)))
      else inl (validationError h)
  end.

Record CreateData := mkCreate {
  c_title : jsstring;
  c_status : jsstring;
  c_priority : jsstring;
  c_dueDate : option date          (* null or a Date *)
}.

(** An absent key is [None]. *)
Record UpdateData := mkUpdate {
  u_title : option jsstring;
  u_status : option jsstring;
  u_priority : option jsstring;
  u_dueDate : option (option date)
}.

(** The column value of a Date argument; the invalid date is refused by
    the client. *)
Definition column (d : option date) : option (option Z) :=
  match d with
  | None => Some None
  | Some (ValidDate ms) => Some (Some ms)
  | Some InvalidDate => None
  end.

(** [create({ data })]: the store generates [id] and both timestamps. *)
Definition create (h : Host) (c : Call) (st : Store) (d : CreateData)
  : Error + (Task * Store) :=
  match fault c with
  | Some e => inl e
  | None =>
      match column (c_dueDate d) with
      | None => inl (validationError h)
      | Some due =>
          if isName TaskStatus (c_status d) && isName Priority (c_priority d)
          then
            let t := mkTask (uuid c) (c_title d) (c_status d) (c_priority d)
                       due (storeNow c) (storeNow c) in
            inr (t, st ++ [t])
          else inl (validationError h)
      end
  end.

Definition orElse {A} (o : option A) (a : A) : A :=
  match o with Some x => x | None => a end.

(** The row after the keys present in [d] are written; [updatedAt] is
    maintained by the store. *)
Definition apply (d : UpdateData) (due : option (option Z)) (at_ : Z)
  (t : Task) : Task :=
  mkTask (id t)
    (orElse (u_title d) (title t))
    (orElse (u_status d) (status t))
    (orElse (u_priority d) (priority t))
    (orElse due (dueDate t))
    (createdAt t)
    at_.

(** The row with the given identifier and the table with it replaced by
    [f] of it. *)
Fixpoint replace (i : jsstring) (f : Task -> Task) (st : Store)
  : option (Task * Store) :=
  match st with
  | [] => None
  | t :: r =>
      if str_eqb (id t) i then Some (f t, f t :: r)
      else match replace i f r with
           | Some (u, r') => Some (u, t :: r')
           | None => None
           end
  end.

(** The row with the given identifier and the table without it. *)
Fixpoint remove (i : jsstring) (st : Store) : option (Task * Store) :=
  match st with
  | [] => None
  | t :: r =>
      if str_eqb (id t) i then Some (t, r)
      else match remove i r with
           | Some (u, r') => Some (u, t :: r')
           | None => None
           end
  end.

(** [update({ where: { id }, data })] *)
Definition update (h : Host) (c : Call) (st : Store) (i : jsstring)
  (d : UpdateData) : Error + (Task * Store) :=
  let due := match u_dueDate d with
             | None => Some None
             | Some x => option_map Some (column x)
             end in
  match fault c with
  | Some e => inl e
  | None =>
      match due with
      | None => inl (validationError h)
      | Some due' =>
          if nameOrAbsent TaskStatus (u_status d)
             && nameOrAbsent Priority (u_priority d)
          then
            match replace i (apply d due' (storeNow c)) st with
            | Some r => inr r
            | None => inl (recordNotFound h)
            end
          else inl (validationError h)
      end
  end.

(** [delete({ where: { id } })] *)
Definition delete (h : Host) (c : Call) (st : Store) (i : jsstring)
  : Error + (Task * Store) :=
  match fault c with
  | Some e => inl e
  | None =>
      match remove i st with
      | Some r => inr r
      | None => inl (recordNotFound h)
      end
  end.

End Prisma.

(* ================================================================== *)
(** ** middlewares/validateTask.js *)
(* ================================================================== *)

Definition fail (c : Z) (e : ErrorBody) : Response := Json c (Failure e).

(** The string behind a value that [typeof] has shown to be one. *)
Definition str (v : value) : jsstring :=
  match v with JStr s => s | _ => [] end.

(** [a || b] *)
Definition or_ (a b : value) : value := if truthy a then a else b.

(** A destructuring default: it applies to [undefined] only. *)
Definition defaultTo (v d : value) : value :=
  match v with JUndefined => d | _ => v end.

Definition isNullish (v : value) : bool :=
  match v with JUndefined | JNull => true | _ => false end.

(** [isNaN(d.getTime())] *)
Definition isInvalid (d : date) : bool :=
  match d with InvalidDate => true | ValidDate _ => false end.

(** [!title || typeof title !== 'string' || title.trim().length === 0] *)
Definition invalidTitle (v : value) : bool :=
  negb (truthy v) || negb (isString v) || (length (trim (str v)) =? 0)%nat.

(** The repository holds two copies of the middleware.  They take the same
    decisions; the first one logs, says "are case-sensitive" in the two
    enumeration messages and echoes the value it received. *)
Inductive Copy : Type := Verbose | Quiet.

Definition enumMessage (cp : Copy) (what : string) (o : object) : jsstring :=
  lit "Invalid " ++ lit what ++
  match cp with
  | Verbose => lit ". Valid options are case-sensitive: "
  | Quiet => lit ". Valid options: "
  end ++ join (lit ", ") (Object_values o).

Definition echo (cp : Copy) (v : value) : option value :=
  match cp with Verbose => Some v | Quiet => None end.

(** [req.validatedTaskData] *)
Record Validated := mkValidated {
  v_title : jsstring;
  v_status : option value;
  v_priority : option value;
  v_dueDate : option (option date)
}.

(** [inl] is the response of a rejection, [inr] is [next()]. *)
Definition validateTask (h : Host) (cp : Copy) (b : body)
  : Response + Validated :=
  let title := b_title b in
  let status := b_status b in
  let priority := b_priority b in
  let dueDate := b_dueDate b in
  if invalidTitle title then
    inl (fail 400 (mkError
           (lit "Title is required and must be a non-empty string")
           (Some (lit "title")) None None None))
  else if truthy status && negb (isString status) then
    inl (fail 400 (mkError (lit "Status must be a string")
           (Some (lit "status")) None None None))
  else if truthy status && negb (includes (Object_values STATUS) status) then
    inl (fail 400 (mkError (enumMessage cp "status" STATUS)
           (Some (lit "status")) (Some (JArr (Object_values STATUS)))
           (echo cp status) None))
  else if truthy priority && negb (isString priority) then
    inl (fail 400 (mkError (lit "Priority must be a string")
           (Some (lit "priority")) None None None))
  else if truthy priority
          && negb (includes (Object_values PRIORITY) priority) then
    inl (fail 400 (mkError (enumMessage cp "priority" PRIORITY)
           (Some (lit "priority")) (Some (JArr (Object_values PRIORITY)))
           (echo cp priority) None))
  else if negb (isNullish dueDate)
          && (negb (isString dueDate) || isInvalid (newDate h dueDate)) then
    inl (fail 400 (mkError
           (lit "Invalid due date format. Use ISO 8601 format (YYYY-MM-DDTHH:MM:SSZ)")
           (Some (lit "dueDate")) None None None))
  else
    inr (mkValidated (trim (str title))
           (if truthy status then Some status else None)
           (if truthy priority then Some priority else None)
           (match dueDate with
            | JUndefined => None
            | _ => Some (if truthy dueDate then Some (newDate h dueDate)
                         else None)
            end)).

(* ================================================================== *)
(** ** controllers/tasks.js *)
(* ================================================================== *)

Definition invalidOption (what : string) (o : object) : Response :=
  fail 400 (mkError
    (lit "Invalid " ++ lit what ++ lit ". Valid options: "
       ++ join (lit ", ") (Object_values o))
    None (Some (JArr (Object_values o))) None None).

Definition failed (h : Host) (c : Z) (text : string) (e : Error) : Response :=
  fail c (mkError (lit text) None None None (detailsOf h e)).

(** [error.code === 'P2025'] *)
Definition isP2025 (e : Error) : bool :=
  match code e with Some s => str_eqb s (lit "P2025") | None => false end.

Definition notFound : Response :=
  fail 404 (mkError (lit "Task not found") None None None None).

Definition invalidId : Response :=
  fail 400 (mkError (lit "Invalid task ID") None None None None).

(** [dueDate ? new Date(dueDate) : null] *)
Definition dateOrNull (h : Host) (v : value) : option date :=
  if truthy v then Some (newDate h v) else None.

Definition createTask (h : Host) (c : Call) (st : Store) (b : body)
  : Store * Response :=
  let title := b_title b in
  let status := defaultTo (b_status b) (JStr STATUS_TODO) in
  let priority := defaultTo (b_priority b) (JStr PRIORITY_MEDIUM) in
  let dueDate := b_dueDate b in
  if invalidTitle title then
    (st, fail 400 (mkError (lit "Valid title is required") None
                     (Some (JObj [ (lit "status", JArr (Object_values STATUS));
                                   (lit "priority",
                                    JArr (Object_values PRIORITY)) ]))
                     None None))
  else if truthy status && negb (includes (Object_values STATUS) status) then
    (st, invalidOption "status" STATUS)
  else if truthy priority
          && negb (includes (Object_values PRIORITY) priority) then
    (st, invalidOption "priority" PRIORITY)
  else
    match Prisma.create h c st
            (Prisma.mkCreate (trim (str title))
               (str (or_ status (JStr STATUS_TODO)))
               (str (or_ priority (JStr PRIORITY_MEDIUM)))
               (dateOrNull h dueDate)) with
    | inr (task, st') => (st', Json 201 (Data task))
    | inl e => (st, failed h 400 "Failed to create task" e)
    end.

(** The [data] of the update, or the TypeError of [title.trim] on a truthy
    title that is not a string. *)
Definition updateData (h : Host) (b : body) : Error + Prisma.UpdateData :=
  let title := b_title b in
  let status := b_status b in
  let priority := b_priority b in
  let dueDate := b_dueDate b in
  if truthy title && negb (isString title) then
    inl (mkErr None (typeErrorText h))
  else
    inr (Prisma.mkUpdate
           (if truthy title then Some (trim (str title)) else None)
           (if truthy status then Some (str status) else None)
           (if truthy priority then Some (str priority) else None)
           (match dueDate with
            | JUndefined => None
            | _ => Some (dateOrNull h dueDate)
            end)).

Definition updateTask (h : Host) (c : Call) (st : Store) (i : jsstring)
  (b : body) : Store * Response :=
  let status := b_status b in
  let priority := b_priority b in
  if negb (truthy (JStr i)) then (st, invalidId)
  else if truthy status && negb (includes (Object_values STATUS) status) then
    (st, invalidOption "status" STATUS)
  else if truthy priority
          && negb (includes (Object_values PRIORITY) priority) then
    (st, invalidOption "priority" PRIORITY)
  else
    let attempt :=
      match updateData h b with
      | inl e => inl e
      | inr d => Prisma.update h c st i d
      end in
    match attempt with
    | inr (updatedTask, st') => (st', Json 200 (Data updatedTask))
    | inl e =>
        if isP2025 e then (st, notFound)
        else (st, failed h 400 "Failed to update task" e)
    end.

Definition deleteTask (h : Host) (c : Call) (st : Store) (i : jsstring)
  : Store * Response :=
  if negb (truthy (JStr i)) then (st, invalidId)
  else
    match Prisma.delete h c st i with
    | inr (_, st') => (st', Empty 204)
    | inl e =>
        if isP2025 e then (st, notFound)
        else (st, failed h 500 "Failed to delete task" e)
    end.

(** *** Date filters *)

Definition dayMs : Z := 86400000.

(** The time zone of the host as ECMAScript reads it: [offsetAt t] is the
    offset of local time from UTC in effect at the instant [t], and
    [offsetOfLocal tl] the offset it uses to read the local time [tl]
    (the one before the change for a local time that a change skips or
    repeats). *)
Record Zone := mkZone {
  offsetAt : Z -> Z;
  offsetOfLocal : Z -> Z
}.

(** LocalTime and UTC of ECMAScript. *)
Definition localTime (z : Zone) (t : Z) : Z := t + offsetAt z t.
Definition toUTC (z : Zone) (tl : Z) : Z := tl - offsetOfLocal z tl.

(** The first millisecond of the local day of [t], as a local time. *)
Definition localDay (z : Zone) (t : Z) : Z := localTime z t / dayMs * dayMs.

(** [d.setHours(hh, mm, ss, ms)]: the new time value of a date at [t]. *)
Definition setHours (z : Zone) (t hh mm ss ms : Z) : Z :=
  toUTC z (localDay z t + (((hh * 60 + mm) * 60 + ss) * 1000 + ms)).

(** [d.getDay()]: 0 is Sunday; the epoch fell on a Thursday. *)
Definition getDayIn (z : Zone) (t : Z) : Z :=
  (localTime z t / dayMs + 4) mod 7.

(** [d.setDate(d.getDate() + n)]: the same local time of day, [n] local
    days later. *)
Definition shiftDate (z : Zone) (t n : Z) : Z :=
  toUTC z (localTime z t + n * dayMs).

(** The zone that keeps the offset [o]. *)
Definition fixedZone (o : Z) : Zone := mkZone (fun _ => o) (fun _ => o).

(** The same methods for a zone that keeps the offset [tzOffset h]
    (see [fixedZone_setHours] and the lemmas after it).

    [d.setHours(0, 0, 0, 0)]: the local midnight at or before [t]. *)
Definition startOfDay (h : Host) (t : Z) : Z :=
  t - (t + tzOffset h) mod dayMs.

(** [d.setHours(23, 59, 59, 999)]: the last millisecond of the local day
    of [t]. *)
Definition endOfDay (h : Host) (t : Z) : Z :=
  startOfDay h t + (dayMs - 1).

(** [d.getDay()]: 0 is Sunday; the epoch fell on a Thursday. *)
Definition getDay (h : Host) (t : Z) : Z :=
  ((t + tzOffset h) / dayMs + 4) mod 7.

(** [d.setDate(d.getDate() + n)] *)
Definition addDays (t n : Z) : Z := t + n * dayMs.

(** The [switch] on the date filter: the bounds it puts on [dueDate], or
    [None] when no case matches. *)
Definition dateBoundsIn (z : Zone) (c : Call) (dateFilter : jsstring)
  : option Prisma.DateBounds :=
  if str_eqb dateFilter DATE_FILTERS_TODAY then
    let startOfDay_ := setHours z (now c) 0 0 0 0 in
    let endOfDay_ := setHours z (now c) 23 59 59 999 in
    Some (Prisma.mkBounds (Some startOfDay_) (Some endOfDay_) None)
  else if str_eqb dateFilter DATE_FILTERS_OVERDUE then
    Some (Prisma.mkBounds None None (Some (nowOverdue c)))
  else if str_eqb dateFilter DATE_FILTERS_WEEK then
    let startOfWeek :=
      setHours z (shiftDate z (now c) (- getDayIn z (now c))) 0 0 0 0 in
    let endOfWeek := setHours z (shiftDate z startOfWeek 6) 23 59 59 999 in
    Some (Prisma.mkBounds (Some startOfWeek) (Some endOfWeek) None)
  else None.

(** The same [switch] for a zone that keeps the offset [tzOffset h]. *)
Definition dateBounds (h : Host) (c : Call) (dateFilter : jsstring)
  : option Prisma.DateBounds :=
  if str_eqb dateFilter DATE_FILTERS_TODAY then
    let startOfDay_ := startOfDay h (now c) in
    let endOfDay_ := endOfDay h (now c) in
    Some (Prisma.mkBounds (Some startOfDay_) (Some endOfDay_) None)
  else if str_eqb dateFilter DATE_FILTERS_OVERDUE then
    Some (Prisma.mkBounds None None (Some (nowOverdue c)))
  else if str_eqb dateFilter DATE_FILTERS_WEEK then
    let startOfWeek :=
      startOfDay h (addDays (now c) (- getDay h (now c))) in
    let endOfWeek := endOfDay h (addDays startOfWeek 6) in
    Some (Prisma.mkBounds (Some startOfWeek) (Some endOfWeek) None)
  else None.

(** *** getTasks *)

(** Early returns of a handler: [inl] is the response already sent. *)
Definition andThen {A B} (m : Response + A) (k : A -> Response + B)
  : Response + B :=
  match m with inl r => inl r | inr a => k a end.

Notation "x <- m ;; k" := (andThen m (fun x => k))
  (at level 61, m at next level, right associativity).

(** Truthiness of a query parameter: given and not empty. *)
Definition given (o : option jsstring) : option jsstring :=
  match o with
  | Some (c :: r) => Some (c :: r)
  | _ => None
  end.

(** [parseInt] of a parameter whose default is the number [dflt]. *)
Definition parseParam (o : option jsstring) (dflt : Z) : option Z :=
  match o with None => Some dflt | Some s => parseInt s end.

Definition invalidPagination : Response :=
  fail 400 (mkError (lit "Invalid pagination parameters") None None None None).

(** The validated page and limit. *)
Definition pagination (q : query) : Response + (Z * Z) :=
  match parseParam (q_page q) 1, parseParam (q_limit q) 10 with
  | Some pageNum, Some limitNum =>
      if (pageNum <? 1) || (limitNum <? 1) then inl invalidPagination
      else inr (pageNum, limitNum)
  | _, _ => inl invalidPagination
  end.

(** One enumeration filter: nothing when the parameter is not given, the
    rejection when it is not a value of [o]. *)
Definition enumFilter (what : string) (o : object) (p : option jsstring)
  : Response + option jsstring :=
  match given p with
  | None => inr None
  | Some s =>
      if negb (includes (Object_values o) (JStr s))
      then inl (invalidOption what o)
      else inr (Some s)
  end.

(** The [where] object the handler builds; [bounds] is the [switch] on
    the date filter. *)
Definition buildWhereWith (bounds : jsstring -> option Prisma.DateBounds)
  (q : query) : Response + Prisma.Where :=
  status <- enumFilter "status" STATUS (q_status q) ;;
  priority <- enumFilter "priority" PRIORITY (q_priority q) ;;
  dateFilter <- enumFilter "date filter" DATE_FILTERS (q_dateFilter q) ;;
  inr (Prisma.mkWhere status priority
         match dateFilter with
         | None => None
         | Some f => bounds f
         end).

Definition buildWhereIn (z : Zone) (c : Call) (q : query)
  : Response + Prisma.Where :=
  buildWhereWith (dateBoundsIn z c) q.

Definition buildWhere (h : Host) (c : Call) (q : query)
  : Response + Prisma.Where :=
  buildWhereWith (dateBounds h c) q.

(** [Math.ceil(a / b)] for a positive [b]. *)
Definition ceilDiv (a b : Z) : Z := - ((- a) / b).

Definition getTasksWith (bounds : jsstring -> option Prisma.DateBounds)
  (h : Host) (c : Call) (st : Store) (q : query) : Response :=
  match pagination q with
  | inl r => r
  | inr (pageNum, limitNum) =>
      match buildWhereWith bounds q with
      | inl r => r
      | inr where_ =>
          match Prisma.findMany h c st where_ ((pageNum - 1) * limitNum)
                  limitNum,
                Prisma.count h c st where_ with
          | inr tasks, inr total_ =>
              Json 200 (Page tasks
                          (mkPagination total_ pageNum limitNum
                             (ceilDiv total_ limitNum)))
          | inl e, _ | _, inl e =>
              failed h 500 "Failed to fetch tasks" e
          end
      end
  end.

(** The handler on a host whose zone is [z]. *)
Definition getTasksIn (z : Zone) (h : Host) (c : Call) (st : Store)
  (q : query) : Response :=
  getTasksWith (dateBoundsIn z c) h c st q.

(** The handler on a host whose zone keeps the offset [tzOffset h]. *)
Definition getTasks (h : Host) (c : Call) (st : Store) (q : query)
  : Response :=
  getTasksWith (dateBounds h c) h c st q.

(* ================================================================== *)
(** ** routes/tasks.js *)
(* ================================================================== *)

Inductive Request : Type :=
| GET (q : query)
| POST (b : body)
| PATCH (i : jsstring) (b : body)
| DELETE (i : jsstring).

(** The chain of each route, for a call the rate limiter lets through. *)
Definition route (h : Host) (cp : Copy) (c : Call) (st : Store)
  (r : Request) : Store * Response :=
  match r with
  | GET q => (st, getTasks h c st q)
  | POST b =>
      match validateTask h cp b with
      | inl rejection => (st, rejection)
      | inr _ => createTask h c st b
      end
  | PATCH i b =>
      match validateTask h cp b with
      | inl rejection => (st, rejection)
      | inr _ => updateTask h c st i b
      end
  | DELETE i => deleteTask h c st i
  end.

(** The store after a sequence of calls. *)
Fixpoint run (h : Host) (cp : Copy) (st : Store)
  (calls : list (Call * Request)) : Store :=
  match calls with
  | [] => st
  | (c, r) :: rest => run h cp (fst (route h cp c st r)) rest
  end.

(* ================================================================== *)
(** ** Sample data *)
(* ================================================================== *)

(** A host for the examples: UTC+02:00, production mode; its [Date]
    takes a number as a time value and knows one ISO string. *)
Definition sampleHost : Host :=
  mkHost
    (fun v => match v with
              | JNum n => ValidDate n
              | JStr s => if str_eqb s (lit "1970-01-02T00:00:00.000Z")
                          then ValidDate 86400000 else InvalidDate
              | _ => InvalidDate
              end)
    7200000 false
    (lit "Record to update not found.")
    (lit "Invalid value for argument `dueDate`.")
    (lit "title.trim is not a function").

(** A call at 2024-05-15 12:00:00 UTC against a healthy store. *)
Definition sampleCall : Call :=
  mkCall 1715774400000 1715774400001 1715774400002 (lit "id-2") None.

(** The same call against a store that cannot be reached. *)
Definition brokenCall : Call :=
  mkCall 1715774400000 1715774400001 1715774400002 (lit "id-2")
    (Some (mkErr (Some (lit "P1001")) (lit "Can't reach database server"))).

Definition sampleTask : Task :=
  mkTask (lit "id-1") (lit "Write report") STATUS_DONE PRIORITY_HIGH
    (Some 1715700000000) 1715000000000 1715000000000.

Definition sampleStore : Store := [sampleTask].

(** Rows as the store's client returns them: the priority is a name of
    the schema's enumeration. *)
Definition storedTask : Task :=
  mkTask (lit "id-1") (lit "Write report") STATUS_DONE (lit "HIGH")
    (Some 1715700000000) 1715000000000 1715000000000.

Definition storedStore : Store :=
  [ storedTask;
    mkTask (lit "id-3") (lit "Call Ann") STATUS_TODO (lit "LOW")
      (Some 1715800000000) 1715100000000 1715100000000;
    mkTask (lit "id-4") (lit "Pay rent") STATUS_TODO (lit "MEDIUM")
      None 1715200000000 1715200000000 ].

(** Europe/Berlin around 2024-03-31: at 01:00 UTC the clocks go from
    02:00 to 03:00, and the offset from one hour to two. *)
Definition berlin : Zone :=
  mkZone (fun t => if t <? 1711846800000 then 3600000 else 7200000)
         (fun tl => if tl <? 1711854000000 then 3600000 else 7200000).

(** A call at 2024-03-31 12:00:00 UTC against a healthy store. *)
Definition springCall : Call :=
  mkCall 1711886400000 1711886400001 1711886400002 (lit "id-2") None.

(* ================================================================== *)
(** ** Vocabulary of the statements *)
(* ================================================================== *)

(** Empty or made of white space only. *)
Definition blank (s : jsstring) : bool := forallb isWhiteSpace s.

(** No row has an empty or white-space-only title. *)
Definition titled (st : Store) : Prop :=
  Forall (fun t => blank (title t) = false) st.

(** No row has the identifier [i]. *)
Definition unknown (i : jsstring) (st : Store) : Prop :=
  forall t, In t st -> id t <> i.

(** The rejection of the middleware for a title. *)
Definition titleRejection : Response :=
  fail 400 (mkError (lit "Title is required and must be a non-empty string")
              (Some (lit "title")) None None None).


(** The rows a [where] selects, in the order of the query. *)
Definition selection (w : Prisma.Where) (st : Store) : list Task :=
  Prisma.ordered (filter (Prisma.matches w) st).

(** Page [p] of [l] rows: skip [(p - 1) * l], take [l]. *)
Definition slice (p l : Z) (rows : list Task) : list Task :=
  firstn (Z.to_nat l) (skipn (Z.to_nat ((p - 1) * l)) rows).

(** The [where] without its bounds on [dueDate]. *)
Definition anyDate (w : Prisma.Where) : Prisma.Where :=
  Prisma.mkWhere (Prisma.w_status w) (Prisma.w_priority w) None.

(** The task satisfies every filter the query supplies: a parameter that
    is absent or empty, or a date filter without bounds, asks nothing. *)
Definition satisfies (h : Host) (c : Call) (q : query) (t : Task) : Prop :=
  (forall s, given (q_status q) = Some s -> status t = s)
  /\ (forall p, given (q_priority q) = Some p -> priority t = p)
  /\ (forall f r, given (q_dateFilter q) = Some f ->
                  dateBounds h c f = Some r ->
                  Prisma.inBounds r (dueDate t) = true).

(* ================================================================== *)
(** ** The rest of utils/constants.js *)
(* ================================================================== *)

(** [PRIORITY._ALL.includes(value)] *)
Definition isValidPriority (v : value) : bool :=
  includes [JStr (lit "low"); JStr (lit "medium"); JStr (lit "high")] v.

(** [DATE_FILTERS._ALL.includes(value)] *)
Definition isValidDateFilter (v : value) : bool :=
  includes [JStr (lit "today"); JStr (lit "week"); JStr (lit "month");
            JStr (lit "overdue")] v.

Definition priority_members : list jsstring :=
  [PRIORITY_LOW; PRIORITY_MEDIUM; PRIORITY_HIGH].

Definition dateFilter_members : list jsstring :=
  [DATE_FILTERS_TODAY; DATE_FILTERS_WEEK; DATE_FILTERS_MONTH;
   DATE_FILTERS_OVERDUE].

(** The properties every object literal inherits from [Object.prototype];
    each holds a function or an object, so each is truthy. *)
Definition Object_prototype : list jsstring :=
  [ lit "constructor"; lit "hasOwnProperty"; lit "isPrototypeOf";
    lit "propertyIsEnumerable"; lit "toLocaleString"; lit "toString";
    lit "valueOf"; lit "__proto__"; lit "__defineGetter__";
    lit "__defineSetter__"; lit "__lookupGetter__"; lit "__lookupSetter__" ].

(** What [o[k]] finds: an own property, an inherited one, or nothing. *)
Inductive found : Type :=
| Own (v : value)
| Inherited (name : jsstring)
| Missing.

Fixpoint own (o : object) (k : jsstring) : option value :=
  match o with
  | [] => None
  | (n, v) :: r => if str_eqb n k then Some v else own r k
  end.

(** [o[k]] on an object literal. *)
Definition get (o : object) (k : jsstring) : found :=
  match own o k with
  | Some v => Own v
  | None =>
      if existsb (str_eqb k) Object_prototype then Inherited k else Missing
  end.

(** [o[k] || d] *)
Definition getOr (o : object) (k : jsstring) (d : value) : found :=
  match get o k with
  | Own v => Own (or_ v d)
  | Inherited n => Inherited n
  | Missing => Own d
  end.

Definition labels : object :=
  [ (STATUS_TODO, JStr (lit "To Do"));
    (STATUS_IN_PROGRESS, JStr (lit "In Progress"));
    (STATUS_DONE, JStr (lit "Done")) ].

(** [labels[status] || status] *)
Definition getStatusLabel (status : jsstring) : found :=
  getOr labels status (JStr status).

Definition colors : object :=
  [ (PRIORITY_LOW, JStr (lit "bg-green-100 text-green-800"));
    (PRIORITY_MEDIUM, JStr (lit "bg-yellow-100 text-yellow-800"));
    (PRIORITY_HIGH, JStr (lit "bg-red-100 text-red-800")) ].

(** [colors[priority] || 'bg-gray-100 text-gray-800'] *)
Definition getPriorityColor (priority : jsstring) : found :=
  getOr colors priority (JStr (lit "bg-gray-100 text-gray-800")).



(* ================================================================== *)
(** ** utils/prisma.js: the connection flag *)
(* ================================================================== *)

(** The two operations of the client that the module guards. *)
Inductive ClientOp : Type := Connect_ | Disconnect_.

(** One call of the module: [true] when the client's operation succeeds
    if it is issued. *)
Inductive DbCall : Type :=
| CallConnectDB (ok : bool)
| CallDisconnectDB (ok : bool).

(** The state of the module: [isConnected], and the operations issued to
    the client so far with their outcome, latest first. *)
Record Db := mkDb {
  isConnected : bool;
  issued : list (ClientOp * bool)
}.

(** [connectDB()]: the second component is [true] when the call throws. *)
Definition connectDB (ok : bool) (d : Db) : Db * bool :=
  if negb (isConnected d) then
    if ok then (mkDb true ((Connect_, true) :: issued d), false)
    else (mkDb (isConnected d) ((Connect_, false) :: issued d), true)
  else (d, false).

(** [disconnectDB()] *)
Definition disconnectDB (ok : bool) (d : Db) : Db * bool :=
  if isConnected d then
    if ok then (mkDb false ((Disconnect_, true) :: issued d), false)
    else (mkDb (isConnected d) ((Disconnect_, false) :: issued d), true)
  else (d, false).

Definition dbCall (k : DbCall) (d : Db) : Db * bool :=
  match k with
  | CallConnectDB ok => connectDB ok d
  | CallDisconnectDB ok => disconnectDB ok d
  end.

Fixpoint dbRun (d : Db) (calls : list DbCall) : Db :=
  match calls with
  | [] => d
  | k :: rest => dbRun (fst (dbCall k d)) rest
  end.

(** The operations that succeeded, latest first. *)
Definition succeeded (l : list (ClientOp * bool)) : list ClientOp :=
  map fst (filter snd l).

(** Read from the latest: connections and disconnections take turns, and
    the latest is a connection exactly when [connected]. *)
Fixpoint takesTurns (connected : bool) (l : list ClientOp) : bool :=
  match l with
  | [] => negb connected
  | Connect_ :: r => connected && takesTurns false r
  | Disconnect_ :: r => negb connected && takesTurns true r
  end.

(* ================================================================== *)
(** ** More vocabulary *)
(* ================================================================== *)

(** Every row has a status and a priority of the enumerations. *)
Definition enumerated (st : Store) : Prop :=
  Forall (fun t => In (status t) status_members
                   /\ In (priority t) priority_members) st.

(** The identifiers of the rows are pairwise distinct. *)
Definition keyed (st : Store) : Prop := NoDup (map id st).

(** Pages 1 to [k] of [l] rows, one after the other. *)
Definition pages (k : nat) (l : Z) (rows : list Task) : list Task :=
  flat_map (fun p => slice (Z.of_nat p) l rows) (seq 1 k).

(** [a] comes no later than [b] in the order of the query. *)
Definition inOrder (a b : Task) : Prop := Prisma.before a b = true.

(** The value a field of the created or updated row takes from the body:
    the string given, or [d] when the field is falsy. *)
Definition chosen (v : value) (d : jsstring) : jsstring :=
  if truthy v then str v else d.

(** The due date a body asks for: nothing for a falsy value, else the
    time of the date. *)
Definition wanted (h : Host) (v : value) : option Z :=
  if truthy v then
    match newDate h v with ValidDate ms => Some ms | InvalidDate => None end
  else None.

(** The status codes of the successful answers. *)
Definition succeeds (r : Response) : bool :=
  (statusCode r =? 200) || (statusCode r =? 201) || (statusCode r =? 204).

(** The parameter [o] of a request asks for the number [p]: it is the
    decimal numeral of [p], or it is absent and [p] is the default. *)
Definition written (o : option jsstring) (dflt p : Z) : Prop :=
  match o with
  | None => p = dflt
  | Some s => s = decimal p
  end.


(* ================================================================== *)
(** ** Strings *)
(* ================================================================== *)

Lemma str_eqb_eq (a b : jsstring) : str_eqb a b = true <-> a = b.
Proof.
  revert b; induction a as [|x a IH]; intros [|y b]; simpl;
    try (split; [discriminate | congruence]); [tauto|].
  rewrite andb_true_iff, N.eqb_eq, IH.
  split; [intros [-> ->]; reflexivity | intros E; inversion E; auto].
Qed.

Lemma trimStart_blank (s : jsstring) : blank s = true -> trimStart s = [].
Proof.
  induction s as [|c r IH]; simpl; [reflexivity|].
  destruct (isWhiteSpace c); simpl; [exact IH | discriminate].
Qed.

Lemma trimStart_head (s : jsstring) (c : N) (r : jsstring) :
  trimStart s = c :: r -> isWhiteSpace c = false.
Proof.
  induction s as [|x s IH]; simpl; [discriminate|].
  destruct (isWhiteSpace x) eqn:E; [exact IH|].
  intros H; inversion H; subst; exact E.
Qed.

Lemma trimStart_nil (s : jsstring) : trimStart s = [] -> blank s = true.
Proof.
  induction s as [|x s IH]; simpl; [reflexivity|].
  destruct (isWhiteSpace x); simpl; [exact IH | discriminate].
Qed.

Lemma trimEnd_head (c : N) (r : jsstring) :
  isWhiteSpace c = false -> exists r', trimEnd (c :: r) = c :: r'.
Proof.
  intros H; simpl. destruct (trimEnd r) as [|y r'].
  - rewrite H; eauto.
  - eauto.
Qed.

(** [trim] leaves nothing exactly of the blank strings. *)
Lemma trim_nil (s : jsstring) : trim s = [] <-> blank s = true.
Proof.
  unfold trim; split.
  - intros H. destruct (trimStart s) as [|c r] eqn:E.
    + apply trimStart_nil; exact E.
    + apply trimStart_head in E.
      destruct (trimEnd_head c r E) as [r' H']; congruence.
  - intros H; rewrite (trimStart_blank s H); reflexivity.
Qed.

(** What [trim] leaves starts with a character that is not white space. *)
Lemma trim_not_blank (s : jsstring) : trim s <> [] -> blank (trim s) = false.
Proof.
  unfold trim; intros H.
  destruct (trimStart s) as [|c r] eqn:E; [elim H; reflexivity|].
  apply trimStart_head in E.
  destruct (trimEnd_head c r E) as [r' ->]; simpl; rewrite E; reflexivity.
Qed.

Lemma invalidTitle_blank (s : jsstring) :
  blank s = true -> invalidTitle (JStr s) = true.
Proof.
  intros H; unfold invalidTitle; simpl.
  apply trim_nil in H; rewrite H; simpl.
  destruct s; reflexivity.
Qed.

(** A title that passes the check is a string whose trimmed form is not
    blank. *)
Lemma invalidTitle_false (v : value) :
  invalidTitle v = false ->
  exists s, v = JStr s /\ truthy v = true /\ blank (trim s) = false.
Proof.
  unfold invalidTitle; intros H.
  apply orb_false_iff in H as [H H3]; apply orb_false_iff in H as [H1 H2].
  destruct v; try discriminate.
  exists s; repeat split.
  - destruct (truthy (JStr s)); [reflexivity | discriminate].
  - apply trim_not_blank; simpl in H3.
    destruct (trim s); [discriminate | discriminate].
Qed.

(* ================================================================== *)
(** ** The store keeps its titles *)
(* ================================================================== *)

Lemma replace_Forall (P : Task -> Prop) (i : jsstring) (f : Task -> Task)
  (st st' : Store) (u : Task) :
  (forall t, P t -> P (f t)) -> Forall P st ->
  Prisma.replace i f st = Some (u, st') -> Forall P st'.
Proof.
  intros Hf; revert st' u; induction st as [|t r IH]; simpl; intros st' u H E.
  - discriminate.
  - inversion H; subst. destruct (str_eqb (id t) i).
    + inversion E; subst; constructor; auto.
    + destruct (Prisma.replace i f r) as [[u' r']|]; [|discriminate].
      inversion E; subst; constructor; eauto.
Qed.

Lemma remove_Forall (P : Task -> Prop) (i : jsstring) (st st' : Store)
  (u : Task) :
  Forall P st -> Prisma.remove i st = Some (u, st') -> Forall P st'.
Proof.
  revert st' u; induction st as [|t r IH]; simpl; intros st' u H E.
  - discriminate.
  - inversion H; subst. destruct (str_eqb (id t) i).
    + inversion E; subst; assumption.
    + destruct (Prisma.remove i r) as [[u' r']|]; [|discriminate].
      inversion E; subst; constructor; eauto.
Qed.

Lemma validateTask_title (h : Host) (cp : Copy) (b : body) (v : Validated) :
  validateTask h cp b = inr v -> invalidTitle (b_title b) = false.
Proof.
  unfold validateTask. destruct (invalidTitle (b_title b)); [discriminate|].
  reflexivity.
Qed.

(** Case analysis on the next test of a handler. *)
Ltac next_test :=
  match goal with
  | |- context [if ?x then _ else _] => destruct x eqn:?
  end.

Lemma createTask_titled (h : Host) (c : Call) (st : Store) (b : body) :
  invalidTitle (b_title b) = false -> titled st ->
  titled (fst (createTask h c st b)).
Proof.
  intros Ht Hst. unfold createTask. rewrite Ht.
  do 2 (next_test; [exact Hst|]).
  unfold Prisma.create; simpl.
  destruct (fault c); [exact Hst|].
  destruct (Prisma.column _); [|exact Hst].
  next_test; [|exact Hst]. simpl.
  apply Forall_app; split; [exact Hst|]. constructor; [|constructor]. simpl.
  destruct (invalidTitle_false _ Ht) as (s & -> & _ & Hs). exact Hs.
Qed.

Lemma updateTask_titled (h : Host) (c : Call) (st : Store) (i : jsstring)
  (b : body) :
  invalidTitle (b_title b) = false -> titled st ->
  titled (fst (updateTask h c st i b)).
Proof.
  intros Ht Hst. unfold updateTask.
  do 3 (next_test; [exact Hst|]).
  destruct (invalidTitle_false _ Ht) as (s & Es & Htr & Hs).
  unfold updateData. rewrite Es in *. rewrite Htr. simpl.
  unfold Prisma.update; simpl.
  destruct (fault c) as [e|]; [next_test; exact Hst|].
  match goal with
  | |- context [match ?d with Some _ => _ | None => inl _ end] =>
      destruct d as [due|]
  end; [|next_test; exact Hst].
  match goal with
  | |- context [if ?x then match _ with _ => _ end else _] => destruct x
  end; [|exact Hst].
  destruct (Prisma.replace _ _ st) as [[u st']|] eqn:E.
  - simpl. eapply replace_Forall; [|exact Hst|exact E].
    intros t _; simpl. exact Hs.
  - next_test; exact Hst.
Qed.

Lemma deleteTask_titled (h : Host) (c : Call) (st : Store) (i : jsstring) :
  titled st -> titled (fst (deleteTask h c st i)).
Proof.
  intros Hst. unfold deleteTask.
  next_test; [exact Hst|]. unfold Prisma.delete.
  destruct (fault c) as [e|]; [next_test; exact Hst|].
  destruct (Prisma.remove i st) as [[u st']|] eqn:E.
  - simpl. eapply remove_Forall; eauto.
  - next_test; exact Hst.
Qed.

Lemma route_titled (h : Host) (cp : Copy) (c : Call) (st : Store)
  (r : Request) :
  titled st -> titled (fst (route h cp c st r)).
Proof.
  intros Hst. destruct r as [q|b|i b|i]; simpl.
  - exact Hst.
  - destruct (validateTask h cp b) eqn:E; [exact Hst|].
    apply createTask_titled; [eapply validateTask_title; eauto | exact Hst].
  - destruct (validateTask h cp b) eqn:E; [exact Hst|].
    apply updateTask_titled; [eapply validateTask_title; eauto | exact Hst].
  - apply deleteTask_titled; exact Hst.
Qed.

Lemma run_titled (h : Host) (cp : Copy) (calls : list (Call * Request)) :
  forall st, titled st -> titled (run h cp st calls).
Proof.
  induction calls as [|[c r] rest IH]; simpl; intros st Hst; [exact Hst|].
  apply IH, route_titled, Hst.
Qed.

Lemma validateTask_blank (h : Host) (cp : Copy) (s : jsstring)
  (sv pv dv : value) :
  blank s = true ->
  validateTask h cp (mkBody (JStr s) sv pv dv) = inl titleRejection.
Proof.
  intros H. unfold validateTask. simpl b_title.
  rewrite (invalidTitle_blank s H). reflexivity.
Qed.

(** C6. A payload of create or update whose title is the empty string or
    white space only is rejected by the validation with status 400 and an
    error that names the field [title], the store is left as it was, and
    no sequence of calls puts an empty or white-space-only title into a
    store that had none. *)
Theorem blank_title_rejected_never_stored :
  forall (h : Host) (cp : Copy) (c : Call) (st : Store)
         (calls : list (Call * Request))
         (s : jsstring) (sv pv dv : value) (i : jsstring),
    blank s = true ->
    titled st ->
    let b := mkBody (JStr s) sv pv dv in
    validateTask h cp b = inl titleRejection
    /\ route h cp c st (POST b) = (st, titleRejection)
    /\ route h cp c st (PATCH i b) = (st, titleRejection)
    /\ statusCode titleRejection = 400
    /\ titled (run h cp st calls).
Proof.
  intros h cp c st calls s sv pv dv i Hs Hst b.
  pose proof (validateTask_blank h cp s sv pv dv Hs) as E.
  repeat split.
  - exact E.
  - simpl; subst b; rewrite E; reflexivity.
  - simpl; subst b; rewrite E; reflexivity.
  - apply run_titled, Hst.
Qed.

Lemma blank_title_rejected_never_stored_witness :
  blank (lit "   ") = true /\ titled [] /\
  titled (run sampleHost Verbose []
            [(sampleCall,
              POST (mkBody (JStr (lit " Buy milk ")) JUndefined JUndefined
                      JUndefined));
             (sampleCall,
              PATCH (lit "id-2")
                (mkBody (JStr (lit "   ")) JUndefined JUndefined
                   JUndefined))]).
Proof.
  split; [reflexivity|]. split; [constructor|].
  apply (blank_title_rejected_never_stored sampleHost Verbose sampleCall []
           _ (lit "   ") JUndefined JUndefined JUndefined (lit "id-2"));
    [reflexivity | constructor].
Defined.

(* ================================================================== *)
(** ** Updates *)
(* ================================================================== *)

Lemma replace_Some (i : jsstring) (f : Task -> Task) (st st' : Store)
  (u : Task) :
  Prisma.replace i f st = Some (u, st') ->
  exists pre t post,
    st = pre ++ t :: post /\ id t = i /\ u = f t /\ st' = pre ++ u :: post.
Proof.
  revert st' u; induction st as [|t r IH]; simpl; intros st' u E.
  - discriminate.
  - destruct (str_eqb (id t) i) eqn:Ei.
    + inversion E; subst. exists [], t, r. apply str_eqb_eq in Ei. auto.
    + destruct (Prisma.replace i f r) as [[u' r']|]; [|discriminate].
      inversion E; subst.
      destruct (IH _ _ eq_refl) as (pre & t' & post & -> & ? & ? & ->).
      exists (t :: pre), t', post. auto.
Qed.


Lemma remove_None (i : jsstring) (st : Store) :
  unknown i st -> Prisma.remove i st = None.
Proof.
  unfold unknown; induction st as [|t r IH]; simpl; intros H; [reflexivity|].
  destruct (str_eqb (id t) i) eqn:E.
  - apply str_eqb_eq in E. elim (H t); auto.
  - rewrite IH; auto.
Qed.

(** What the controller writes on a successful update: the row with the
    identifier is the only one touched, and a field the body leaves out
    keeps its value. *)
Lemma updateTask_frame (h : Host) (c : Call) (st st' : Store) (i : jsstring)
  (b : body) (u : Task) :
  updateTask h c st i b = (st', Json 200 (Data u)) ->
  exists pre t post,
    st = pre ++ t :: post /\ st' = pre ++ u :: post /\ id t = i
    /\ id u = id t /\ createdAt u = createdAt t
    /\ (truthy (b_title b) = false -> title u = title t)
    /\ (truthy (b_status b) = false -> status u = status t)
    /\ (truthy (b_priority b) = false -> priority u = priority t)
    /\ (b_dueDate b = JUndefined -> dueDate u = dueDate t).
Proof.
  unfold updateTask. do 3 (next_test; [discriminate|]).
  unfold updateData. next_test.
  - next_test; discriminate.
  - unfold Prisma.update; simpl.
    destruct (fault c); [next_test; discriminate|].
    match goal with
    | |- context [match ?d with Some _ => _ | None => inl _ end] =>
        destruct d as [due|] eqn:Edue
    end; [|next_test; discriminate].
    match goal with
    | |- context [if ?x then match _ with _ => _ end else _] => destruct x
    end; [|discriminate].
    destruct (Prisma.replace _ _ st) as [[u' st'']|] eqn:E;
      [|next_test; discriminate].
    intros H; inversion H; subst st'' u'; clear H.
    destruct (replace_Some _ _ _ _ _ E) as (pre & t & post & -> & Hi & Hu & ->).
    exists pre, t, post. rewrite Hu; simpl.
    repeat split; try assumption.
    + intros ->; reflexivity.
    + intros ->; reflexivity.
    + intros ->; reflexivity.
    + intros Hd; rewrite Hd in Edue; simpl in Edue.
      inversion Edue; reflexivity.
Qed.

(** Every rejection of the middleware has status 400. *)
Lemma validateTask_inl (h : Host) (cp : Copy) (b : body) (r : Response) :
  validateTask h cp b = inl r -> statusCode r = 400.
Proof.
  unfold validateTask.
  repeat match goal with
         | |- context [if ?x then inl _ else _] =>
             destruct x; [intros H; inversion H; reflexivity|]
         end.
  discriminate.
Qed.

(** The same on the PATCH route, for the updates the middleware lets
    through. *)
Lemma patch_frame (h : Host) (cp : Copy) (c : Call) (st st' : Store)
  (i : jsstring) (b : body) (u : Task) :
  route h cp c st (PATCH i b) = (st', Json 200 (Data u)) ->
  exists pre t post,
    st = pre ++ t :: post /\ st' = pre ++ u :: post /\ id t = i
    /\ id u = id t /\ createdAt u = createdAt t
    /\ (truthy (b_title b) = false -> title u = title t)
    /\ (truthy (b_status b) = false -> status u = status t)
    /\ (truthy (b_priority b) = false -> priority u = priority t)
    /\ (b_dueDate b = JUndefined -> dueDate u = dueDate t).
Proof.
  simpl. destruct (validateTask h cp b) as [r|v] eqn:E.
  - apply validateTask_inl in E. intros H; inversion H; subst.
    discriminate.
  - apply updateTask_frame.
Qed.

(** The controller alone applies an update that gives [status] only. *)
Example updateTask_status_only :
  updateTask sampleHost sampleCall sampleStore (lit "id-1")
    (mkBody JUndefined (JStr STATUS_TODO) JUndefined JUndefined)
  = ([mkTask (lit "id-1") (lit "Write report") STATUS_TODO PRIORITY_HIGH
        (Some 1715700000000) 1715000000000 1715774400002],
     Json 200
       (Data (mkTask (lit "id-1") (lit "Write report") STATUS_TODO
                PRIORITY_HIGH (Some 1715700000000) 1715000000000
                1715774400002))).
Proof. vm_compute. reflexivity. Qed.

(** C1. On the PATCH route the middleware runs before the controller and
    asks for a title: an update whose body has no title, such as one that
    gives [status] only, is answered 400 with a title error and nothing is
    applied, whatever the other fields and whether or not the task
    exists. *)
Theorem patch_without_title_rejected :
  forall (h : Host) (cp : Copy) (c : Call) (st : Store) (i : jsstring)
         (sv pv dv : value),
    route h cp c st (PATCH i (mkBody JUndefined sv pv dv))
    = (st, titleRejection)
    /\ route sampleHost cp sampleCall sampleStore
         (PATCH (lit "id-1")
            (mkBody JUndefined (JStr STATUS_TODO) JUndefined JUndefined))
       = (sampleStore, titleRejection)
    /\ statusCode titleRejection = 400.
Proof.
  intros; repeat split.
Qed.

(* ================================================================== *)
(** ** Enumerations *)
(* ================================================================== *)

(** The test of the handlers accepts exactly the members of the status
    enumeration: the array under [_ALL] equals no string. *)
Lemma includes_STATUS (s : jsstring) :
  includes (Object_values STATUS) (JStr s) = true <-> In s status_members.
Proof.
  unfold includes, Object_values, STATUS, status_members.
  cbn [existsb map snd sameValueZero In].
  rewrite !orb_true_iff, !str_eqb_eq.
  unfold STATUS_TODO, STATUS_IN_PROGRESS, STATUS_DONE.
  intuition (try discriminate; auto).
Qed.

Lemma includes_isValidStatus (v : value) :
  includes (Object_values STATUS) v = isValidStatus v.
Proof.
  unfold includes, isValidStatus, includes, Object_values, STATUS; simpl.
  destruct v; simpl; rewrite ?orb_false_r; reflexivity.
Qed.

(** C2. A status that is a case variant of a member is rejected with
    status 400, by the middleware and by [getTasks]; the options the
    response lists are the three members followed by a fourth entry, the
    array stored under [_ALL], and the message ends with the members
    twice. *)
Theorem status_rejection_lists_ALL :
  forall (h : Host) (cp : Copy) (c : Call) (st : Store) (pv dv : value),
    let listed :=
      JArr [JStr STATUS_TODO; JStr STATUS_IN_PROGRESS; JStr STATUS_DONE;
            JArr [JStr STATUS_TODO; JStr STATUS_IN_PROGRESS;
                  JStr STATUS_DONE]] in
    let tail_ := lit "TODO, IN_PROGRESS, DONE, TODO,IN_PROGRESS,DONE" in
    ~ In (lit "todo") status_members
    /\ validateTask h cp
         (mkBody (JStr (lit "Buy milk")) (JStr (lit "todo")) pv dv)
       = inl (fail 400
                (mkError
                   (lit "Invalid status" ++
                    match cp with
                    | Verbose => lit ". Valid options are case-sensitive: "
                    | Quiet => lit ". Valid options: "
                    end ++ tail_)
                   (Some (lit "status")) (Some listed)
                   (echo cp (JStr (lit "todo"))) None))
    /\ getTasks h c st (mkQuery (Some (lit "todo")) None None None None)
       = fail 400
           (mkError (lit "Invalid status. Valid options: " ++ tail_)
              None (Some listed) None None)
    /\ listed <> JArr (map JStr status_members).
Proof.
  intros h cp c st pv dv listed tail_.
  split; [|split; [|split]].
  - intros H; repeat (destruct H as [H|H]; [discriminate|]); exact H.
  - destruct cp; reflexivity.
  - reflexivity.
  - discriminate.
Qed.

(* ================================================================== *)
(** ** Date filters *)
(* ================================================================== *)

Lemma enumFilter_inr (what : string) (o : object) (p : option jsstring)
  (r : option jsstring) :
  enumFilter what o p = inr r -> r = given p.
Proof.
  unfold enumFilter. destruct (given p) as [s|].
  - destruct (negb _); [discriminate|]. intros H; inversion H; reflexivity.
  - intros H; inversion H; reflexivity.
Qed.

(** The [where] of an accepted query: one entry for each parameter
    given. *)
Lemma buildWhereWith_inr (bounds : jsstring -> option Prisma.DateBounds)
  (q : query) (w : Prisma.Where) :
  buildWhereWith bounds q = inr w ->
  Prisma.w_status w = given (q_status q)
  /\ Prisma.w_priority w = given (q_priority q)
  /\ Prisma.w_dueDate w =
       match given (q_dateFilter q) with
       | Some f => bounds f
       | None => None
       end.
Proof.
  unfold buildWhereWith, andThen.
  destruct (enumFilter "status" _ _) as [|s] eqn:Es; [discriminate|].
  destruct (enumFilter "priority" _ _) as [|p] eqn:Ep; [discriminate|].
  destruct (enumFilter "date filter" _ _) as [|f] eqn:Ef; [discriminate|].
  apply enumFilter_inr in Es, Ep, Ef. subst.
  intros H; inversion H; subst; simpl. auto.
Qed.

Lemma buildWhere_inr (h : Host) (c : Call) (q : query) (w : Prisma.Where) :
  buildWhere h c q = inr w ->
  Prisma.w_status w = given (q_status q)
  /\ Prisma.w_priority w = given (q_priority q)
  /\ Prisma.w_dueDate w =
       match given (q_dateFilter q) with
       | Some f => dateBounds h c f
       | None => None
       end.
Proof. apply buildWhereWith_inr. Qed.

Lemma matches_split (w : Prisma.Where) (t : Task) :
  Prisma.matches w t = true <->
  Prisma.matches (anyDate w) t = true
  /\ (forall r, Prisma.w_dueDate w = Some r ->
                Prisma.inBounds r (dueDate t) = true).
Proof.
  unfold Prisma.matches, anyDate; simpl. rewrite andb_true_r.
  destruct (Prisma.w_dueDate w) as [r|].
  - rewrite (andb_true_iff _ (Prisma.inBounds r (dueDate t))).
    split.
    + intros [H1 H2]; split; [exact H1|]. intros r' E; inversion E; subst; auto.
    + intros [H1 H2]; split; auto.
  - rewrite andb_true_r. split; [intros H; split; auto; discriminate | tauto].
Qed.

Lemma overdue_inBounds (n : Z) (d : option Z) :
  Prisma.inBounds (Prisma.mkBounds None None (Some n)) d = true
  <-> exists x, d = Some x /\ x < n.
Proof.
  unfold Prisma.inBounds, Prisma.holds; simpl. destruct d as [x|].
  - rewrite Z.ltb_lt. split; [eauto | intros (y & E & H); congruence].
  - split; [discriminate | intros (y & E & _); discriminate].
Qed.

(** C7. With [dateFilter=overdue] the query bounds [dueDate] from above
    only, strictly, by the instant read for it: beside the other filters,
    a task matches exactly when it has a due date before that instant; one
    second earlier matches, the instant itself and one second later do
    not. *)
Theorem overdue_is_strictly_before_now :
  forall (h : Host) (c : Call) (q : query) (w : Prisma.Where),
    q_dateFilter q = Some DATE_FILTERS_OVERDUE ->
    buildWhere h c q = inr w ->
    let r := Prisma.mkBounds None None (Some (nowOverdue c)) in
    Prisma.w_dueDate w = Some r
    /\ (forall t, Prisma.matches w t = true <->
                  Prisma.matches (anyDate w) t = true
                  /\ exists d, dueDate t = Some d /\ d < nowOverdue c)
    /\ Prisma.inBounds r (Some (nowOverdue c - 1000)) = true
    /\ Prisma.inBounds r (Some (nowOverdue c)) = false
    /\ Prisma.inBounds r (Some (nowOverdue c + 1000)) = false.
Proof.
  intros h c q w Hq Hw r.
  destruct (buildWhere_inr h c q w Hw) as (_ & _ & Hd).
  rewrite Hq in Hd; simpl in Hd. fold r in Hd.
  split; [exact Hd|]. split; [|repeat split].
  - intros t. rewrite matches_split, Hd.
    split; intros [H1 H2]; split; try exact H1.
    + apply overdue_inBounds. apply H2; reflexivity.
    + intros r' E; inversion E; subst r'. apply overdue_inBounds; exact H2.
  - apply overdue_inBounds; eexists; split; [reflexivity | lia].
  - unfold Prisma.inBounds, r; simpl. apply Z.ltb_irrefl.
  - unfold Prisma.inBounds, r; simpl. apply Z.ltb_ge; lia.
Qed.

Lemma overdue_is_strictly_before_now_witness :
  let w := Prisma.mkWhere None None
             (Some (Prisma.mkBounds None None (Some 1715774400001))) in
  Prisma.matches w sampleTask = true
  /\ Prisma.inBounds (Prisma.mkBounds None None (Some 1715774400001))
       (Some 1715774400001) = false.
Proof.
  intros w.
  destruct (overdue_is_strictly_before_now sampleHost sampleCall
              (mkQuery None None (Some DATE_FILTERS_OVERDUE) None None) w
              eq_refl eq_refl) as (_ & _ & _ & H & _).
  split; [reflexivity | exact H].
Defined.

Lemma startOfDay_spec (h : Host) (t : Z) :
  (startOfDay h t + tzOffset h) mod dayMs = 0
  /\ startOfDay h t <= t < startOfDay h t + dayMs.
Proof.
  unfold startOfDay, dayMs.
  pose proof (Z.mod_pos_bound (t + tzOffset h) 86400000 ltac:(lia)) as B.
  split; [|lia].
  replace (t - (t + tzOffset h) mod 86400000 + tzOffset h)
    with ((t + tzOffset h) - (t + tzOffset h) mod 86400000) by lia.
  rewrite Zminus_mod_idemp_r, Z.sub_diag. reflexivity.
Qed.

Lemma today_inBounds (s : Z) (d : option Z) :
  Prisma.inBounds (Prisma.mkBounds (Some s) (Some (s + (dayMs - 1))) None) d
  = true
  <-> exists x, d = Some x /\ s <= x <= s + 86399999.
Proof.
  unfold Prisma.inBounds, Prisma.holds, dayMs; simpl. destruct d as [x|].
  - rewrite andb_true_r, andb_true_iff, !Z.leb_le.
    split; [intros H; exists x; split; [reflexivity | lia]
           | intros (y & E & H); inversion E; subst; lia].
  - split; [discriminate | intros (y & E & _); discriminate].
Qed.

(** The local day of an instant is a whole number of days that holds
    its local time. *)
Lemma localDay_spec (z : Zone) (t : Z) :
  localDay z t mod 86400000 = 0
  /\ localDay z t <= localTime z t <= localDay z t + 86399999.
Proof.
  unfold localDay, dayMs.
  pose proof (Z.div_mod (localTime z t) 86400000 ltac:(lia)) as D.
  pose proof (Z.mod_pos_bound (localTime z t) 86400000 ltac:(lia)) as B.
  split; [apply Z.mod_mul; lia | lia].
Qed.

Lemma range_inBounds (a b : Z) (d : option Z) :
  Prisma.inBounds (Prisma.mkBounds (Some a) (Some b) None) d = true
  <-> exists x, d = Some x /\ a <= x <= b.
Proof.
  unfold Prisma.inBounds, Prisma.holds; simpl. destruct d as [x|].
  - rewrite andb_true_r, andb_true_iff, !Z.leb_le.
    split; [intros H; exists x; split; [reflexivity | lia]
           | intros (y & E & H); inversion E; subst; lia].
  - split; [discriminate | intros (y & E & _); discriminate].
Qed.

Lemma setHours_first (z : Zone) (t : Z) :
  setHours z t 0 0 0 0 = toUTC z (localDay z t).
Proof. unfold setHours. f_equal. lia. Qed.

Lemma setHours_last (z : Zone) (t : Z) :
  setHours z t 23 59 59 999 = toUTC z (localDay z t + 86399999).
Proof. unfold setHours. f_equal. Qed.

Lemma dateBoundsIn_today (z : Zone) (c : Call) :
  dateBoundsIn z c DATE_FILTERS_TODAY
  = Some (Prisma.mkBounds (Some (toUTC z (localDay z (now c))))
            (Some (toUTC z (localDay z (now c) + 86399999))) None).
Proof.
  unfold dateBoundsIn.
  change (str_eqb DATE_FILTERS_TODAY DATE_FILTERS_TODAY) with true.
  cbv beta iota zeta. rewrite setHours_first, setHours_last. reflexivity.
Qed.

(** In a zone that keeps one offset the methods of [Date] are those of
    the fixed-offset reading. *)
Lemma fixedZone_setHours (h : Host) (t : Z) :
  setHours (fixedZone (tzOffset h)) t 0 0 0 0 = startOfDay h t
  /\ setHours (fixedZone (tzOffset h)) t 23 59 59 999 = endOfDay h t.
Proof.
  rewrite setHours_first, setHours_last.
  unfold endOfDay, startOfDay, toUTC, localDay, localTime, dayMs; simpl.
  pose proof (Z.div_mod (t + tzOffset h) 86400000 ltac:(lia)) as D.
  split; lia.
Qed.

Lemma fixedZone_getDay (h : Host) (t : Z) :
  getDayIn (fixedZone (tzOffset h)) t = getDay h t.
Proof. reflexivity. Qed.

Lemma fixedZone_shiftDate (o t n : Z) :
  shiftDate (fixedZone o) t n = addDays t n.
Proof. unfold shiftDate, addDays, toUTC, localTime; simpl. lia. Qed.

Lemma dateBoundsIn_fixedZone (h : Host) (c : Call) (f : jsstring) :
  dateBoundsIn (fixedZone (tzOffset h)) c f = dateBounds h c f.
Proof.
  unfold dateBoundsIn, dateBounds.
  rewrite fixedZone_getDay, !fixedZone_shiftDate.
  rewrite !(proj1 (fixedZone_setHours h _)), !(proj2 (fixedZone_setHours h _)).
  reflexivity.
Qed.

Lemma buildWhereWith_ext (b1 b2 : jsstring -> option Prisma.DateBounds)
  (q : query) :
  (forall f, b1 f = b2 f) -> buildWhereWith b1 q = buildWhereWith b2 q.
Proof.
  intros E. unfold buildWhereWith, andThen.
  destruct (enumFilter "status" _ _); [reflexivity|].
  destruct (enumFilter "priority" _ _); [reflexivity|].
  destruct (enumFilter "date filter" _ _) as [|[f|]]; [reflexivity| |reflexivity].
  rewrite E. reflexivity.
Qed.

(** The routes are the handlers of a zone that keeps the offset of the
    host. *)
Lemma getTasksIn_fixedZone (h : Host) (c : Call) (st : Store) (q : query) :
  getTasksIn (fixedZone (tzOffset h)) h c st q = getTasks h c st q.
Proof.
  unfold getTasksIn, getTasks, getTasksWith.
  rewrite (buildWhereWith_ext _ (dateBounds h c) q (dateBoundsIn_fixedZone h c)).
  reflexivity.
Qed.

(** C8. With [dateFilter=today] the query bounds [dueDate], both ends
    included, by the instants at which the local day of the current
    instant reads 00:00:00.000 and 23:59:59.999, whatever the rules of
    the zone: beside the other filters, a task matches exactly when its
    due date lies between them.  The range is 24 hours less one
    millisecond, less what the offset of the zone gains between the two
    readings.  A task due at 00:00:00 today matches (the range is not
    empty unless the offset gains a day) and no task due before that
    instant does; 23:59:59 of yesterday is before it unless the clocks
    were put forward in that last second. *)
Theorem today_is_the_local_day :
  forall (z : Zone) (c : Call) (q : query) (w : Prisma.Where),
    q_dateFilter q = Some DATE_FILTERS_TODAY ->
    buildWhereIn z c q = inr w ->
    let day := localDay z (now c) in
    let first := toUTC z day in
    let last := toUTC z (day + 86399999) in
    let r := Prisma.mkBounds (Some first) (Some last) None in
    Prisma.w_dueDate w = Some r
    /\ day mod 86400000 = 0
    /\ day <= localTime z (now c) <= day + 86399999
    /\ (forall t, Prisma.matches w t = true <->
                  Prisma.matches (anyDate w) t = true
                  /\ exists d, dueDate t = Some d /\ first <= d <= last)
    /\ last - first
       = 86399999 - (offsetOfLocal z (day + 86399999) - offsetOfLocal z day)
    /\ Prisma.inBounds r (Some first) = (first <=? last)
    /\ (forall d, d < first -> Prisma.inBounds r (Some d) = false)
    /\ (offsetOfLocal z day < offsetOfLocal z (day - 1000) + 1000 ->
        Prisma.inBounds r (Some (toUTC z (day - 1000))) = false).
Proof.
  intros z c q w Hq Hw day first last r.
  destruct (buildWhereWith_inr _ q w Hw) as (_ & _ & Hd).
  rewrite Hq in Hd.
  change (given (Some DATE_FILTERS_TODAY)) with (Some DATE_FILTERS_TODAY)
    in Hd.
  cbv beta iota in Hd. rewrite dateBoundsIn_today in Hd.
  change (Prisma.w_dueDate w = Some r) in Hd.
  destruct (localDay_spec z (now c)) as [M B].
  assert (Early : forall d, d < first -> Prisma.inBounds r (Some d) = false).
  { intros d Hlt. unfold Prisma.inBounds, Prisma.holds, r; simpl.
    apply andb_false_iff; left. apply andb_false_iff; left.
    apply Z.leb_gt; exact Hlt. }
  split; [exact Hd|]. split; [exact M|]. split; [exact B|].
  split; [|split; [|split; [|split]]].
  - intros t. rewrite matches_split, Hd.
    split; intros [H1 H2]; split; try exact H1.
    + apply range_inBounds. apply (H2 r); reflexivity.
    + intros r' E; inversion E; subst r'. apply range_inBounds; exact H2.
  - unfold first, last, toUTC. lia.
  - unfold Prisma.inBounds, Prisma.holds, r; simpl.
    rewrite Z.leb_refl, andb_true_r. reflexivity.
  - exact Early.
  - intros Ho. apply Early. unfold first, toUTC. lia.
Qed.

(** The day the clocks go forward in Berlin has 23 hours. *)
Lemma today_is_the_local_day_witness :
  let r := Prisma.mkBounds (Some 1711839600000) (Some 1711922399999) None in
  buildWhereIn berlin springCall
    (mkQuery None None (Some DATE_FILTERS_TODAY) None None)
  = inr (Prisma.mkWhere None None (Some r))
  /\ 1711922399999 - 1711839600000 = 86399999 - 3600000
  /\ Prisma.inBounds r (Some 1711839600000) = true
  /\ Prisma.inBounds r (Some 1711839599000) = false.
Proof.
  intros r.
  destruct (today_is_the_local_day berlin springCall
              (mkQuery None None (Some DATE_FILTERS_TODAY) None None)
              (Prisma.mkWhere None None (Some r)) eq_refl eq_refl)
    as (_ & _ & _ & _ & Hl & H1 & _ & H2).
  split; [reflexivity|]. split; [exact Hl|]. split; [exact H1|].
  exact (H2 eq_refl).
Defined.

(** C10. [month] is a value of the date-filter enumeration, so a query
    with [dateFilter=month] is not rejected for it; no case of the switch
    handles it, so the query puts no bound on [dueDate] and the response
    is that of the same request without a date filter. *)
Theorem month_filter_is_no_filter :
  forall (h : Host) (c : Call) (st : Store)
         (s p pg lm : option jsstring),
    includes (Object_values DATE_FILTERS) (JStr DATE_FILTERS_MONTH) = true
    /\ dateBounds h c DATE_FILTERS_MONTH = None
    /\ buildWhere h c (mkQuery s p (Some DATE_FILTERS_MONTH) pg lm)
       = buildWhere h c (mkQuery s p None pg lm)
    /\ getTasks h c st (mkQuery s p (Some DATE_FILTERS_MONTH) pg lm)
       = getTasks h c st (mkQuery s p None pg lm).
Proof.
  intros h c st s p pg lm.
  assert (W : buildWhere h c (mkQuery s p (Some DATE_FILTERS_MONTH) pg lm)
              = buildWhere h c (mkQuery s p None pg lm)).
  { unfold buildWhere, buildWhereWith, andThen; simpl.
    destruct (enumFilter "status" STATUS s); [reflexivity|].
    destruct (enumFilter "priority" PRIORITY p); reflexivity. }
  split; [reflexivity|]. split; [reflexivity|]. split; [exact W|].
  unfold getTasks, getTasksWith. unfold buildWhere in W. rewrite W.
  reflexivity.
Qed.

(* ================================================================== *)
(** ** Queries *)
(* ================================================================== *)

Lemma insert_perm (t : Task) (l : list Task) :
  Permutation (Prisma.insert t l) (t :: l).
Proof.
  induction l as [|u r IH]; simpl; [reflexivity|].
  destruct (Prisma.before t u); [reflexivity|].
  rewrite IH. apply perm_swap.
Qed.

(** Ordering the rows neither adds nor drops one. *)
Lemma ordered_perm (l : list Task) : Permutation (Prisma.ordered l) l.
Proof.
  induction l as [|t r IH]; simpl; [reflexivity|].
  rewrite insert_perm, IH. reflexivity.
Qed.

Lemma selection_In (w : Prisma.Where) (st : Store) (t : Task) :
  In t (selection w st) <-> In t st /\ Prisma.matches w t = true.
Proof.
  unfold selection. rewrite <- filter_In.
  split; apply Permutation_in;
    [apply ordered_perm | symmetry; apply ordered_perm].
Qed.

Lemma selection_length (w : Prisma.Where) (st : Store) :
  length (selection w st) = length (filter (Prisma.matches w) st).
Proof. apply Permutation_length, ordered_perm. Qed.

Lemma slice_In (p l : Z) (rows : list Task) (t : Task) :
  In t (slice p l rows) -> In t rows.
Proof.
  unfold slice; intros H.
  rewrite <- (firstn_skipn (Z.to_nat ((p - 1) * l)) rows).
  apply in_or_app; right.
  rewrite <- (firstn_skipn (Z.to_nat l) (skipn _ rows)).
  apply in_or_app; left. exact H.
Qed.

Lemma slice_length (p l : Z) (rows : list Task) :
  1 <= l -> Z.of_nat (length (slice p l rows)) <= l.
Proof.
  intros Hl; unfold slice.
  pose proof (firstn_le_length (Z.to_nat l)
                (skipn (Z.to_nat ((p - 1) * l)) rows)).
  lia.
Qed.

(** Every row is on one of the pages. *)
Lemma slice_covers (l : Z) (rows : list Task) (t : Task) :
  1 <= l -> In t rows -> exists n, 1 <= n /\ In t (slice n l rows).
Proof.
  intros Hl H. apply In_nth_error in H as [k Hk].
  assert (Hlt : (k < length rows)%nat)
    by (apply nth_error_Some; congruence).
  set (j := Z.of_nat k / l).
  assert (Hj : 0 <= j) by (apply Z.div_pos; lia).
  assert (Hr : 0 <= Z.of_nat k mod l < l) by (apply Z.mod_pos_bound; lia).
  assert (Hk' : Z.of_nat k = l * j + Z.of_nat k mod l)
    by (apply Z.div_mod; lia).
  exists (j + 1); split; [lia|].
  unfold slice. replace (j + 1 - 1) with j by lia.
  apply nth_error_In with (n := Z.to_nat (Z.of_nat k mod l)).
  rewrite nth_error_firstn.
  destruct (Nat.ltb_spec (Z.to_nat (Z.of_nat k mod l)) (Z.to_nat l));
    [|lia].
  rewrite nth_error_skipn.
  replace (Z.to_nat (j * l) + Z.to_nat (Z.of_nat k mod l))%nat with k;
    [exact Hk|].
  rewrite <- Z2Nat.inj_add by nia.
  rewrite <- (Nat2Z.id k) at 1. f_equal. lia.
Qed.

Lemma pagination_inr (q : query) (p l : Z) :
  pagination q = inr (p, l) ->
  parseParam (q_page q) 1 = Some p /\ parseParam (q_limit q) 10 = Some l
  /\ 1 <= p /\ 1 <= l.
Proof.
  unfold pagination.
  destruct (parseParam (q_page q) 1) as [p'|]; [|discriminate].
  destruct (parseParam (q_limit q) 10) as [l'|]; [|discriminate].
  destruct (orb _ _) eqn:E; [discriminate|].
  intros H; inversion H; subst.
  apply orb_false_iff in E as [E1 E2].
  apply Z.ltb_ge in E1, E2. auto.
Qed.

(** [ceilDiv a b] is the least number of groups of [b] that hold [a]. *)
Lemma ceilDiv_spec (a b : Z) :
  0 < b -> (ceilDiv a b - 1) * b < a <= ceilDiv a b * b.
Proof.
  intros Hb; unfold ceilDiv.
  pose proof (Z.div_mod (- a) b ltac:(lia)).
  pose proof (Z.mod_pos_bound (- a) b Hb).
  nia.
Qed.

Lemma ceilDiv_0 (b : Z) : ceilDiv 0 b = 0.
Proof. unfold ceilDiv. change (- 0) with 0. rewrite Zdiv_0_l. reflexivity. Qed.

(** The handler, with the [where] under its name. *)
Lemma getTasks_eq (h : Host) (c : Call) (st : Store) (q : query) :
  getTasks h c st q
  = match pagination q with
    | inl r => r
    | inr (pageNum, limitNum) =>
        match buildWhere h c q with
        | inl r => r
        | inr where_ =>
            match Prisma.findMany h c st where_ ((pageNum - 1) * limitNum)
                    limitNum,
                  Prisma.count h c st where_ with
            | inr tasks, inr total_ =>
                Json 200 (Page tasks
                            (mkPagination total_ pageNum limitNum
                               (ceilDiv total_ limitNum)))
            | inl e, _ | _, inl e =>
                failed h 500 "Failed to fetch tasks" e
            end
        end
    end.
Proof. reflexivity. Qed.

Lemma pagination_inl (q : query) (r : Response) :
  pagination q = inl r -> r = invalidPagination.
Proof.
  unfold pagination.
  destruct (parseParam (q_page q) 1), (parseParam (q_limit q) 10);
    try destruct (orb _ _); congruence.
Qed.

Lemma enumFilter_inl (what : string) (o : object) (p : option jsstring)
  (r : Response) :
  enumFilter what o p = inl r ->
  r = invalidOption what o
  /\ exists s, given p = Some s /\ includes (Object_values o) (JStr s) = false.
Proof.
  unfold enumFilter. destruct (given p) as [s|]; [|discriminate].
  destruct (includes _ _) eqn:E; simpl; [discriminate|].
  intros H; inversion H; eauto.
Qed.

(** A query is rejected by [buildWhere] with status 400 only. *)
Lemma buildWhere_inl (h : Host) (c : Call) (q : query) (r : Response) :
  buildWhere h c q = inl r -> statusCode r = 400.
Proof.
  unfold buildWhere, buildWhereWith, andThen.
  destruct (enumFilter "status" _ _) as [r1|s] eqn:Es.
  { intros H; inversion H; subst. apply enumFilter_inl in Es as [-> _].
    reflexivity. }
  destruct (enumFilter "priority" _ _) as [r2|p] eqn:Ep.
  { intros H; inversion H; subst. apply enumFilter_inl in Ep as [-> _].
    reflexivity. }
  destruct (enumFilter "date filter" _ _) as [r3|f] eqn:Ef.
  { intros H; inversion H; subst. apply enumFilter_inl in Ef as [-> _].
    reflexivity. }
  discriminate.
Qed.

(** A page response comes from valid parameters and a healthy store, and
    its page and its count are taken from one [where]. *)
Lemma getTasks_Page (h : Host) (c : Call) (st : Store) (q : query)
  (tasks : list Task) (pg : Pagination) :
  getTasks h c st q = Json 200 (Page tasks pg) ->
  exists w,
    pagination q = inr (page pg, limit pg)
    /\ buildWhere h c q = inr w
    /\ fault c = None
    /\ tasks = slice (page pg) (limit pg) (selection w st)
    /\ total pg = Z.of_nat (length (filter (Prisma.matches w) st))
    /\ totalPages pg = ceilDiv (total pg) (limit pg).
Proof.
  rewrite getTasks_eq.
  destruct (pagination q) as [r|[p l]] eqn:Ep.
  - apply pagination_inl in Ep; subst r. discriminate.
  - destruct (buildWhere h c q) as [r|w] eqn:Ew.
    + apply buildWhere_inl in Ew. intros ->. discriminate.
    + unfold Prisma.findMany, Prisma.count.
      destruct (fault c) as [e|] eqn:Ef; [discriminate|].
      destruct (Prisma.accepts w); simpl; [|discriminate].
      destruct (Prisma.fitsInt _ && Prisma.fitsInt _); [|discriminate].
      intros H; inversion H; subst; clear H. simpl.
      exists w. repeat split.
Qed.

(** The store's client took the query of a page response: its [where] is
    of the schema and its [skip] and [take] fit. *)
Lemma getTasks_Page_accepted (h : Host) (c : Call) (st : Store) (q : query)
  (tasks : list Task) (pg : Pagination) (w : Prisma.Where) :
  getTasks h c st q = Json 200 (Page tasks pg) ->
  buildWhere h c q = inr w ->
  Prisma.accepts w = true
  /\ Prisma.fitsInt ((page pg - 1) * limit pg) = true
  /\ Prisma.fitsInt (limit pg) = true.
Proof.
  intros H Ew. rewrite getTasks_eq in H.
  destruct (pagination q) as [r|[p l]] eqn:Ep.
  - apply pagination_inl in Ep; subst r. discriminate.
  - rewrite Ew in H. unfold Prisma.findMany, Prisma.count in H.
    destruct (fault c) as [e|]; [discriminate|].
    destruct (Prisma.accepts w); simpl in H; [|discriminate].
    destruct (Prisma.fitsInt ((p - 1) * l)) eqn:E1; simpl in H;
      [|discriminate].
    destruct (Prisma.fitsInt l) eqn:E2; [|discriminate].
    inversion H; subst; simpl. auto.
Qed.

(** A request with valid parameters on a healthy store is answered with a
    page. *)
Lemma getTasks_succeeds (h : Host) (c : Call) (st : Store) (q : query)
  (p l : Z) (w : Prisma.Where) :
  pagination q = inr (p, l) -> buildWhere h c q = inr w -> fault c = None ->
  Prisma.accepts w = true ->
  Prisma.fitsInt ((p - 1) * l) = true -> Prisma.fitsInt l = true ->
  getTasks h c st q
  = Json 200 (Page (slice p l (selection w st))
                (mkPagination
                   (Z.of_nat (length (filter (Prisma.matches w) st))) p l
                   (ceilDiv (Z.of_nat (length (filter (Prisma.matches w) st)))
                      l))).
Proof.
  intros Ep Ew Ef Ea E1 E2. rewrite getTasks_eq.
  unfold Prisma.findMany, Prisma.count.
  rewrite Ep, Ew, Ef, Ea, E1, E2. reflexivity.
Qed.

Lemma matches_spec (w : Prisma.Where) (t : Task) :
  Prisma.matches w t = true <->
  (forall s, Prisma.w_status w = Some s -> status t = s)
  /\ (forall p, Prisma.w_priority w = Some p -> priority t = p)
  /\ (forall r, Prisma.w_dueDate w = Some r ->
                Prisma.inBounds r (dueDate t) = true).
Proof.
  unfold Prisma.matches. rewrite !andb_true_iff.
  destruct (Prisma.w_status w) as [s|], (Prisma.w_priority w) as [p|],
    (Prisma.w_dueDate w) as [r|]; rewrite ?str_eqb_eq;
    (split;
     [ intros [[H1 H2] H3]; repeat split; intros x E;
       inversion E; subst; auto
     | intros (H1 & H2 & H3); repeat split; auto ]).
Qed.

(** The [where] of a query selects the tasks that satisfy every filter
    the query supplies. *)
Lemma matches_satisfies (h : Host) (c : Call) (q : query) (w : Prisma.Where)
  (t : Task) :
  buildWhere h c q = inr w ->
  (Prisma.matches w t = true <-> satisfies h c q t).
Proof.
  intros Hw. destruct (buildWhere_inr h c q w Hw) as (Hs & Hp & Hd).
  rewrite matches_spec, Hs, Hp, Hd. unfold satisfies.
  split; intros (H1 & H2 & H3); repeat split; auto.
  - intros f r Ef Er. apply H3. rewrite Ef. exact Er.
  - intros r E. destruct (given (q_dateFilter q)) as [f|]; [|discriminate].
    eapply H3; eauto.
Qed.

(* ================================================================== *)
(** ** Validated bodies and unknown identifiers *)
(* ================================================================== *)

(** What a body has passed when the middleware calls [next()]. *)
Lemma validateTask_inr (h : Host) (cp : Copy) (b : body) (v : Validated) :
  validateTask h cp b = inr v ->
  invalidTitle (b_title b) = false
  /\ truthy (b_status b) && negb (includes (Object_values STATUS) (b_status b))
     = false
  /\ truthy (b_priority b)
     && negb (includes (Object_values PRIORITY) (b_priority b)) = false
  /\ negb (isNullish (b_dueDate b))
     && (negb (isString (b_dueDate b)) || isInvalid (newDate h (b_dueDate b)))
     = false.
Proof.
  unfold validateTask.
  repeat match goal with
         | |- context [if ?x then inl _ else _] =>
             destruct x eqn:?; [discriminate|]
         end.
  auto.
Qed.

(** A due date that passed the middleware is absent, null or a valid
    date: the store's client accepts it. *)
Lemma validated_dueDate (h : Host) (d : value) :
  negb (isNullish d) && (negb (isString d) || isInvalid (newDate h d)) = false ->
  exists due, Prisma.column (dateOrNull h d) = Some due.
Proof.
  unfold dateOrNull.
  destruct d as [| |x|n|s|l|o]; simpl; eauto; try discriminate.
  destruct s; simpl; eauto.
  destruct (newDate h _); simpl; [discriminate | eauto].
Qed.

Lemma validated_update (h : Host) (cp : Copy) (b : body) (v : Validated) :
  validateTask h cp b = inr v ->
  exists d, updateData h b = inr d
            /\ exists due,
                 match Prisma.u_dueDate d with
                 | None => Some None
                 | Some x => option_map Some (Prisma.column x)
                 end = Some due.
Proof.
  intros Hv.
  destruct (validateTask_inr h cp b v Hv) as (Ht & _ & _ & Hd).
  destruct (invalidTitle_false _ Ht) as (s & Es & Htr & _).
  unfold updateData. rewrite Es in *. rewrite Htr. simpl.
  eexists; split; [reflexivity|]. simpl.
  destruct (validated_dueDate h _ Hd) as [due Hdue].
  destruct (b_dueDate b); [eauto | ..]; rewrite Hdue; simpl; eauto.
Qed.

Lemma deleteTask_unknown (h : Host) (c : Call) (st : Store) (i : jsstring) :
  fault c = None -> unknown i st -> i <> [] ->
  deleteTask h c st i = (st, notFound).
Proof.
  intros Hf Hu Hi. unfold deleteTask, Prisma.delete.
  replace (negb (truthy (JStr i))) with false by (destruct i; [congruence | reflexivity]).
  rewrite Hf, (remove_None i st Hu). reflexivity.
Qed.

(** The strings the date-filter test accepts. *)
Lemma includes_DATE_FILTERS (s : jsstring) :
  includes (Object_values DATE_FILTERS) (JStr s) = true <->
  In s [DATE_FILTERS_TODAY; DATE_FILTERS_WEEK; DATE_FILTERS_MONTH;
        DATE_FILTERS_OVERDUE].
Proof.
  unfold includes, Object_values, DATE_FILTERS.
  cbn [existsb map snd sameValueZero In].
  rewrite !orb_true_iff, !str_eqb_eq.
  unfold DATE_FILTERS_TODAY, DATE_FILTERS_WEEK, DATE_FILTERS_MONTH,
    DATE_FILTERS_OVERDUE.
  intuition (try discriminate; auto).
Qed.

(* ================================================================== *)
(** ** Failures of the store *)
(* ================================================================== *)

(** A store failure during a create that passed the middleware is
    answered 400. *)
Lemma create_store_failure (h : Host) (cp : Copy) (c : Call) (st : Store)
  (b : body) (v : Validated) (e : Error) :
  fault c = Some e -> validateTask h cp b = inr v ->
  route h cp c st (POST b) = (st, failed h 400 "Failed to create task" e).
Proof.
  intros Hf Hv. simpl. rewrite Hv.
  destruct (validateTask_inr h cp b v Hv) as (Ht & Hs & Hp & Hd).
  unfold createTask. rewrite Ht.
  replace (truthy (defaultTo (b_status b) (JStr STATUS_TODO))
           && negb (includes (Object_values STATUS)
                      (defaultTo (b_status b) (JStr STATUS_TODO))))
    with false by (destruct (b_status b); auto).
  replace (truthy (defaultTo (b_priority b) (JStr PRIORITY_MEDIUM))
           && negb (includes (Object_values PRIORITY)
                      (defaultTo (b_priority b) (JStr PRIORITY_MEDIUM))))
    with false by (destruct (b_priority b); auto).
  unfold Prisma.create; simpl.
  destruct (validated_dueDate h _ Hd) as [due ->].
  rewrite Hf. reflexivity.
Qed.

(** A store failure other than "record not found" during an update that
    passed the middleware is answered 400. *)
Lemma update_store_failure (h : Host) (cp : Copy) (c : Call) (st : Store)
  (i : jsstring) (b : body) (v : Validated) (e : Error) :
  fault c = Some e -> isP2025 e = false -> i <> [] ->
  validateTask h cp b = inr v ->
  route h cp c st (PATCH i b) = (st, failed h 400 "Failed to update task" e).
Proof.
  intros Hf He Hi Hv. simpl. rewrite Hv.
  destruct (validateTask_inr h cp b v Hv) as (_ & Hs & Hp & _).
  destruct (validated_update h cp b v Hv) as (d & Ed & due & Edue).
  unfold updateTask.
  replace (negb (truthy (JStr i))) with false
    by (destruct i; [congruence | reflexivity]).
  rewrite Hs, Hp, Ed. unfold Prisma.update. rewrite Edue, Hf, He.
  reflexivity.
Qed.

(** A store failure other than "record not found" during a delete is
    answered 500. *)
Lemma delete_store_failure (h : Host) (cp : Copy) (c : Call) (st : Store)
  (i : jsstring) (e : Error) :
  fault c = Some e -> isP2025 e = false -> i <> [] ->
  route h cp c st (DELETE i) = (st, failed h 500 "Failed to delete task" e).
Proof.
  intros Hf He Hi. simpl. unfold deleteTask, Prisma.delete.
  replace (negb (truthy (JStr i))) with false
    by (destruct i; [congruence | reflexivity]).
  rewrite Hf, He. reflexivity.
Qed.

(** C3. When the store fails for a reason of its own, the delete handler
    answers 500, and the create and update handlers answer 400, the code
    of their validation failures; in each case the store is left as it
    was. *)
Theorem store_failure_status_codes :
  forall (h : Host) (cp : Copy) (st : Store) (n n' sn : Z) (u msg : jsstring),
    let e := mkErr (Some (lit "P1001")) msg in
    let c := mkCall n n' sn u (Some e) in
    let b := mkBody (JStr (lit "Buy milk")) JUndefined JUndefined
               JUndefined in
    route h cp c st (POST b) = (st, failed h 400 "Failed to create task" e)
    /\ route h cp c st (PATCH (lit "id-1") b)
       = (st, failed h 400 "Failed to update task" e)
    /\ route h cp c st (DELETE (lit "id-1"))
       = (st, failed h 500 "Failed to delete task" e)
    /\ statusCode (failed h 400 "Failed to create task" e) = 400
    /\ statusCode (failed h 500 "Failed to delete task" e) = 500.
Proof.
  intros; repeat split.
Qed.


(* ================================================================== *)
(** ** What a call can answer and change *)
(* ================================================================== *)

Lemma createTask_outcome (h : Host) (c : Call) (st : Store) (b : body) :
  (fst (createTask h c st b) = st
   /\ statusCode (snd (createTask h c st b)) = 400)
  \/ exists t, createTask h c st b = (st ++ [t], Json 201 (Data t)).
Proof.
  unfold createTask.
  do 3 (next_test; [left; split; reflexivity|]).
  destruct (Prisma.create _ _ _ _) as [e|[t st']] eqn:E.
  - left; split; reflexivity.
  - right. unfold Prisma.create in E.
    destruct (fault c); [discriminate|].
    destruct (Prisma.column _); [|discriminate].
    destruct (Prisma.isName _ _ && Prisma.isName _ _); [|discriminate].
    inversion E; subst. eauto.
Qed.

Lemma updateTask_outcome (h : Host) (c : Call) (st : Store) (i : jsstring)
  (b : body) :
  (fst (updateTask h c st i b) = st
   /\ (statusCode (snd (updateTask h c st i b)) = 400
       \/ statusCode (snd (updateTask h c st i b)) = 404))
  \/ exists st' u, updateTask h c st i b = (st', Json 200 (Data u)).
Proof.
  unfold updateTask.
  do 3 (next_test; [left; split; [reflexivity | left; reflexivity]|]).
  match goal with
  | |- context [match ?a with inl _ => _ | inr _ => _ end] =>
      destruct a as [e|[u st']]
  end.
  - left. next_test; split; auto.
  - right; eauto.
Qed.

Lemma deleteTask_outcome (h : Host) (c : Call) (st : Store) (i : jsstring) :
  (fst (deleteTask h c st i) = st
   /\ In (statusCode (snd (deleteTask h c st i))) [400; 404; 500])
  \/ exists st', deleteTask h c st i = (st', Empty 204).
Proof.
  unfold deleteTask.
  next_test; [left; split; [reflexivity | simpl; auto]|].
  destruct (Prisma.delete h c st i) as [e|[u st']].
  - left. next_test; split; simpl; auto.
  - right; eauto.
Qed.

Lemma getTasks_outcome (h : Host) (c : Call) (st : Store) (q : query) :
  In (statusCode (getTasks h c st q)) [200; 400; 500].
Proof.
  rewrite getTasks_eq.
  destruct (pagination q) as [r|[p l]] eqn:Ep.
  { apply pagination_inl in Ep; subst; simpl; auto. }
  destruct (buildWhere h c q) as [r|w] eqn:Ew.
  { apply buildWhere_inl in Ew; rewrite Ew; simpl; auto. }
  destruct (Prisma.findMany _ _ _ _ _ _);
    [|destruct (Prisma.count _ _ _ _)]; simpl; auto.
Qed.

(** X1. The status codes of each route, for a request the rate limiter
    lets through and, for a create or an update, whose body was parsed to
    an object: a list query answers 200, 400 or 500; a create answers 201
    or 400, never 404 or 500; an update answers 200, 400 or 404, never
    500; a delete answers 204, 400, 404 or 500. *)
Theorem route_status_codes :
  forall (h : Host) (cp : Copy) (c : Call) (st : Store) (r : Request),
    In (statusCode (snd (route h cp c st r)))
       match r with
       | GET _ => [200; 400; 500]
       | POST _ => [201; 400]
       | PATCH _ _ => [200; 400; 404]
       | DELETE _ => [204; 400; 404; 500]
       end.
Proof.
  intros h cp c st [q|b|i b|i]; simpl.
  - apply getTasks_outcome.
  - destruct (validateTask h cp b) as [r|v] eqn:E.
    + apply validateTask_inl in E; simpl; rewrite E; auto.
    + destruct (createTask_outcome h c st b) as [[_ ->]|[t ->]]; simpl; auto.
  - destruct (validateTask h cp b) as [r|v] eqn:E.
    + apply validateTask_inl in E; simpl; rewrite E; auto.
    + destruct (updateTask_outcome h c st i b)
        as [[_ [-> | ->]]|(st' & u & ->)]; simpl; auto.
  - destruct (deleteTask_outcome h c st i) as [[_ H]|[st' ->]].
    + simpl in H; simpl; tauto.
    + simpl; auto.
Qed.

(** X2. A call that is not answered 200, 201 or 204 leaves the store as
    it was, and so does every list query: the store changes only with a
    successful create, update or delete. *)
Theorem failed_calls_change_nothing :
  forall (h : Host) (cp : Copy) (c : Call) (st : Store) (r : Request),
    fst (route h cp c st r) = st
    \/ (succeeds (snd (route h cp c st r)) = true
        /\ forall q, r <> GET q).
Proof.
  intros h cp c st [q|b|i b|i]; simpl.
  - left; reflexivity.
  - destruct (validateTask h cp b); [left; reflexivity|].
    destruct (createTask_outcome h c st b) as [[H _]|[t ->]];
      [left; exact H | right; split; [reflexivity | discriminate]].
  - destruct (validateTask h cp b); [left; reflexivity|].
    destruct (updateTask_outcome h c st i b) as [[H _]|(st' & u & ->)];
      [left; exact H | right; split; [reflexivity | discriminate]].
  - destruct (deleteTask_outcome h c st i) as [[H _]|[st' ->]];
      [left; exact H | right; split; [reflexivity | discriminate]].
Qed.

(* ================================================================== *)
(** ** Invariants of the store *)
(* ================================================================== *)

Lemma includes_PRIORITY (s : jsstring) :
  includes (Object_values PRIORITY) (JStr s) = true <-> In s priority_members.
Proof.
  unfold includes, Object_values, PRIORITY, priority_members.
  cbn [existsb map snd sameValueZero In].
  rewrite !orb_true_iff, !str_eqb_eq.
  unfold PRIORITY_LOW, PRIORITY_MEDIUM, PRIORITY_HIGH.
  intuition (try discriminate; auto).
Qed.

(** Only a string is found in the values of an enumeration. *)
Lemma includes_string (o : object) (v : value) :
  (forall n x, In (n, x) o -> isString x = true \/ exists l, x = JArr l) ->
  includes (Object_values o) v = true -> exists s, v = JStr s.
Proof.
  unfold includes, Object_values. intros Ho H.
  apply existsb_exists in H as (x & Hx & E).
  apply in_map_iff in Hx as ([n x'] & <- & Hin). simpl in E.
  destruct (Ho _ _ Hin) as [Hs|[l ->]].
  - destruct x'; try discriminate. destruct v; try discriminate. eauto.
  - discriminate.
Qed.

Lemma includes_STATUS_value (v : value) :
  includes (Object_values STATUS) v = true ->
  exists s, v = JStr s /\ In s status_members.
Proof.
  intros H. destruct (includes_string STATUS v) as [s ->]; [|exact H|].
  - intros n x Hin; simpl in Hin.
    repeat (destruct Hin as [E|Hin]; [inversion E; subst; eauto|]).
    contradiction.
  - exists s; split; [reflexivity | apply includes_STATUS; exact H].
Qed.

Lemma includes_PRIORITY_value (v : value) :
  includes (Object_values PRIORITY) v = true ->
  exists s, v = JStr s /\ In s priority_members.
Proof.
  intros H. destruct (includes_string PRIORITY v) as [s ->]; [|exact H|].
  - intros n x Hin; simpl in Hin.
    repeat (destruct Hin as [E|Hin]; [inversion E; subst; eauto|]).
    contradiction.
  - exists s; split; [reflexivity | apply includes_PRIORITY; exact H].
Qed.

(** A value that passed the test of a controller, read with a default of
    the enumeration, is a member. *)
Lemma chosen_status (v : value) (d : jsstring) :
  truthy v && negb (includes (Object_values STATUS) v) = false ->
  In d status_members -> In (chosen v d) status_members.
Proof.
  unfold chosen. destruct (truthy v); simpl; [|auto].
  intros H _. apply negb_false_iff in H.
  destruct (includes_STATUS_value v H) as (s & -> & Hs). exact Hs.
Qed.

Lemma chosen_priority (v : value) (d : jsstring) :
  truthy v && negb (includes (Object_values PRIORITY) v) = false ->
  In d priority_members -> In (chosen v d) priority_members.
Proof.
  unfold chosen. destruct (truthy v); simpl; [|auto].
  intros H _. apply negb_false_iff in H.
  destruct (includes_PRIORITY_value v H) as (s & -> & Hs). exact Hs.
Qed.

Lemma str_or (v : value) (d : jsstring) : str (or_ v (JStr d)) = chosen v d.
Proof. unfold or_, chosen. destruct (truthy v); reflexivity. Qed.

Lemma createTask_enumerated (h : Host) (c : Call) (st : Store) (b : body) :
  enumerated st -> enumerated (fst (createTask h c st b)).
Proof.
  intros Hst. unfold createTask.
  next_test; [exact Hst|].
  destruct (truthy (defaultTo (b_status b) _) && _) eqn:Es; [exact Hst|].
  destruct (truthy (defaultTo (b_priority b) _) && _) eqn:Ep; [exact Hst|].
  unfold Prisma.create; simpl.
  destruct (fault c); [exact Hst|].
  destruct (Prisma.column _); [|exact Hst].
  next_test; [|exact Hst]. simpl.
  apply Forall_app; split; [exact Hst|]. constructor; [|constructor].
  simpl. rewrite !str_or. split.
  - apply chosen_status; [exact Es | simpl; auto].
  - apply chosen_priority; [exact Ep | simpl; auto].
Qed.

Lemma updateTask_enumerated (h : Host) (c : Call) (st : Store)
  (i : jsstring) (b : body) :
  enumerated st -> enumerated (fst (updateTask h c st i b)).
Proof.
  intros Hst. unfold updateTask.
  next_test; [exact Hst|].
  destruct (truthy (b_status b) && _) eqn:Es; [exact Hst|].
  destruct (truthy (b_priority b) && _) eqn:Ep; [exact Hst|].
  unfold updateData. next_test; [next_test; exact Hst|].
  unfold Prisma.update; simpl.
  destruct (fault c) as [e|]; [next_test; exact Hst|].
  match goal with
  | |- context [match ?d with Some _ => _ | None => inl _ end] =>
      destruct d as [due|]
  end; [|next_test; exact Hst].
  destruct (Prisma.nameOrAbsent _ _ && Prisma.nameOrAbsent _ _);
    [|next_test; exact Hst].
  destruct (Prisma.replace _ _ st) as [[u st']|] eqn:E;
    [|next_test; exact Hst].
  simpl. eapply replace_Forall; [|exact Hst|exact E].
  intros t [H1 H2]; simpl. split.
  - pose proof (chosen_status (b_status b) (status t) Es H1) as H.
    unfold chosen in H. destruct (truthy (b_status b)); exact H.
  - pose proof (chosen_priority (b_priority b) (priority t) Ep H2) as H.
    unfold chosen in H. destruct (truthy (b_priority b)); exact H.
Qed.

Lemma route_enumerated (h : Host) (cp : Copy) (c : Call) (st : Store)
  (r : Request) :
  enumerated st -> enumerated (fst (route h cp c st r)).
Proof.
  intros Hst. destruct r as [q|b|i b|i]; simpl.
  - exact Hst.
  - destruct (validateTask h cp b); [exact Hst|].
    apply createTask_enumerated; exact Hst.
  - destruct (validateTask h cp b); [exact Hst|].
    apply updateTask_enumerated; exact Hst.
  - unfold deleteTask. next_test; [exact Hst|]. unfold Prisma.delete.
    destruct (fault c) as [e|]; [next_test; exact Hst|].
    destruct (Prisma.remove i st) as [[u st']|] eqn:E.
    + simpl. eapply remove_Forall; eauto.
    + next_test; exact Hst.
Qed.

(** X3. Whatever the calls, a store whose rows all have a status among
    TODO, IN_PROGRESS, DONE and a priority among low, medium, high stays
    such a store: a create or an update writes a status or a priority only
    after the test against the enumeration, and the defaults are
    members. *)
Theorem stored_enums_are_members :
  forall (h : Host) (cp : Copy) (calls : list (Call * Request)) (st : Store),
    enumerated st -> enumerated (run h cp st calls).
Proof.
  intros h cp calls; induction calls as [|[c r] rest IH]; simpl;
    intros st Hst; [exact Hst|].
  apply IH, route_enumerated, Hst.
Qed.

Lemma stored_enums_are_members_witness :
  enumerated
    (run sampleHost Verbose sampleStore
       [(sampleCall,
         POST (mkBody (JStr (lit "Buy milk")) JNull (JStr PRIORITY_LOW)
                 JUndefined));
        (sampleCall,
         PATCH (lit "id-1")
           (mkBody (JStr (lit "Write report")) (JStr STATUS_TODO) JUndefined
              JUndefined))]).
Proof.
  apply (stored_enums_are_members sampleHost Verbose).
  constructor; [|constructor]. simpl; auto.
Defined.

(* ================================================================== *)
(** ** Creating, updating and deleting a task *)
(* ================================================================== *)

Lemma unknown_app (i : jsstring) (a b : Store) :
  unknown i (a ++ b) <-> unknown i a /\ unknown i b.
Proof.
  unfold unknown; split.
  - intros H; split; intros t Ht; apply H, in_or_app; auto.
  - intros [Ha Hb] t Ht. apply in_app_or in Ht as [Ht|Ht]; auto.
Qed.

Lemma unknown_map (i : jsstring) (st : Store) :
  unknown i st <-> ~ In i (map id st).
Proof.
  unfold unknown; split.
  - intros H Hin. apply in_map_iff in Hin as (t & E & Ht). exact (H t Ht E).
  - intros H t Ht E. apply H. rewrite <- E. apply in_map; exact Ht.
Qed.

(** The first row with the identifier, when there is one. *)
Lemma first_with_id (i : jsstring) (st : Store) :
  (exists t, In t st /\ id t = i) ->
  exists pre t post,
    st = pre ++ t :: post /\ id t = i /\ unknown i pre.
Proof.
  induction st as [|x r IH]; intros (t & Ht & E); [contradiction|].
  destruct (str_eqb (id x) i) eqn:Ex.
  - apply str_eqb_eq in Ex. exists [], x, r. repeat split; auto.
    intros y [].
  - assert (Hx : id x <> i).
    { intros H; apply str_eqb_eq in H; congruence. }
    destruct Ht as [->|Ht]; [contradiction|].
    destruct IH as (pre & y & post & -> & Ey & Hu); [eauto|].
    exists (x :: pre), y, post. repeat split; auto.
    intros z [<-|Hz]; auto.
Qed.

Lemma replace_first (i : jsstring) (f : Task -> Task) (pre post : Store)
  (t : Task) :
  unknown i pre -> id t = i ->
  Prisma.replace i f (pre ++ t :: post) = Some (f t, pre ++ f t :: post).
Proof.
  intros Hu Et; induction pre as [|x pre IH]; simpl.
  - rewrite (proj2 (str_eqb_eq _ _) Et). reflexivity.
  - destruct (str_eqb (id x) i) eqn:Ex.
    + apply str_eqb_eq in Ex. elim (Hu x); simpl; auto.
    + rewrite IH; [reflexivity|]. intros y Hy; apply Hu; simpl; auto.
Qed.

Lemma remove_first (i : jsstring) (pre post : Store) (t : Task) :
  unknown i pre -> id t = i ->
  Prisma.remove i (pre ++ t :: post) = Some (t, pre ++ post).
Proof.
  intros Hu Et; induction pre as [|x pre IH]; simpl.
  - rewrite (proj2 (str_eqb_eq _ _) Et). reflexivity.
  - destruct (str_eqb (id x) i) eqn:Ex.
    + apply str_eqb_eq in Ex. elim (Hu x); simpl; auto.
    + rewrite IH; [reflexivity|]. intros y Hy; apply Hu; simpl; auto.
Qed.

Lemma remove_Some (i : jsstring) (st st' : Store) (u : Task) :
  Prisma.remove i st = Some (u, st') ->
  exists pre post,
    st = pre ++ u :: post /\ st' = pre ++ post /\ id u = i /\ unknown i pre.
Proof.
  revert st' u; induction st as [|t r IH]; simpl; intros st' u E.
  - discriminate.
  - destruct (str_eqb (id t) i) eqn:Ei.
    + inversion E; subst. apply str_eqb_eq in Ei.
      exists [], st'. repeat split; auto. intros y [].
    + destruct (Prisma.remove i r) as [[u' r']|]; [|discriminate].
      inversion E; subst.
      destruct (IH _ _ eq_refl) as (pre & post & -> & -> & Eu & Hu).
      exists (t :: pre), post. repeat split; auto.
      intros z [<-|Hz]; [|auto].
      intros H; apply str_eqb_eq in H; congruence.
Qed.

Lemma chosen_defaultTo (v : value) (d : jsstring) :
  chosen (defaultTo v (JStr d)) d = chosen v d.
Proof. destruct v; try reflexivity. unfold chosen; simpl. destruct d; reflexivity. Qed.

Lemma column_wanted (h : Host) (d : value) (due : option Z) :
  Prisma.column (dateOrNull h d) = Some due -> due = wanted h d.
Proof.
  unfold dateOrNull, wanted. destruct (truthy d); simpl.
  - destruct (newDate h d); simpl; congruence.
  - congruence.
Qed.

(** X6. A delete on a healthy store that has a task with the identifier
    is answered 204 and removes the first row with that identifier and no
    other.  When the identifiers of the store are distinct, the identifier
    is unknown afterwards and a second delete is answered 404. *)
Theorem delete_removes_the_task :
  forall (h : Host) (cp : Copy) (c : Call) (st : Store) (i : jsstring),
    fault c = None -> i <> [] ->
    (exists t, In t st /\ id t = i) ->
    exists pre t post,
      st = pre ++ t :: post /\ id t = i /\ unknown i pre
      /\ route h cp c st (DELETE i) = (pre ++ post, Empty 204)
      /\ (keyed st ->
          unknown i (pre ++ post)
          /\ run h cp st [(c, DELETE i); (c, DELETE i)] = pre ++ post
          /\ route h cp c (pre ++ post) (DELETE i) = (pre ++ post, notFound)).
Proof.
  intros h cp c st i Hf Hi Hex.
  destruct (first_with_id i st Hex) as (pre & t & post & -> & Et & Hu).
  exists pre, t, post.
  assert (D : route h cp c (pre ++ t :: post) (DELETE i)
              = (pre ++ post, Empty 204)).
  { simpl. unfold deleteTask, Prisma.delete.
    replace (negb (truthy (JStr i))) with false
      by (destruct i; [congruence | reflexivity]).
    rewrite Hf, (remove_first i pre post t Hu Et). reflexivity. }
  repeat split; try assumption.
  - intros x Hx. unfold keyed in H. rewrite map_app in H; simpl in H.
    apply NoDup_remove_2 in H. rewrite <- map_app in H.
    apply (proj2 (unknown_map (id t) (pre ++ post)) H) in Hx.
    congruence.
  - cbn [run]. rewrite D. cbn [fst].
    assert (U : unknown i (pre ++ post)).
    { intros x Hx. unfold keyed in H. rewrite map_app in H; simpl in H.
      apply NoDup_remove_2 in H. rewrite <- map_app in H.
      apply (proj2 (unknown_map (id t) (pre ++ post)) H) in Hx.
      congruence. }
    cbn [route]. rewrite (deleteTask_unknown h c _ i Hf U Hi). reflexivity.
  - assert (U : unknown i (pre ++ post)).
    { intros x Hx. unfold keyed in H. rewrite map_app in H; simpl in H.
      apply NoDup_remove_2 in H. rewrite <- map_app in H.
      apply (proj2 (unknown_map (id t) (pre ++ post)) H) in Hx.
      congruence. }
    cbn [route]. apply (deleteTask_unknown h c _ i Hf U Hi).
Qed.

Lemma delete_removes_the_task_witness :
  route sampleHost Verbose sampleCall sampleStore (DELETE (lit "id-1"))
  = ([], Empty 204).
Proof.
  destruct (delete_removes_the_task sampleHost Verbose sampleCall sampleStore
              (lit "id-1") eq_refl ltac:(discriminate)
              (ex_intro _ sampleTask (conj (or_introl eq_refl) eq_refl)))
    as (pre & t & post & E & _ & _ & H & _).
  destruct pre as [|x pre].
  - inversion E; subst. exact H.
  - inversion E; subst. destruct pre; discriminate.
Defined.

Lemma NoDup_snoc {A : Type} (l : list A) (x : A) :
  NoDup l -> ~ In x l -> NoDup (l ++ [x]).
Proof.
  induction l as [|a l IH]; simpl; intros Hl Hx.
  - constructor; [intros [] | constructor].
  - inversion Hl; subst. constructor.
    + intros Hin. apply in_app_or in Hin as [Hin|[<-|[]]]; auto.
    + apply IH; auto.
Qed.

Lemma createTask_appends (h : Host) (c : Call) (st : Store) (b : body) :
  fst (createTask h c st b) = st
  \/ exists t, fst (createTask h c st b) = st ++ [t] /\ id t = uuid c.
Proof.
  unfold createTask.
  do 3 (next_test; [left; reflexivity|]).
  unfold Prisma.create.
  destruct (fault c); [left; reflexivity|].
  destruct (Prisma.column _); [|left; reflexivity].
  next_test; [|left; reflexivity].
  right. eexists; split; reflexivity.
Qed.

Lemma updateTask_ids (h : Host) (c : Call) (st : Store) (i : jsstring)
  (b : body) :
  map id (fst (updateTask h c st i b)) = map id st.
Proof.
  destruct (updateTask_outcome h c st i b) as [[-> _]|(st' & u & E)];
    [reflexivity|].
  destruct (updateTask_frame h c st st' i b u E)
    as (pre & t & post & -> & Est & _ & Eu & _).
  rewrite E; simpl. rewrite Est, !map_app; simpl. rewrite Eu. reflexivity.
Qed.

Lemma deleteTask_keyed (h : Host) (c : Call) (st : Store) (i : jsstring) :
  keyed st -> keyed (fst (deleteTask h c st i)).
Proof.
  intros Hst. unfold deleteTask.
  next_test; [exact Hst|]. unfold Prisma.delete.
  destruct (fault c) as [e|]; [next_test; exact Hst|].
  destruct (Prisma.remove i st) as [[u st']|] eqn:E;
    [|next_test; exact Hst].
  destruct (remove_Some i st st' u E) as (pre & post & -> & -> & _).
  simpl. unfold keyed in *. rewrite map_app in *; simpl in Hst.
  apply NoDup_remove_1 in Hst. exact Hst.
Qed.

(** X8. When the identifiers of the store are distinct and the identifier
    the store generates for this call is not in use, the identifiers are
    still distinct after the call, whatever the request; an update changes
    neither the identifiers nor their order. *)
Theorem identifiers_stay_distinct :
  forall (h : Host) (cp : Copy) (c : Call) (st : Store) (r : Request),
    keyed st -> unknown (uuid c) st ->
    keyed (fst (route h cp c st r))
    /\ (forall i b, r = PATCH i b ->
                    map id (fst (route h cp c st r)) = map id st).
Proof.
  intros h cp c st r Hst Hu. split.
  - destruct r as [q|b|i b|i]; simpl.
    + exact Hst.
    + destruct (validateTask h cp b); [exact Hst|].
      destruct (createTask_appends h c st b) as [->|(t & -> & Et)];
        [exact Hst|].
      unfold keyed. rewrite map_app; simpl.
      apply NoDup_snoc; [exact Hst|].
      rewrite Et. apply unknown_map; exact Hu.
    + destruct (validateTask h cp b); [exact Hst|].
      unfold keyed. rewrite updateTask_ids. exact Hst.
    + apply deleteTask_keyed; exact Hst.
  - intros i b ->. simpl.
    destruct (validateTask h cp b); [reflexivity|]. apply updateTask_ids.
Qed.

Lemma identifiers_stay_distinct_witness :
  keyed (fst (route sampleHost Verbose sampleCall sampleStore
                (POST (mkBody (JStr (lit "Buy milk")) JUndefined JUndefined
                         JUndefined)))).
Proof.
  assert (K : keyed sampleStore).
  { constructor; [intros [] | constructor]. }
  assert (U : unknown (uuid sampleCall) sampleStore).
  { intros t [<-|[]]. discriminate. }
  exact (proj1 (identifiers_stay_distinct sampleHost Verbose sampleCall
                  sampleStore _ K U)).
Defined.

(* ================================================================== *)
(** ** Pages *)
(* ================================================================== *)

Lemma slice_size (p l : Z) (rows : list Task) :
  1 <= p -> 1 <= l ->
  Z.of_nat (length (slice p l rows))
  = Z.max 0 (Z.min l (Z.of_nat (length rows) - (p - 1) * l)).
Proof.
  intros Hp Hl. unfold slice. rewrite length_firstn, length_skipn.
  assert (0 <= (p - 1) * l) by nia. lia.
Qed.

Lemma firstn_plus {A : Type} (a b : nat) (l : list A) :
  firstn (a + b) l = firstn a l ++ firstn b (skipn a l).
Proof.
  revert l; induction a as [|a IH]; intros l; simpl; [reflexivity|].
  destruct l as [|x l]; simpl.
  - rewrite firstn_nil. reflexivity.
  - rewrite IH. reflexivity.
Qed.

(** The first [k] pages, one after the other, are the first [k * l]
    rows. *)
Lemma pages_firstn (k : nat) (l : Z) (rows : list Task) :
  0 <= l -> pages k l rows = firstn (k * Z.to_nat l) rows.
Proof.
  intros Hl. unfold pages. induction k as [|k IH].
  - reflexivity.
  - rewrite seq_S, flat_map_app, IH. simpl flat_map. rewrite app_nil_r.
    replace (S k * Z.to_nat l)%nat with (k * Z.to_nat l + Z.to_nat l)%nat
      by lia.
    rewrite firstn_plus. f_equal. unfold slice. do 2 f_equal. nia.
Qed.

(** X9. The size of a page response: page [p] of limit [l] holds
    min(l, total - (p - 1) * l) rows when that is positive and none
    otherwise.  So every page before the last is full, the last page
    holds the rest and is not empty, and a page after [totalPages] is
    answered 200 with no rows. *)
Theorem page_sizes :
  forall (h : Host) (c : Call) (st : Store) (q : query)
         (tasks : list Task) (pg : Pagination),
    getTasks h c st q = Json 200 (Page tasks pg) ->
    let size := Z.of_nat (length tasks) in
    size = Z.max 0 (Z.min (limit pg)
                      (total pg - (page pg - 1) * limit pg))
    /\ (page pg < totalPages pg -> size = limit pg)
    /\ (page pg = totalPages pg ->
        size = total pg - (page pg - 1) * limit pg /\ 1 <= size)
    /\ (totalPages pg < page pg -> tasks = []).
Proof.
  intros h c st q tasks pg H size.
  destruct (getTasks_Page h c st q tasks pg H)
    as (w & Ep & Ew & Ef & Et & En & Ec).
  destruct (pagination_inr q _ _ Ep) as (_ & _ & Hp & Hl).
  pose proof (ceilDiv_spec (total pg) (limit pg) ltac:(lia)) as Hc.
  rewrite <- Ec in Hc.
  assert (Hs : size = Z.max 0 (Z.min (limit pg)
                                 (total pg - (page pg - 1) * limit pg))).
  { unfold size. rewrite Et, slice_size by assumption.
    rewrite selection_length, <- En. reflexivity. }
  split; [exact Hs|]. split; [|split].
  - intros Hlt. rewrite Hs. nia.
  - intros E. rewrite Hs, E. split; nia.
  - intros Hgt. assert (size = 0) by (rewrite Hs; nia).
    destruct tasks; [reflexivity | unfold size in *; simpl in *; lia].
Qed.

Lemma page_sizes_witness :
  Z.of_nat (length [sampleTask]) = 1 - (1 - 1) * 5
  /\ 1 <= Z.of_nat (length [sampleTask]).
Proof.
  destruct (page_sizes sampleHost sampleCall sampleStore
              (mkQuery (Some STATUS_DONE) None None None (Some (lit "5")))
              [sampleTask] (mkPagination 1 1 5 1) eq_refl)
    as (_ & _ & H & _).
  exact (H eq_refl).
Defined.

(** X10. Pages 1 to [totalPages] of a query, one after the other, are
    the selected rows in the order of the query: together they hold each
    task of the store that matches the filters once, none is skipped and
    none is repeated. *)
Theorem pages_cover_the_selection :
  forall (h : Host) (c : Call) (st : Store) (q : query)
         (tasks : list Task) (pg : Pagination),
    getTasks h c st q = Json 200 (Page tasks pg) ->
    exists w,
      buildWhere h c q = inr w
      /\ tasks = slice (page pg) (limit pg) (selection w st)
      /\ pages (Z.to_nat (totalPages pg)) (limit pg) (selection w st)
         = selection w st
      /\ Permutation (selection w st) (filter (Prisma.matches w) st)
      /\ (forall k, (k < Z.to_nat (totalPages pg))%nat ->
                    pages k (limit pg) (selection w st) <> selection w st).
Proof.
  intros h c st q tasks pg H.
  destruct (getTasks_Page h c st q tasks pg H)
    as (w & Ep & Ew & Ef & Et & En & Ec).
  destruct (pagination_inr q _ _ Ep) as (_ & _ & Hp & Hl).
  pose proof (ceilDiv_spec (total pg) (limit pg) ltac:(lia)) as Hc.
  rewrite <- Ec in Hc.
  pose proof (selection_length w st) as Hlen.
  exists w. split; [exact Ew|]. split; [exact Et|].
  split; [|split].
  - rewrite pages_firstn by lia. apply firstn_all2. nia.
  - apply ordered_perm.
  - intros k Hk E. rewrite pages_firstn in E by lia.
    apply (f_equal (@length Task)) in E. rewrite length_firstn in E.
    nia.
Qed.

Lemma pages_cover_the_selection_witness :
  exists w,
    pages 1 5 (selection w sampleStore) = selection w sampleStore
    /\ pages 0 5 (selection w sampleStore) <> selection w sampleStore.
Proof.
  destruct (pages_cover_the_selection sampleHost sampleCall sampleStore
              (mkQuery (Some STATUS_DONE) None None None (Some (lit "5")))
              [sampleTask] (mkPagination 1 1 5 1) eq_refl)
    as (w & _ & _ & H1 & _ & H2).
  exists w. split; [exact H1 | apply (H2 0%nat); simpl; lia].
Defined.

Lemma buildWhere_same (h : Host) (c : Call) (q q' : query) :
  q_status q = q_status q' -> q_priority q = q_priority q' ->
  q_dateFilter q = q_dateFilter q' ->
  buildWhere h c q = buildWhere h c q'.
Proof. unfold buildWhere, buildWhereWith. intros -> -> ->. reflexivity. Qed.

Lemma matches_all (st : Store) :
  filter (Prisma.matches (Prisma.mkWhere None None None)) st = st.
Proof.
  induction st as [|t r IH]; simpl; [reflexivity|]. rewrite IH.
  reflexivity.
Qed.

(** X11. The total of a page response depends on the filters only: two
    queries with the same [status], [priority] and [dateFilter] report
    the same total whatever their page and limit, and the same
    [totalPages] when their limits agree.  Without any filter the total
    is the number of tasks in the store. *)
Theorem total_ignores_pagination :
  forall (h : Host) (c : Call) (st : Store) (q q' : query)
         (tasks tasks' : list Task) (pg pg' : Pagination),
    getTasks h c st q = Json 200 (Page tasks pg) ->
    getTasks h c st q' = Json 200 (Page tasks' pg') ->
    q_status q = q_status q' -> q_priority q = q_priority q' ->
    q_dateFilter q = q_dateFilter q' ->
    total pg = total pg'
    /\ (limit pg = limit pg' -> totalPages pg = totalPages pg')
    /\ (given (q_status q) = None -> given (q_priority q) = None ->
        given (q_dateFilter q) = None ->
        total pg = Z.of_nat (length st)).
Proof.
  intros h c st q q' tasks tasks' pg pg' H H' Es Ep Ed.
  destruct (getTasks_Page h c st q tasks pg H)
    as (w & _ & Ew & _ & _ & En & Ec).
  destruct (getTasks_Page h c st q' tasks' pg' H')
    as (w' & _ & Ew' & _ & _ & En' & Ec').
  rewrite (buildWhere_same h c q q' Es Ep Ed), Ew' in Ew.
  inversion Ew; subst w'.
  assert (Et : total pg = total pg') by congruence.
  split; [exact Et|]. split.
  - intros El. rewrite Ec, Ec', Et, El. reflexivity.
  - intros Gs Gp Gd.
    destruct (buildWhere_inr h c q' w Ew') as (Hs & Hp & Hd).
    rewrite <- Es in Hs. rewrite <- Ep in Hp. rewrite <- Ed in Hd.
    rewrite Gs in Hs. rewrite Gp in Hp. rewrite Gd in Hd.
    destruct w as [ws wp wd]; simpl in *; subst.
    rewrite En, matches_all. reflexivity.
Qed.

Lemma total_ignores_pagination_witness :
  total (mkPagination 1 1 5 1) = total (mkPagination 1 2 1 1)
  /\ total (mkPagination 1 1 5 1) = Z.of_nat (length sampleStore).
Proof.
  destruct (total_ignores_pagination sampleHost sampleCall sampleStore
              (mkQuery None None None None (Some (lit "5")))
              (mkQuery None None None (Some (lit "2")) (Some (lit "1")))
              [sampleTask] [] (mkPagination 1 1 5 1) (mkPagination 1 2 1 1)
              eq_refl eq_refl eq_refl eq_refl eq_refl)
    as (H1 & _ & H2).
  split; [exact H1 | exact (H2 eq_refl eq_refl eq_refl)].
Defined.

(* ================================================================== *)
(** ** The order of a page *)
(* ================================================================== *)

Lemma before_total (a b : Task) :
  Prisma.before a b = false -> Prisma.before b a = true.
Proof.
  unfold Prisma.before.
  destruct (dueDate a) as [x|], (dueDate b) as [y|]; try discriminate;
    try reflexivity.
  - rewrite orb_false_iff, andb_false_iff, Z.ltb_ge, Z.eqb_neq, Z.leb_gt.
    rewrite orb_true_iff, andb_true_iff, Z.ltb_lt, Z.eqb_eq, Z.leb_le. lia.
  - rewrite Z.leb_gt, Z.leb_le. lia.
Qed.

Lemma before_trans (a b c : Task) :
  Prisma.before a b = true -> Prisma.before b c = true ->
  Prisma.before a c = true.
Proof.
  unfold Prisma.before.
  destruct (dueDate a) as [x|], (dueDate b) as [y|], (dueDate c) as [z|];
    try discriminate; try reflexivity;
    rewrite ?orb_true_iff, ?andb_true_iff, ?Z.ltb_lt, ?Z.eqb_eq, ?Z.leb_le;
    lia.
Qed.

Lemma insert_In (t x : Task) (l : list Task) :
  In x (Prisma.insert t l) -> x = t \/ In x l.
Proof.
  intros H. apply (Permutation_in _ (insert_perm t l)) in H.
  destruct H; auto.
Qed.

Lemma insert_sorted (t : Task) (l : list Task) :
  StronglySorted inOrder l -> StronglySorted inOrder (Prisma.insert t l).
Proof.
  induction l as [|u r IH]; simpl; intros H.
  - constructor; [constructor | constructor].
  - inversion H as [|? ? Hr Hu]; subst.
    destruct (Prisma.before t u) eqn:E.
    + constructor; [exact H|]. constructor; [exact E|].
      rewrite Forall_forall in *. intros x Hx.
      eapply before_trans; [exact E | apply Hu; exact Hx].
    + constructor; [apply IH; exact Hr|].
      rewrite Forall_forall in *. intros x Hx.
      apply insert_In in Hx as [->|Hx]; [|apply Hu; exact Hx].
      apply before_total; exact E.
Qed.

Lemma ordered_sorted (l : list Task) :
  StronglySorted inOrder (Prisma.ordered l).
Proof.
  induction l as [|t r IH]; simpl; [constructor|].
  apply insert_sorted; exact IH.
Qed.

Lemma sorted_skipn (n : nat) (l : list Task) :
  StronglySorted inOrder l -> StronglySorted inOrder (skipn n l).
Proof.
  revert l; induction n as [|n IH]; intros l H; [exact H|].
  destruct l as [|x l]; [exact H|]. simpl.
  inversion H; subst. apply IH; assumption.
Qed.

Lemma sorted_firstn (n : nat) (l : list Task) :
  StronglySorted inOrder l -> StronglySorted inOrder (firstn n l).
Proof.
  revert l; induction n as [|n IH]; intros l H; [constructor|].
  destruct l as [|x l]; [constructor|]. simpl.
  inversion H as [|? ? Hl Hx]; subst. constructor; [apply IH; exact Hl|].
  rewrite Forall_forall in *. intros y Hy. apply Hx.
  rewrite <- (firstn_skipn n l). apply in_or_app; left; exact Hy.
Qed.

Lemma sorted_apart (pre mid post : list Task) (a b : Task) :
  StronglySorted inOrder (pre ++ a :: mid ++ b :: post) -> inOrder a b.
Proof.
  induction pre as [|x pre IH]; simpl; intros H.
  - inversion H as [|? ? _ Ha]; subst. rewrite Forall_forall in Ha.
    apply Ha. apply in_or_app; right; left; reflexivity.
  - inversion H; subst. apply IH; assumption.
Qed.

(** X12. The rows of a page response are in the order the query asks
    for: of two tasks that both have a due date, the one with the earlier
    due date comes first, and with equal due dates the one created later
    comes first; of two tasks without a due date, the one created later
    comes first. *)
Theorem page_is_ordered :
  forall (h : Host) (c : Call) (st : Store) (q : query)
         (tasks : list Task) (pg : Pagination)
         (pre mid post : list Task) (a b : Task),
    getTasks h c st q = Json 200 (Page tasks pg) ->
    tasks = pre ++ a :: mid ++ b :: post ->
    (forall da db, dueDate a = Some da -> dueDate b = Some db ->
                   da <= db /\ (da = db -> createdAt b <= createdAt a))
    /\ (dueDate a = None -> dueDate b = None ->
        createdAt b <= createdAt a).
Proof.
  intros h c st q tasks pg pre mid post a b H E.
  destruct (getTasks_Page h c st q tasks pg H)
    as (w & _ & _ & _ & Et & _).
  assert (S : StronglySorted inOrder tasks).
  { rewrite Et. unfold slice, selection.
    apply sorted_firstn, sorted_skipn, ordered_sorted. }
  rewrite E in S. apply sorted_apart in S.
  unfold inOrder, Prisma.before in S. split.
  - intros da db Ea Eb. rewrite Ea, Eb in S.
    rewrite orb_true_iff, andb_true_iff, Z.ltb_lt, Z.eqb_eq, Z.leb_le in S.
    lia.
  - intros Ea Eb. rewrite Ea, Eb in S. apply Z.leb_le in S. exact S.
Qed.

Lemma page_is_ordered_witness :
  1715000000000 <= 1715700000000
  /\ (1715000000000 = 1715700000000 -> 1715000000000 <= 1715000000000).
Proof.
  exact (proj1 (page_is_ordered sampleHost sampleCall
                  [sampleTask;
                   mkTask (lit "id-3") (lit "Call back") STATUS_TODO
                     PRIORITY_LOW (Some 1715000000000) 1715000000000
                     1715000000000]
                  (mkQuery None None None None None)
                  [mkTask (lit "id-3") (lit "Call back") STATUS_TODO
                     PRIORITY_LOW (Some 1715000000000) 1715000000000
                     1715000000000;
                   sampleTask]
                  (mkPagination 2 1 10 1) [] [] []
                  (mkTask (lit "id-3") (lit "Call back") STATUS_TODO
                     PRIORITY_LOW (Some 1715000000000) 1715000000000
                     1715000000000)
                  sampleTask eq_refl eq_refl)
           1715000000000 1715700000000 eq_refl eq_refl).
Defined.

(* ================================================================== *)
(** ** The week filter and the presets *)
(* ================================================================== *)

Lemma startOfDay_idem (h : Host) (t : Z) :
  startOfDay h (startOfDay h t) = startOfDay h t.
Proof.
  destruct (startOfDay_spec h t) as [M _].
  unfold startOfDay at 1. rewrite M. lia.
Qed.

Lemma startOfDay_shift (h : Host) (t n : Z) :
  startOfDay h (addDays t n) = addDays (startOfDay h t) n.
Proof.
  unfold startOfDay, addDays.
  replace (t + n * dayMs + tzOffset h) with (t + tzOffset h + n * dayMs)
    by lia.
  rewrite Z_mod_plus_full. lia.
Qed.

Lemma getDay_bounds (h : Host) (t : Z) : 0 <= getDay h t < 7.
Proof. unfold getDay. apply Z.mod_pos_bound. lia. Qed.

(** The start of the week of [t]: the local midnight that opens the
    Sunday at or before [t]. *)
Lemma startOfWeek_spec (h : Host) (t : Z) :
  let s := startOfDay h (addDays t (- getDay h t)) in
  s = startOfDay h t - getDay h t * dayMs
  /\ (s + tzOffset h) mod dayMs = 0
  /\ getDay h s = 0
  /\ endOfDay h (addDays s 6) = s + 7 * dayMs - 1.
Proof.
  intros s.
  assert (Es : s = startOfDay h t - getDay h t * dayMs).
  { unfold s. rewrite startOfDay_shift. unfold addDays. lia. }
  assert (Em : (s + tzOffset h) mod dayMs = 0).
  { unfold s. apply startOfDay_spec. }
  split; [exact Es|]. split; [exact Em|]. split.
  - unfold getDay.
    assert (D : dayMs > 0) by (unfold dayMs; lia).
    pose proof (Z_div_mod_eq_full (t + tzOffset h) dayMs) as Ht.
    assert (Q : (s + tzOffset h) / dayMs
                = (t + tzOffset h) / dayMs - getDay h t).
    { symmetry. apply Z.div_unique_exact; [unfold dayMs; lia|].
      rewrite Es. unfold startOfDay. lia. }
    rewrite Q. unfold getDay.
    rewrite <- Z.add_sub_swap, Zminus_mod_idemp_r, Z.sub_diag.
    reflexivity.
  - unfold endOfDay. rewrite startOfDay_shift.
    assert (I : startOfDay h s = s).
    { unfold s. apply startOfDay_idem. }
    rewrite I. unfold addDays. lia.
Qed.

Lemma week_inBounds (s : Z) (d : option Z) :
  Prisma.inBounds (Prisma.mkBounds (Some s) (Some (s + 7 * dayMs - 1)) None) d
  = true
  <-> exists x, d = Some x /\ s <= x <= s + 7 * dayMs - 1.
Proof.
  unfold Prisma.inBounds, Prisma.holds; simpl. destruct d as [x|].
  - rewrite andb_true_r, andb_true_iff, !Z.leb_le.
    split; [intros H; exists x; split; [reflexivity | lia]
           | intros (y & E & H); inversion E; subst; lia].
  - split; [discriminate | intros (y & E & _); discriminate].
Qed.

(** X13. With [dateFilter=week] the query bounds [dueDate], both ends
    included, by the local midnight that opens the Sunday at or before
    the current instant and the last millisecond of the Saturday that
    follows, seven days later less one millisecond; the current instant
    lies in that week, and beside the other filters a task matches
    exactly when its due date does. *)
Theorem week_is_sunday_to_saturday :
  forall (h : Host) (c : Call) (q : query) (w : Prisma.Where),
    q_dateFilter q = Some DATE_FILTERS_WEEK ->
    buildWhere h c q = inr w ->
    let sunday := startOfDay h (now c) - getDay h (now c) * 86400000 in
    let last := sunday + 7 * 86400000 - 1 in
    Prisma.w_dueDate w = Some (Prisma.mkBounds (Some sunday) (Some last) None)
    /\ (sunday + tzOffset h) mod 86400000 = 0
    /\ getDay h sunday = 0
    /\ sunday <= now c <= last
    /\ (forall t, Prisma.matches w t = true <->
                  Prisma.matches (anyDate w) t = true
                  /\ exists d, dueDate t = Some d /\ sunday <= d <= last).
Proof.
  intros h c q w Hq Hw sunday last.
  destruct (buildWhere_inr h c q w Hw) as (_ & _ & Hd).
  rewrite Hq in Hd.
  change (Prisma.w_dueDate w
          = Some (Prisma.mkBounds
                    (Some (startOfDay h (addDays (now c)
                                           (- getDay h (now c)))))
                    (Some (endOfDay h
                             (addDays
                                (startOfDay h (addDays (now c)
                                                 (- getDay h (now c))))
                                6)))
                    None)) in Hd.
  destruct (startOfWeek_spec h (now c)) as (Es & Em & Eg & Ee).
  fold dayMs in sunday, last. fold sunday in Es.
  rewrite Ee, Es in Hd. rewrite Es in Em, Eg.
  destruct (startOfDay_spec h (now c)) as [_ B].
  pose proof (getDay_bounds h (now c)) as G.
  change 86400000 with dayMs.
  split; [exact Hd|]. split; [exact Em|]. split; [exact Eg|].
  split; [unfold last, sunday; nia|].
  intros t. rewrite matches_split, Hd.
  split; intros [H1 H2]; split; try exact H1.
  - apply week_inBounds. apply H2; reflexivity.
  - intros r' E; inversion E; subst r'. apply week_inBounds; exact H2.
Qed.

Lemma str_eqb_eq_false (a b : jsstring) : a <> b -> str_eqb a b = false.
Proof.
  intros H. destruct (str_eqb a b) eqn:E; [|reflexivity].
  apply str_eqb_eq in E. contradiction.
Qed.

Lemma week_is_sunday_to_saturday_witness :
  getDay sampleHost 1715464800000 = 0
  /\ 1715464800000 <= now sampleCall <= 1715464800000 + 7 * 86400000 - 1.
Proof.
  destruct (week_is_sunday_to_saturday sampleHost sampleCall
              (mkQuery None None (Some DATE_FILTERS_WEEK) None None)
              (Prisma.mkWhere None None
                 (Some (Prisma.mkBounds (Some 1715464800000)
                          (Some 1716069599999) None)))
              eq_refl eq_refl) as (_ & _ & Hg & Hn & _).
  split; [exact Hg | exact Hn].
Defined.

Lemma buildWhere_today (h : Host) (c : Call) (q : query) (w : Prisma.Where) :
  q_dateFilter q = Some DATE_FILTERS_TODAY -> buildWhere h c q = inr w ->
  Prisma.w_dueDate w
  = Some (Prisma.mkBounds (Some (startOfDay h (now c)))
            (Some (startOfDay h (now c) + (dayMs - 1))) None).
Proof.
  intros Hq Hw. destruct (buildWhere_inr h c q w Hw) as (_ & _ & Hd).
  rewrite Hq in Hd. exact Hd.
Qed.

Lemma buildWhere_week (h : Host) (c : Call) (q : query) (w : Prisma.Where) :
  q_dateFilter q = Some DATE_FILTERS_WEEK -> buildWhere h c q = inr w ->
  Prisma.w_dueDate w
  = Some (Prisma.mkBounds
            (Some (startOfDay h (now c) - getDay h (now c) * dayMs))
            (Some (startOfDay h (now c) - getDay h (now c) * dayMs
                   + 7 * dayMs - 1))
            None).
Proof.
  intros Hq Hw. destruct (buildWhere_inr h c q w Hw) as (_ & _ & Hd).
  rewrite Hq in Hd.
  destruct (startOfWeek_spec h (now c)) as (Es & _ & _ & Ee).
  rewrite <- Es, <- Ee. exact Hd.
Qed.

Lemma filter_length_le (f g : Task -> bool) (l : list Task) :
  (forall t, f t = true -> g t = true) ->
  (length (filter f l) <= length (filter g l))%nat.
Proof.
  intros H; induction l as [|t r IH]; simpl; [lia|].
  destruct (f t) eqn:E.
  - rewrite (H t E). simpl. lia.
  - destruct (g t); simpl; lia.
Qed.

(** X14. The day lies within the week: with the same [status] and
    [priority], every task that a [dateFilter=today] query selects is
    selected by the [dateFilter=week] query evaluated at the same
    instant, and the total of the first is at most the total of the
    second. *)
Theorem today_within_week :
  forall (h : Host) (c : Call) (st : Store) (q q' : query)
         (w w' : Prisma.Where),
    q_dateFilter q = Some DATE_FILTERS_TODAY ->
    q_dateFilter q' = Some DATE_FILTERS_WEEK ->
    q_status q = q_status q' -> q_priority q = q_priority q' ->
    buildWhere h c q = inr w -> buildWhere h c q' = inr w' ->
    (forall t, In t (selection w st) -> In t (selection w' st))
    /\ (length (filter (Prisma.matches w) st)
        <= length (filter (Prisma.matches w') st))%nat.
Proof.
  intros h c st q q' w w' Hq Hq' Es Ep Hw Hw'.
  assert (M : forall t, Prisma.matches w t = true ->
                        Prisma.matches w' t = true).
  { intros t. rewrite (matches_split w), (matches_split w').
    rewrite (buildWhere_today h c q w Hq Hw).
    rewrite (buildWhere_week h c q' w' Hq' Hw').
    destruct (buildWhere_inr h c q w Hw) as (Hs & Hp & _).
    destruct (buildWhere_inr h c q' w' Hw') as (Hs' & Hp' & _).
    intros [H1 H2]. split.
    - unfold Prisma.matches, anyDate in *; simpl in *.
      rewrite Hs', Hp', <- Es, <- Ep, <- Hs, <- Hp. exact H1.
    - intros r E; inversion E; subst r; clear E.
      specialize (H2 _ eq_refl). apply today_inBounds in H2.
      destruct H2 as (x & Ex & Hx).
      apply week_inBounds. exists x. split; [exact Ex|].
      pose proof (getDay_bounds h (now c)). unfold dayMs in *. nia. }
  split.
  - intros t Ht. apply selection_In in Ht as [H1 H2].
    apply selection_In. split; [exact H1 | apply M; exact H2].
  - apply filter_length_le; exact M.
Qed.

Lemma today_within_week_witness :
  In (mkTask (lit "id-4") (lit "Pay rent") STATUS_TODO PRIORITY_HIGH
        (Some 1715774400000) 1715000000000 1715000000000)
     (selection
        (Prisma.mkWhere None None
           (Some (Prisma.mkBounds (Some 1715464800000)
                    (Some 1716069599999) None)))
        [mkTask (lit "id-4") (lit "Pay rent") STATUS_TODO PRIORITY_HIGH
           (Some 1715774400000) 1715000000000 1715000000000]).
Proof.
  apply (proj1 (today_within_week sampleHost sampleCall
                  [mkTask (lit "id-4") (lit "Pay rent") STATUS_TODO
                     PRIORITY_HIGH (Some 1715774400000) 1715000000000
                     1715000000000]
                  (mkQuery None None (Some DATE_FILTERS_TODAY) None None)
                  (mkQuery None None (Some DATE_FILTERS_WEEK) None None)
                  _ _ eq_refl eq_refl eq_refl eq_refl eq_refl eq_refl)).
  left; reflexivity.
Defined.



(* ================================================================== *)
(** ** The tests of the enumerations and of the middleware *)
(* ================================================================== *)

Lemma includes_isValidPriority (v : value) :
  includes (Object_values PRIORITY) v = isValidPriority v.
Proof.
  unfold includes, isValidPriority, includes, Object_values, PRIORITY; simpl.
  destruct v; simpl; rewrite ?orb_false_r; reflexivity.
Qed.

Lemma includes_isValidDateFilter (v : value) :
  includes (Object_values DATE_FILTERS) v = isValidDateFilter v.
Proof.
  unfold includes, isValidDateFilter, includes, Object_values, DATE_FILTERS;
    simpl.
  destruct v; simpl; rewrite ?orb_false_r; reflexivity.
Qed.

Lemma includes_DATE_FILTERS_value (v : value) :
  includes (Object_values DATE_FILTERS) v = true ->
  exists s, v = JStr s /\ In s dateFilter_members.
Proof.
  intros H. destruct (includes_string DATE_FILTERS v) as [s ->]; [|exact H|].
  - intros n x Hin; simpl in Hin.
    repeat (destruct Hin as [E|Hin]; [inversion E; subst; eauto|]).
    contradiction.
  - exists s; split; [reflexivity | apply includes_DATE_FILTERS; exact H].
Qed.

(** X16. For each of the three enumerations, the test the handlers use,
    [Object.values(E).includes(v)], and the helper of constants.js,
    [E._ALL.includes(v)], take the same decision on every value, and they
    accept exactly the strings that are members, compared case by case:
    the array stored under [_ALL] never makes a value pass. *)
Theorem enumeration_tests_agree :
  forall v : value,
    (includes (Object_values STATUS) v = isValidStatus v
     /\ (isValidStatus v = true <->
         exists s, v = JStr s /\ In s status_members))
    /\ (includes (Object_values PRIORITY) v = isValidPriority v
        /\ (isValidPriority v = true <->
            exists s, v = JStr s /\ In s priority_members))
    /\ (includes (Object_values DATE_FILTERS) v = isValidDateFilter v
        /\ (isValidDateFilter v = true <->
            exists s, v = JStr s /\ In s dateFilter_members)).
Proof.
  intros v. split; [|split]; (split; [|split]).
  - apply includes_isValidStatus.
  - rewrite <- includes_isValidStatus. apply includes_STATUS_value.
  - intros (s & -> & H). rewrite <- includes_isValidStatus.
    apply includes_STATUS; exact H.
  - apply includes_isValidPriority.
  - rewrite <- includes_isValidPriority. apply includes_PRIORITY_value.
  - intros (s & -> & H). rewrite <- includes_isValidPriority.
    apply includes_PRIORITY; exact H.
  - apply includes_isValidDateFilter.
  - rewrite <- includes_isValidDateFilter. apply includes_DATE_FILTERS_value.
  - intros (s & -> & H). rewrite <- includes_isValidDateFilter.
    apply includes_DATE_FILTERS; exact H.
Qed.

Lemma invalidTitle_not_blank (s : jsstring) :
  invalidTitle (JStr s) = false <-> blank s = false.
Proof.
  split.
  - intros H. destruct (invalidTitle_false _ H) as (s' & E & _ & Hb).
    inversion E; subst s'.
    destruct (blank s) eqn:B; [|reflexivity].
    apply trim_nil in B. rewrite B in Hb. discriminate.
  - intros H. unfold invalidTitle; simpl.
    destruct s as [|x s]; [discriminate|]. simpl.
    destruct (trim (x :: s)) eqn:T; [|reflexivity].
    apply trim_nil in T. congruence.
Qed.

(** X17. The middleware lets a body through exactly when its title is a
    string that is not empty or white space only, its status is falsy or
    a member of the status enumeration, its priority is falsy or a member
    of the priority enumeration, and its due date is absent, null or a
    string that [Date] parses; the two copies of the middleware take the
    same decision. *)
Theorem validateTask_accepts_exactly :
  forall (h : Host) (cp : Copy) (b : body),
    (exists v, validateTask h cp b = inr v)
    <->
    (exists s, b_title b = JStr s /\ blank s = false)
    /\ (truthy (b_status b) = false
        \/ exists s, b_status b = JStr s /\ In s status_members)
    /\ (truthy (b_priority b) = false
        \/ exists s, b_priority b = JStr s /\ In s priority_members)
    /\ (isNullish (b_dueDate b) = true
        \/ exists s ms, b_dueDate b = JStr s
                        /\ newDate h (JStr s) = ValidDate ms).
Proof.
  intros h cp b. split.
  - intros [v Hv].
    destruct (validateTask_inr h cp b v Hv) as (Ht & Hs & Hp & Hd).
    split; [|split; [|split]].
    + destruct (invalidTitle_false _ Ht) as (s & Es & _).
      exists s. split; [exact Es|]. rewrite Es in Ht.
      apply invalidTitle_not_blank; exact Ht.
    + destruct (truthy (b_status b)); [right | left; reflexivity].
      apply negb_false_iff in Hs. apply includes_STATUS_value; exact Hs.
    + destruct (truthy (b_priority b)); [right | left; reflexivity].
      apply negb_false_iff in Hp. apply includes_PRIORITY_value; exact Hp.
    + destruct (isNullish (b_dueDate b)); [left; reflexivity | right].
      simpl in Hd. apply orb_false_iff in Hd as [H1 H2].
      destruct (b_dueDate b); try discriminate.
      destruct (newDate h (JStr s)) eqn:E; [discriminate|]. eauto.
  - intros ((s & Es & Hb) & Hs & Hp & Hd).
    unfold validateTask.
    rewrite Es, (proj2 (invalidTitle_not_blank s) Hb).
    assert (S1 : truthy (b_status b) && negb (isString (b_status b)) = false).
    { destruct Hs as [->|(x & -> & _)]; [reflexivity|].
      apply andb_false_r. }
    assert (S2 : truthy (b_status b)
                 && negb (includes (Object_values STATUS) (b_status b))
                 = false).
    { destruct Hs as [->|(x & -> & Hx)]; [reflexivity|].
      rewrite (proj2 (includes_STATUS x) Hx). apply andb_false_r. }
    assert (P1 : truthy (b_priority b) && negb (isString (b_priority b))
                 = false).
    { destruct Hp as [->|(x & -> & _)]; [reflexivity|].
      apply andb_false_r. }
    assert (P2 : truthy (b_priority b)
                 && negb (includes (Object_values PRIORITY) (b_priority b))
                 = false).
    { destruct Hp as [->|(x & -> & Hx)]; [reflexivity|].
      rewrite (proj2 (includes_PRIORITY x) Hx). apply andb_false_r. }
    assert (D : negb (isNullish (b_dueDate b))
                && (negb (isString (b_dueDate b))
                    || isInvalid (newDate h (b_dueDate b))) = false).
    { destruct Hd as [->|(x & ms & -> & E)]; [reflexivity|].
      rewrite E. reflexivity. }
    rewrite S1, S2, P1, P2, D. eauto.
Qed.

(* ================================================================== *)
(** ** Labels and colors *)
(* ================================================================== *)

Lemma own_labels (s : jsstring) :
  ~ In s status_members -> own labels s = None.
Proof.
  intros H. unfold labels; cbn [own].
  rewrite !str_eqb_eq_false; [reflexivity | ..];
    intros E; apply H; subst; simpl; auto.
Qed.

Lemma own_colors (s : jsstring) :
  ~ In s priority_members -> own colors s = None.
Proof.
  intros H. unfold colors; cbn [own].
  rewrite !str_eqb_eq_false; [reflexivity | ..];
    intros E; apply H; subst; simpl; auto.
Qed.

Lemma not_inherited (s : jsstring) :
  ~ In s Object_prototype -> existsb (str_eqb s) Object_prototype = false.
Proof.
  intros H. destruct (existsb _ _) eqn:E; [|reflexivity].
  apply existsb_exists in E as (x & Hx & Ex).
  apply str_eqb_eq in Ex; subst. contradiction.
Qed.

Lemma inherited (s : jsstring) :
  In s Object_prototype -> existsb (str_eqb s) Object_prototype = true.
Proof.
  intros H. apply existsb_exists. exists s. split; [exact H|].
  apply str_eqb_eq; reflexivity.
Qed.

(** X18. [getStatusLabel] gives "To Do", "In Progress" and "Done" for
    the three statuses and gives back its argument for every other string,
    and [getPriorityColor] gives the green, yellow and red classes for the
    three priorities and the gray classes for every other string, except
    that for a name every object inherits, such as [constructor] or
    [toString], both give the inherited property instead of a string. *)
Theorem labels_and_colors :
  (getStatusLabel STATUS_TODO = Own (JStr (lit "To Do"))
   /\ getStatusLabel STATUS_IN_PROGRESS = Own (JStr (lit "In Progress"))
   /\ getStatusLabel STATUS_DONE = Own (JStr (lit "Done")))
  /\ (getPriorityColor PRIORITY_LOW
      = Own (JStr (lit "bg-green-100 text-green-800"))
      /\ getPriorityColor PRIORITY_MEDIUM
         = Own (JStr (lit "bg-yellow-100 text-yellow-800"))
      /\ getPriorityColor PRIORITY_HIGH
         = Own (JStr (lit "bg-red-100 text-red-800")))
  /\ (forall s, ~ In s status_members -> ~ In s Object_prototype ->
                getStatusLabel s = Own (JStr s))
  /\ (forall s, ~ In s priority_members -> ~ In s Object_prototype ->
                getPriorityColor s
                = Own (JStr (lit "bg-gray-100 text-gray-800")))
  /\ (forall s, In s Object_prototype ->
                getStatusLabel s = Inherited s
                /\ getPriorityColor s = Inherited s).
Proof.
  split; [repeat split|]. split; [repeat split|].
  split; [|split].
  - intros s H1 H2. unfold getStatusLabel, getOr, get.
    rewrite (own_labels s H1), (not_inherited s H2). reflexivity.
  - intros s H1 H2. unfold getPriorityColor, getOr, get.
    rewrite (own_colors s H1), (not_inherited s H2). reflexivity.
  - intros s H.
    assert (N1 : ~ In s status_members).
    { intros M. simpl in H, M.
      repeat (destruct M as [<-|M]; [
        repeat (destruct H as [H|H]; [discriminate|]); exact H |]).
      exact M. }
    assert (N2 : ~ In s priority_members).
    { intros M. simpl in H, M.
      repeat (destruct M as [<-|M]; [
        repeat (destruct H as [H|H]; [discriminate|]); exact H |]).
      exact M. }
    unfold getStatusLabel, getPriorityColor, getOr, get.
    rewrite (own_labels s N1), (own_colors s N2), (inherited s H).
    split; reflexivity.
Qed.

Lemma labels_and_colors_witness :
  getStatusLabel (lit "BLOCKED") = Own (JStr (lit "BLOCKED"))
  /\ getPriorityColor (lit "urgent")
     = Own (JStr (lit "bg-gray-100 text-gray-800"))
  /\ getStatusLabel (lit "toString") = Inherited (lit "toString").
Proof.
  destruct labels_and_colors as (_ & _ & H1 & H2 & H3).
  split; [apply H1|split; [apply H2|apply H3]];
    try (intros H; simpl in H;
         repeat (destruct H as [H|H]; [discriminate|]); exact H).
  simpl. do 5 right. left. reflexivity.
Defined.

(* ================================================================== *)
(** ** The connection flag *)
(* ================================================================== *)

Lemma dbCall_takesTurns (k : DbCall) (d : Db) :
  takesTurns (isConnected d) (succeeded (issued d)) = true ->
  takesTurns (isConnected (fst (dbCall k d)))
    (succeeded (issued (fst (dbCall k d)))) = true.
Proof.
  intros H. destruct k as [ok|ok]; simpl.
  - unfold connectDB. destruct (isConnected d) eqn:E, ok; simpl;
      rewrite ?E; exact H.
  - unfold disconnectDB. destruct (isConnected d) eqn:E, ok; simpl;
      rewrite ?E; exact H.
Qed.

Lemma dbRun_takesTurns (calls : list DbCall) :
  forall d : Db,
    takesTurns (isConnected d) (succeeded (issued d)) = true ->
    takesTurns (isConnected (dbRun d calls))
      (succeeded (issued (dbRun d calls))) = true.
Proof.
  induction calls as [|k rest IH]; simpl; intros d H; [exact H|].
  apply IH, dbCall_takesTurns, H.
Qed.

(** X19. Starting from the module's initial state, after any sequence
    of [connectDB] and [disconnectDB] calls, each completed before the
    next, the connections and disconnections of the client that
    succeeded take turns, beginning with a connection, and [isConnected]
    is true exactly when the latest of them is a connection; a call
    throws only when the operation it issued failed, and then the flag
    keeps its value. *)
Theorem connection_takes_turns :
  forall (calls : list DbCall),
    let d := dbRun (mkDb false []) calls in
    takesTurns (isConnected d) (succeeded (issued d)) = true
    /\ (forall k, snd (dbCall k d) = true ->
                  isConnected (fst (dbCall k d)) = isConnected d
                  /\ exists op, issued (fst (dbCall k d))
                                = (op, false) :: issued d).
Proof.
  intros calls d. split.
  - unfold d. apply dbRun_takesTurns. reflexivity.
  - intros [ok|ok]; simpl.
    + unfold connectDB. destruct (isConnected d) eqn:E; simpl;
        [discriminate|].
      destruct ok; simpl; [discriminate|]. intros _. eauto.
    + unfold disconnectDB. destruct (isConnected d) eqn:E; simpl;
        [|discriminate].
      destruct ok; simpl; [discriminate|]. intros _. eauto.
Qed.

Lemma connection_takes_turns_witness :
  let d := dbRun (mkDb false [])
             [CallConnectDB false; CallConnectDB true; CallConnectDB true;
              CallDisconnectDB true] in
  succeeded (issued d) = [Disconnect_; Connect_]
  /\ isConnected d = false
  /\ isConnected (fst (dbCall (CallConnectDB false) d)) = isConnected d.
Proof.
  intros d. split; [reflexivity|]. split; [reflexivity|].
  exact (proj1 (proj2 (connection_takes_turns
                         [CallConnectDB false; CallConnectDB true;
                          CallConnectDB true; CallDisconnectDB true])
                  (CallConnectDB false) eq_refl)).
Defined.

(* ================================================================== *)
(** ** The names of the schema *)
(* ================================================================== *)

(** The values of [PRIORITY] are the column values of the schema
    ([@map]), not the names its client takes. *)
Lemma priority_member_refused (p : jsstring) :
  In p priority_members -> Prisma.isName Prisma.Priority p = false.
Proof.
  intros H; repeat (destruct H as [<-|H]; [reflexivity|]); contradiction.
Qed.

(** The values of [STATUS] are the names of the schema. *)
Lemma status_member_taken (s : jsstring) :
  In s status_members -> Prisma.isName Prisma.TaskStatus s = true.
Proof.
  intros H; repeat (destruct H as [<-|H]; [reflexivity|]); contradiction.
Qed.

Lemma enumFilter_member (what : string) (o : object) (p : option jsstring)
  (s : jsstring) :
  enumFilter what o p = inr (Some s) ->
  includes (Object_values o) (JStr s) = true.
Proof.
  unfold enumFilter. destruct (given p) as [x|]; [|discriminate].
  destruct (includes (Object_values o) (JStr x)) eqn:E; simpl;
    [|discriminate].
  intros H; inversion H; subst. exact E.
Qed.

(** The status and the priority of an accepted query are members of the
    enumerations of constants.js. *)
Lemma buildWhereWith_members (bounds : jsstring -> option Prisma.DateBounds)
  (q : query) (w : Prisma.Where) :
  buildWhereWith bounds q = inr w ->
  (forall s, given (q_status q) = Some s -> In s status_members)
  /\ (forall p, given (q_priority q) = Some p -> In p priority_members).
Proof.
  unfold buildWhereWith, andThen.
  destruct (enumFilter "status" _ _) as [|s] eqn:Es; [discriminate|].
  destruct (enumFilter "priority" _ _) as [|p] eqn:Ep; [discriminate|].
  intros _.
  pose proof (enumFilter_inr _ _ _ _ Es) as Gs.
  pose proof (enumFilter_inr _ _ _ _ Ep) as Gp.
  split.
  - intros x Hx. rewrite Hx in Gs; subst s.
    apply includes_STATUS, (enumFilter_member _ _ _ _ Es).
  - intros x Hx. rewrite Hx in Gp; subst p.
    apply includes_PRIORITY, (enumFilter_member _ _ _ _ Ep).
Qed.

(** The store's client takes the [where] of a query exactly when the
    query has no priority filter. *)
Lemma buildWhereWith_accepts (bounds : jsstring -> option Prisma.DateBounds)
  (q : query) (w : Prisma.Where) :
  buildWhereWith bounds q = inr w ->
  Prisma.accepts w
  = match given (q_priority q) with Some _ => false | None => true end.
Proof.
  intros Hw.
  destruct (buildWhereWith_inr _ q w Hw) as (Es & Ep & _).
  destruct (buildWhereWith_members _ q w Hw) as (Ms & Mp).
  unfold Prisma.accepts, Prisma.nameOrAbsent. rewrite Es, Ep.
  assert (S : match given (q_status q) with
              | Some s => Prisma.isName Prisma.TaskStatus s
              | None => true
              end = true).
  { destruct (given (q_status q)) as [s|]; [|reflexivity].
    apply status_member_taken, Ms; reflexivity. }
  rewrite S. destruct (given (q_priority q)) as [p|]; [|reflexivity].
  apply priority_member_refused, Mp; reflexivity.
Qed.

(** C4. A list query with a priority filter never returns a task: the
    handler takes the priority only when it is a value of [PRIORITY]
    (low, medium, high) and passes it to the store's client, which knows
    the priorities by the names of the schema (LOW, MEDIUM, HIGH) and
    refuses the query.  Whatever the store, the query is answered 400 or
    500; when its parameters pass the handler's tests on a healthy store,
    it is answered 500 "Failed to fetch tasks". *)
Theorem priority_filter_is_refused :
  forall (h : Host) (c : Call) (st : Store) (q : query) (p : jsstring),
    given (q_priority q) = Some p ->
    (forall tasks pg, getTasks h c st q <> Json 200 (Page tasks pg))
    /\ (statusCode (getTasks h c st q) = 400
        \/ statusCode (getTasks h c st q) = 500)
    /\ (forall pl w,
          fault c = None -> pagination q = inr pl ->
          buildWhere h c q = inr w ->
          In p priority_members
          /\ getTasks h c st q
             = failed h 500 "Failed to fetch tasks"
                 (Prisma.validationError h)).
Proof.
  intros h c st q p G.
  assert (A : forall w, buildWhere h c q = inr w -> Prisma.accepts w = false).
  { intros w Hw. rewrite (buildWhereWith_accepts _ q w Hw), G. reflexivity. }
  split; [|split].
  - intros tasks pg H.
    destruct (getTasks_Page h c st q tasks pg H) as (w & _ & Ew & _).
    destruct (getTasks_Page_accepted h c st q tasks pg w H Ew) as [Ha _].
    rewrite (A w Ew) in Ha. discriminate.
  - rewrite getTasks_eq.
    destruct (pagination q) as [r|[pn ln]] eqn:Ep.
    { apply pagination_inl in Ep; subst; left; reflexivity. }
    destruct (buildWhere h c q) as [r|w] eqn:Ew.
    { left. apply buildWhere_inl in Ew. exact Ew. }
    right. unfold Prisma.findMany. rewrite (A w eq_refl).
    destruct (fault c); reflexivity.
  - intros [pn ln] w Hf Ep Ew. split.
    + apply (proj2 (buildWhereWith_members _ q w Ew)); exact G.
    + rewrite getTasks_eq, Ep, Ew. unfold Prisma.findMany.
      rewrite Hf, (A w Ew). reflexivity.
Qed.

Lemma priority_filter_is_refused_witness :
  getTasks sampleHost sampleCall storedStore
    (mkQuery (Some STATUS_DONE) (Some PRIORITY_HIGH) None None None)
  = failed sampleHost 500 "Failed to fetch tasks"
      (Prisma.validationError sampleHost).
Proof.
  exact (proj2 (proj2 (proj2 (priority_filter_is_refused sampleHost
                                sampleCall storedStore
                                (mkQuery (Some STATUS_DONE)
                                   (Some PRIORITY_HIGH) None None None)
                                PRIORITY_HIGH eq_refl))
                  (1, 10)
                  (Prisma.mkWhere (Some STATUS_DONE) (Some PRIORITY_HIGH)
                     None)
                  eq_refl eq_refl eq_refl)).
Defined.

(** The task that is DONE and HIGH is returned under its status alone;
    under its priority the query is refused, by the store's client for
    the value of [PRIORITY] and by the handler for the name of the
    schema. *)
Example filters_of_a_done_high_task :
  getTasks sampleHost sampleCall storedStore
    (mkQuery (Some STATUS_DONE) None None None None)
  = Json 200 (Page [storedTask] (mkPagination 1 1 10 1))
  /\ statusCode (getTasks sampleHost sampleCall storedStore
                   (mkQuery None (Some PRIORITY_HIGH) None None None)) = 500
  /\ statusCode (getTasks sampleHost sampleCall storedStore
                   (mkQuery None (Some (lit "HIGH")) None None None)) = 400
  /\ getTasks sampleHost sampleCall storedStore
       (mkQuery (Some STATUS_IN_PROGRESS) None None None None)
     = Json 200 (Page [] (mkPagination 0 1 10 0)).
Proof. repeat split. Qed.

(** X20. The tasks of a page response are tasks of the store that
    satisfy every filter the query supplies, the count is taken with the
    same test, and every task of the store that satisfies them all is on
    one of the pages; a filter that is not supplied asks nothing.  Such a
    query has no priority filter: its filters are the status and the
    bounds of the date filter.  A task that is DONE satisfies a query by
    that status or by none, and is on no page of a query by another
    status. *)
Theorem status_and_date_filters_are_conjunctive :
  forall (h : Host) (c : Call) (st : Store) (q : query)
         (tasks : list Task) (pg : Pagination),
    getTasks h c st q = Json 200 (Page tasks pg) ->
    given (q_priority q) = None
    /\ exists w,
         buildWhere h c q = inr w
         /\ tasks = slice (page pg) (limit pg) (selection w st)
         /\ total pg = Z.of_nat (length (filter (Prisma.matches w) st))
         /\ (forall t, Prisma.matches w t = true <-> satisfies h c q t)
         /\ (forall t, In t tasks -> In t st /\ satisfies h c q t)
         /\ (forall t, In t st -> satisfies h c q t ->
                       exists n, 1 <= n
                                 /\ In t (slice n (limit pg) (selection w st)))
         /\ (forall t,
               status t = STATUS_DONE ->
               q_status q = Some STATUS_DONE \/ q_status q = None ->
               q_dateFilter q = None ->
               satisfies h c q t)
         /\ (forall t,
               status t = STATUS_DONE ->
               q_status q = Some STATUS_TODO
               \/ q_status q = Some STATUS_IN_PROGRESS ->
               ~ In t tasks).
Proof.
  intros h c st q tasks pg H.
  destruct (getTasks_Page h c st q tasks pg H)
    as (w & Ep & Ew & Ef & Et & En & _).
  destruct (getTasks_Page_accepted h c st q tasks pg w H Ew) as [Ha _].
  rewrite (buildWhereWith_accepts _ q w Ew) in Ha.
  assert (G : given (q_priority q) = None)
    by (destruct (given (q_priority q)); [discriminate | reflexivity]).
  destruct (pagination_inr q _ _ Ep) as (_ & _ & _ & Hl).
  assert (Sound : forall t, In t tasks -> In t st /\ satisfies h c q t).
  { intros t Ht. rewrite Et in Ht. apply slice_In, selection_In in Ht.
    destruct Ht as [H1 H2]. split; [exact H1|].
    apply (matches_satisfies h c q w t Ew); exact H2. }
  split; [exact G|]. exists w.
  split; [exact Ew|]. split; [exact Et|]. split; [exact En|].
  split; [intros t; apply matches_satisfies; exact Ew|].
  split; [exact Sound|].
  split; [|split].
  - intros t Ht Hs. apply slice_covers; [exact Hl|].
    apply selection_In; split; [exact Ht|].
    apply (matches_satisfies h c q w t Ew); exact Hs.
  - intros t Hd Hqs Hqd. unfold satisfies.
    split; [|split].
    + intros s Hs. destruct Hqs as [E|E]; rewrite E in Hs; simpl in Hs;
        inversion Hs; subst; assumption.
    + intros p Hp. rewrite G in Hp. discriminate.
    + intros f r Hf. rewrite Hqd in Hf. discriminate.
  - intros t Hd Hq Ht. apply Sound in Ht as [_ (Hs & _)].
    destruct Hq as [E|E]; rewrite E in Hs;
      specialize (Hs _ eq_refl); rewrite Hd in Hs; discriminate.
Qed.

Lemma status_and_date_filters_are_conjunctive_witness :
  exists w,
    buildWhere sampleHost sampleCall
      (mkQuery (Some STATUS_DONE) None None None None)
    = inr w
    /\ [storedTask] = slice 1 10 (selection w storedStore).
Proof.
  destruct (status_and_date_filters_are_conjunctive sampleHost sampleCall
              storedStore
              (mkQuery (Some STATUS_DONE) None None None None)
              [storedTask] (mkPagination 1 1 10 1) eq_refl)
    as (_ & w & Hw & Ht & _).
  exists w. split; [exact Hw | exact Ht].
Defined.

(* ================================================================== *)
(** ** Creates and updates at the store's client *)
(* ================================================================== *)

(** The handler asks the store for a priority that is a value of
    [PRIORITY], medium when the body has none: the store's client refuses
    it, so no create goes through. *)
Lemma createTask_refused (h : Host) (c : Call) (st : Store) (b : body) :
  fst (createTask h c st b) = st
  /\ statusCode (snd (createTask h c st b)) = 400.
Proof.
  unfold createTask.
  next_test; [split; reflexivity|].
  destruct (truthy (defaultTo (b_status b) _) && _) eqn:Es;
    [split; reflexivity|].
  destruct (truthy (defaultTo (b_priority b) _) && _) eqn:Ep;
    [split; reflexivity|].
  unfold Prisma.create.
  cbn [Prisma.c_title Prisma.c_status Prisma.c_priority Prisma.c_dueDate].
  destruct (fault c); [split; reflexivity|].
  destruct (Prisma.column _); [|split; reflexivity].
  rewrite !str_or.
  rewrite (priority_member_refused _
             (chosen_priority _ PRIORITY_MEDIUM Ep
                (or_intror (or_introl eq_refl)))), andb_false_r.
  split; reflexivity.
Qed.

Lemma route_POST_refused (h : Host) (cp : Copy) (c : Call) (st : Store)
  (b : body) :
  fst (route h cp c st (POST b)) = st
  /\ statusCode (snd (route h cp c st (POST b))) = 400.
Proof.
  simpl. destruct (validateTask h cp b) as [r|v] eqn:E.
  - split; [reflexivity | exact (validateTask_inl h cp b r E)].
  - apply createTask_refused.
Qed.

(** X4. No create goes through: every POST is answered 400 and leaves
    the store as it was, and so does every sequence of POSTs.  The
    priority the handler passes on, the one of the body or medium, is a
    value of [PRIORITY], which is not a name of the schema; a body that
    passes the middleware on a healthy store is answered "Failed to
    create task" with the message of the client's argument check. *)
Theorem create_is_refused :
  forall (h : Host) (cp : Copy) (c : Call) (st : Store) (b : body),
    fst (route h cp c st (POST b)) = st
    /\ statusCode (snd (route h cp c st (POST b))) = 400
    /\ (forall calls,
          Forall (fun cr => exists b', snd cr = POST b') calls ->
          run h cp st calls = st)
    /\ (forall v,
          fault c = None -> validateTask h cp b = inr v ->
          Prisma.isName Prisma.Priority (chosen (b_priority b) PRIORITY_MEDIUM)
          = false
          /\ route h cp c st (POST b)
             = (st, failed h 400 "Failed to create task"
                      (Prisma.validationError h))).
Proof.
  intros h cp c st b.
  destruct (route_POST_refused h cp c st b) as [H1 H2].
  split; [exact H1|]. split; [exact H2|]. split.
  - intros calls; induction calls as [|[c' r] rest IH]; intros Hall;
      [reflexivity|].
    inversion Hall as [|x l [b' Eb] Hrest]; subst. simpl in Eb; subst r.
    cbn [run]. rewrite (proj1 (route_POST_refused h cp c' st b')).
    apply IH; exact Hrest.
  - intros v Hf Hv.
    destruct (validateTask_inr h cp b v Hv) as (Ht & Hs & Hp & Hd).
    assert (Hp' : truthy (defaultTo (b_priority b) (JStr PRIORITY_MEDIUM))
                  && negb (includes (Object_values PRIORITY)
                             (defaultTo (b_priority b) (JStr PRIORITY_MEDIUM)))
                  = false) by (destruct (b_priority b); auto).
    assert (Hs' : truthy (defaultTo (b_status b) (JStr STATUS_TODO))
                  && negb (includes (Object_values STATUS)
                             (defaultTo (b_status b) (JStr STATUS_TODO)))
                  = false) by (destruct (b_status b); auto).
    pose proof (priority_member_refused _
                  (chosen_priority _ PRIORITY_MEDIUM Hp'
                     (or_intror (or_introl eq_refl)))) as R.
    split.
    + rewrite <- chosen_defaultTo. exact R.
    + simpl. rewrite Hv. unfold createTask. rewrite Ht, Hs', Hp'.
      unfold Prisma.create.
      cbn [Prisma.c_title Prisma.c_status Prisma.c_priority
             Prisma.c_dueDate].
      destruct (validated_dueDate h _ Hd) as [due Hdue]. rewrite Hdue, Hf.
      rewrite !str_or, R, andb_false_r. reflexivity.
Qed.

Lemma create_is_refused_witness :
  route sampleHost Verbose sampleCall storedStore
    (POST (mkBody (JStr (lit "  Buy milk ")) JNull (JStr PRIORITY_HIGH)
             (JStr (lit "1970-01-02T00:00:00.000Z"))))
  = (storedStore,
     failed sampleHost 400 "Failed to create task"
       (Prisma.validationError sampleHost)).
Proof.
  destruct (create_is_refused sampleHost Verbose sampleCall storedStore
              (mkBody (JStr (lit "  Buy milk ")) JNull (JStr PRIORITY_HIGH)
                 (JStr (lit "1970-01-02T00:00:00.000Z"))))
    as (_ & _ & _ & H).
  exact (proj2 (H _ eq_refl eq_refl)).
Defined.

Lemma replace_ext (i : jsstring) (f g : Task -> Task) (st : Store) :
  (forall t, f t = g t) -> Prisma.replace i f st = Prisma.replace i g st.
Proof.
  intros E; induction st as [|t r IH]; simpl; [reflexivity|].
  rewrite E, IH. reflexivity.
Qed.

(** A status that passed the test of the handler is a name of the
    schema; a priority that passed it is one only when it is falsy, that
    is, not passed on. *)
Lemma status_passed_on (v : value) :
  truthy v && negb (includes (Object_values STATUS) v) = false ->
  Prisma.nameOrAbsent Prisma.TaskStatus
    (if truthy v then Some (str v) else None) = true.
Proof.
  intros H. destruct (truthy v); [|reflexivity]. simpl in H.
  apply negb_false_iff in H.
  destruct (includes_STATUS_value v H) as (s & -> & Hs).
  apply status_member_taken; exact Hs.
Qed.

Lemma priority_passed_on (v : value) :
  truthy v && negb (includes (Object_values PRIORITY) v) = false ->
  Prisma.nameOrAbsent Prisma.Priority
    (if truthy v then Some (str v) else None) = negb (truthy v).
Proof.
  intros H. destruct (truthy v); [|reflexivity]. simpl in H.
  apply negb_false_iff in H.
  destruct (includes_PRIORITY_value v H) as (s & -> & Hs).
  apply priority_member_refused; exact Hs.
Qed.

(** The update handler on a healthy store, for a body whose fields pass
    its tests and those of the store's client for the title and the due
    date: refused by the client when the body has a priority, else
    applied to the first row with the identifier. *)
Lemma updateTask_checked (h : Host) (c : Call) (st : Store) (i : jsstring)
  (b : body) :
  fault c = None -> i <> [] ->
  truthy (b_title b) && negb (isString (b_title b)) = false ->
  truthy (b_status b) && negb (includes (Object_values STATUS) (b_status b))
  = false ->
  truthy (b_priority b)
  && negb (includes (Object_values PRIORITY) (b_priority b)) = false ->
  negb (isNullish (b_dueDate b))
  && (negb (isString (b_dueDate b)) || isInvalid (newDate h (b_dueDate b)))
  = false ->
  updateTask h c st i b
  = if truthy (b_priority b)
    then (st, failed h 400 "Failed to update task" (Prisma.validationError h))
    else
      match Prisma.replace i
              (fun t => mkTask (id t)
                          (if truthy (b_title b) then trim (str (b_title b))
                           else title t)
                          (chosen (b_status b) (status t)) (priority t)
                          match b_dueDate b with
                          | JUndefined => dueDate t
                          | d => wanted h d
                          end
                          (createdAt t) (storeNow c)) st with
      | Some (u, st') => (st', Json 200 (Data u))
      | None => (st, notFound)
      end.
Proof.
  intros Hf Hi Ht Hs Hp Hd.
  unfold updateTask.
  replace (negb (truthy (JStr i))) with false
    by (destruct i; [congruence | reflexivity]).
  rewrite Hs, Hp. unfold updateData. rewrite Ht. unfold Prisma.update.
  cbn [Prisma.u_title Prisma.u_status Prisma.u_priority Prisma.u_dueDate].
  destruct (validated_dueDate h _ Hd) as [due Hdue].
  pose proof (column_wanted h _ _ Hdue) as Ew.
  assert (E : match
                match b_dueDate b with
                | JUndefined => None
                | _ => Some (dateOrNull h (b_dueDate b))
                end
              with
              | Some x => option_map Some (Prisma.column x)
              | None => Some None
              end
              = Some match b_dueDate b with
                     | JUndefined => None
                     | _ => Some (wanted h (b_dueDate b))
                     end).
  { destruct (b_dueDate b); [reflexivity | ..]; rewrite Hdue, Ew;
      reflexivity. }
  rewrite E, Hf, (status_passed_on _ Hs), (priority_passed_on _ Hp).
  destruct (truthy (b_priority b)) eqn:Etp; [reflexivity|].
  cbn [negb andb].
  rewrite (replace_ext i _
             (fun t => mkTask (id t)
                         (if truthy (b_title b) then trim (str (b_title b))
                          else title t)
                         (chosen (b_status b) (status t)) (priority t)
                         match b_dueDate b with
                         | JUndefined => dueDate t
                         | d => wanted h d
                         end
                         (createdAt t) (storeNow c)) st).
  - destruct (Prisma.replace _ _ st) as [[u st']|]; reflexivity.
  - intros t. unfold Prisma.apply, chosen, Prisma.orElse.
    cbn [Prisma.u_title Prisma.u_status Prisma.u_priority].
    destruct (truthy (b_title b)), (truthy (b_status b)), (b_dueDate b);
      reflexivity.
Qed.

(** The same for a body that passed the middleware: it has a title. *)
Lemma updateTask_validated (h : Host) (cp : Copy) (c : Call) (st : Store)
  (i : jsstring) (b : body) (v : Validated) :
  fault c = None -> i <> [] -> validateTask h cp b = inr v ->
  updateTask h c st i b
  = if truthy (b_priority b)
    then (st, failed h 400 "Failed to update task" (Prisma.validationError h))
    else
      match Prisma.replace i
              (fun t => mkTask (id t) (trim (str (b_title b)))
                          (chosen (b_status b) (status t)) (priority t)
                          match b_dueDate b with
                          | JUndefined => dueDate t
                          | d => wanted h d
                          end
                          (createdAt t) (storeNow c)) st with
      | Some (u, st') => (st', Json 200 (Data u))
      | None => (st, notFound)
      end.
Proof.
  intros Hf Hi Hv.
  destruct (validateTask_inr h cp b v Hv) as (Ht & Hs & Hp & Hd).
  destruct (invalidTitle_false _ Ht) as (s & Es & Htr & _).
  rewrite (updateTask_checked h c st i b Hf Hi); try assumption.
  - rewrite Htr. reflexivity.
  - rewrite Es. apply andb_false_r.
Qed.

(** X5. An update that passes the middleware, on a healthy store that has
    a task with the identifier.  When the body has a priority, the
    store's client refuses the update, for the priority is a value of
    [PRIORITY] and not a name of the schema: the answer is 400 "Failed to
    update task" and the store is left as it was.  When it has none, the
    answer is 200 with the updated row: the first row with the identifier
    is the one rewritten, in place; its title becomes the trimmed title,
    its status the one given (kept when the field is absent or falsy),
    its priority is kept, its due date is kept when [dueDate] is absent,
    cleared when it is null and set when it is a date; [updatedAt] is the
    store's clock, [id] and [createdAt] are kept. *)
Theorem patch_rewrites_the_task :
  forall (h : Host) (cp : Copy) (c : Call) (st : Store) (i : jsstring)
         (b : body) (v : Validated),
    fault c = None -> i <> [] ->
    validateTask h cp b = inr v ->
    (exists t, In t st /\ id t = i) ->
    (truthy (b_priority b) = true ->
     route h cp c st (PATCH i b)
     = (st, failed h 400 "Failed to update task" (Prisma.validationError h)))
    /\ (truthy (b_priority b) = false ->
        exists pre t post,
          st = pre ++ t :: post /\ id t = i /\ unknown i pre
          /\ let u := mkTask (id t) (trim (str (b_title b)))
                        (chosen (b_status b) (status t))
                        (priority t)
                        match b_dueDate b with
                        | JUndefined => dueDate t
                        | d => wanted h d
                        end
                        (createdAt t) (storeNow c) in
             route h cp c st (PATCH i b)
             = (pre ++ u :: post, Json 200 (Data u))).
Proof.
  intros h cp c st i b v Hf Hi Hv Hex.
  assert (R : route h cp c st (PATCH i b) = updateTask h c st i b)
    by (simpl; rewrite Hv; reflexivity).
  rewrite R, (updateTask_validated h cp c st i b v Hf Hi Hv).
  split; intros Hp; rewrite Hp; [reflexivity|].
  destruct (first_with_id i st Hex) as (pre & t & post & -> & Et & Hu).
  exists pre, t, post. repeat split; try assumption.
  rewrite (replace_first i _ pre post t Hu Et). reflexivity.
Qed.

Lemma patch_rewrites_the_task_witness :
  route sampleHost Verbose sampleCall [storedTask]
    (PATCH (lit "id-1")
       (mkBody (JStr (lit " Write the report ")) (JStr STATUS_TODO)
          (JStr PRIORITY_LOW) JNull))
  = ([storedTask],
     failed sampleHost 400 "Failed to update task"
       (Prisma.validationError sampleHost))
  /\ exists pre t post,
       [storedTask] = pre ++ t :: post
       /\ route sampleHost Verbose sampleCall [storedTask]
            (PATCH (lit "id-1")
               (mkBody (JStr (lit " Write the report ")) (JStr STATUS_TODO)
                  JUndefined JNull))
          = (pre ++ mkTask (lit "id-1") (lit "Write the report") STATUS_TODO
                      (lit "HIGH") None 1715000000000 1715774400002 :: post,
             Json 200
               (Data (mkTask (lit "id-1") (lit "Write the report")
                        STATUS_TODO (lit "HIGH") None 1715000000000
                        1715774400002))).
Proof.
  split.
  - exact (proj1 (patch_rewrites_the_task sampleHost Verbose sampleCall
                    [storedTask] (lit "id-1")
                    (mkBody (JStr (lit " Write the report "))
                       (JStr STATUS_TODO) (JStr PRIORITY_LOW) JNull)
                    _ eq_refl ltac:(discriminate) eq_refl
                    (ex_intro _ storedTask (conj (or_introl eq_refl) eq_refl)))
             eq_refl).
  - destruct (proj2 (patch_rewrites_the_task sampleHost Verbose sampleCall
                       [storedTask] (lit "id-1")
                       (mkBody (JStr (lit " Write the report "))
                          (JStr STATUS_TODO) JUndefined JNull)
                       _ eq_refl ltac:(discriminate) eq_refl
                       (ex_intro _ storedTask
                          (conj (or_introl eq_refl) eq_refl)))
                eq_refl)
      as (pre & t & post & E & Et & Hu & H).
    exists pre, t, post. split; [exact E|].
    destruct pre as [|x pre].
    + inversion E; subst. exact H.
    + inversion E; subst. destruct pre; discriminate.
Defined.

(* ================================================================== *)
(** ** Unknown identifiers and unknown date filters *)
(* ================================================================== *)




Lemma enumFilter_accepts (what : string) (o : object) (p : option jsstring) :
  (forall x, given p = Some x -> includes (Object_values o) (JStr x) = true) ->
  enumFilter what o p = inr (given p).
Proof.
  intros H. unfold enumFilter. destruct (given p) as [x|]; [|reflexivity].
  rewrite (H x eq_refl). reflexivity.
Qed.




(* ================================================================== *)
(** ** The page and the limit of a request *)
(* ================================================================== *)

(** Reading one digit of a numeral. *)
Ltac read_digit :=
  cbn [NilEmpty.string_of_uint lit digits Pos.of_uint_acc Pos.of_uint];
  match goal with
  | |- context [digitVal 10 ?c] =>
      let v := eval vm_compute in (digitVal 10 c) in
      change (digitVal 10 c) with v
  end; cbv beta iota.

Lemma digits_uint_acc (d : Decimal.uint) (acc : positive) :
  digits 10 (Some (Z.pos acc)) (lit (NilEmpty.string_of_uint d))
  = Some (Z.pos (Pos.of_uint_acc d acc)).
Proof.
  revert acc;
    induction d as [|d IH|d IH|d IH|d IH|d IH|d IH|d IH|d IH|d IH|d IH];
    intros acc; [reflexivity|..]; read_digit;
    match goal with
    | |- digits _ (Some ?x) _ = Some (Z.pos (Pos.of_uint_acc _ ?y)) =>
        replace x with (Z.pos y) by lia; apply IH
    end.
Qed.

(** [digits] reads a numeral as its number. *)
Lemma digits_uint (d : Decimal.uint) :
  digits 10 (Some 0) (lit (NilEmpty.string_of_uint d))
  = Some (Z.of_N (Pos.of_uint d)).
Proof.
  induction d as [|d IH|d IH|d IH|d IH|d IH|d IH|d IH|d IH|d IH|d IH];
    [reflexivity|..]; read_digit; try exact IH; apply digits_uint_acc.
Qed.

(** A numeral starts with a digit: [parseInt] strips no white space, no
    sign and no radix prefix from it. *)
Lemma parseInt_uint (d : Decimal.uint) :
  d <> Decimal.Nil ->
  parseInt (lit (NilEmpty.string_of_uint d))
  = Some (toNumber (Z.of_N (Pos.of_uint d))).
Proof.
  intros Hd.
  assert (E : parseInt (lit (NilEmpty.string_of_uint d))
              = match digits 10 (Some 0) (lit (NilEmpty.string_of_uint d)) with
                | Some n => Some (toNumber n)
                | None => None
                end).
  { destruct d as [|d|d|d|d|d|d|d|d|d|d]; [congruence|..];
      destruct d; reflexivity. }
  rewrite E, digits_uint. reflexivity.
Qed.

(** An integer below 2^53 is a double. *)
Lemma toNumber_small (n : Z) : Z.abs n < 2 ^ 53 -> toNumber n = n.
Proof.
  intros H. unfold toNumber. apply Z.ltb_lt in H. rewrite H. reflexivity.
Qed.

(** [parseInt] reads the decimal numeral of a number below 2^53 as that
    number. *)
Lemma parseInt_decimal (p : Z) :
  0 <= p < 2 ^ 53 -> parseInt (decimal p) = Some p.
Proof.
  intros Hp. unfold decimal. destruct p as [|p|p]; [reflexivity| |lia].
  cbn [Z.to_int NilZero.string_of_int]. unfold NilZero.string_of_uint.
  pose proof (Unsigned.to_uint_nonnil p) as Hn.
  transitivity (parseInt (lit (NilEmpty.string_of_uint (Pos.to_uint p)))).
  { destruct (Pos.to_uint p); [congruence|..]; reflexivity. }
  rewrite (parseInt_uint _ Hn), Unsigned.of_to. cbn [Z.of_N].
  rewrite toNumber_small; [reflexivity | lia].
Qed.

(** Above 2^53 [parseInt] gives the nearest double, and a numeral too
    long for a double gives [Infinity], which the store's client
    refuses. *)
Example parseInt_rounds :
  parseInt (lit "9007199254740993") = Some 9007199254740992
  /\ parseInt (lit "9007199254740995") = Some 9007199254740996
  /\ toNumber (10 ^ 400) = 2 ^ 1024
  /\ Prisma.fitsInt (2 ^ 1024) = false.
Proof. repeat split. Qed.

Lemma written_parseParam (o : option jsstring) (dflt p : Z) :
  written o dflt p -> 0 <= p < 2 ^ 53 -> parseParam o dflt = Some p.
Proof.
  unfold written, parseParam. destruct o as [s|].
  - intros -> Hp. apply parseInt_decimal; exact Hp.
  - intros -> _. reflexivity.
Qed.

(** The [where] of a query whose filters are absent, empty or members of
    their enumerations. *)
Lemma buildWhereWith_taken (bounds : jsstring -> option Prisma.DateBounds)
  (q : query) :
  (forall x, given (q_status q) = Some x -> In x status_members) ->
  (forall x, given (q_priority q) = Some x -> In x priority_members) ->
  (forall f, given (q_dateFilter q) = Some f -> In f dateFilter_members) ->
  buildWhereWith bounds q
  = inr (Prisma.mkWhere (given (q_status q)) (given (q_priority q))
           match given (q_dateFilter q) with
           | Some f => bounds f
           | None => None
           end).
Proof.
  intros Hs Hp Hd. unfold buildWhereWith, andThen.
  rewrite (enumFilter_accepts "status" STATUS (q_status q)
             (fun x Hx => proj2 (includes_STATUS x) (Hs x Hx))).
  rewrite (enumFilter_accepts "priority" PRIORITY (q_priority q)
             (fun x Hx => proj2 (includes_PRIORITY x) (Hp x Hx))).
  rewrite (enumFilter_accepts "date filter" DATE_FILTERS (q_dateFilter q)
             (fun x Hx => proj2 (includes_DATE_FILTERS x) (Hd x Hx))).
  reflexivity.
Qed.

(** C5. A request for page [p] with limit [l], both at least 1 and
    written as decimal numerals or left to their defaults 1 and 10, with
    a status and a date filter that are absent, empty or members of their
    enumerations and no priority filter, on a healthy store, for numbers
    below 2^53: the response is the page that holds the rows which follow
    the first [(p - 1) * l] selected rows, at most [l] of them; it
    reports [p] and [l]; its total counts the rows the same [where]
    selects; its [totalPages] is [Math.ceil(total / l)], the least number
    of pages of [l] rows that hold the total, 0 when the total is 0. *)
Theorem pagination_of_a_request :
  forall (h : Host) (c : Call) (st : Store) (q : query) (p l : Z),
    written (q_page q) 1 p -> written (q_limit q) 10 l ->
    1 <= p -> 1 <= l -> p * l < 2 ^ 53 ->
    Z.of_nat (length st) < 2 ^ 53 ->
    fault c = None ->
    (forall x, given (q_status q) = Some x -> In x status_members) ->
    given (q_priority q) = None ->
    (forall f, given (q_dateFilter q) = Some f -> In f dateFilter_members) ->
    let w := Prisma.mkWhere (given (q_status q)) None
               match given (q_dateFilter q) with
               | Some f => dateBounds h c f
               | None => None
               end in
    let rows := selection w st in
    let shown := firstn (Z.to_nat l) (skipn (Z.to_nat ((p - 1) * l)) rows) in
    let total_ := Z.of_nat (length rows) in
    getTasks h c st q
    = Json 200 (Page shown (mkPagination total_ p l (ceilDiv total_ l)))
    /\ Z.of_nat (length shown) <= l
    /\ (forall t, In t rows <-> In t st /\ Prisma.matches w t = true)
    /\ total_ = Z.of_nat (length (filter (Prisma.matches w) st))
    /\ (ceilDiv total_ l - 1) * l < total_ <= ceilDiv total_ l * l
    /\ (total_ = 0 -> ceilDiv total_ l = 0).
Proof.
  intros h c st q p l Wp Wl Hp Hl Hpl Hst Hf Hs G Hd w rows shown total_.
  assert (B : 2 ^ 53 = 9007199254740992) by reflexivity.
  assert (Hw : buildWhere h c q = inr w).
  { unfold buildWhere. rewrite buildWhereWith_taken; try assumption.
    - unfold w. rewrite G. reflexivity.
    - intros x Hx. rewrite G in Hx. discriminate. }
  assert (Ep : pagination q = inr (p, l)).
  { unfold pagination.
    rewrite (written_parseParam _ _ _ Wp), (written_parseParam _ _ _ Wl)
      by nia.
    replace ((p <? 1) || (l <? 1)) with false; [reflexivity|].
    symmetry; apply orb_false_iff; split; apply Z.ltb_ge; assumption. }
  assert (Ea : Prisma.accepts w = true).
  { rewrite (buildWhereWith_accepts _ q w Hw), G. reflexivity. }
  assert (F1 : Prisma.fitsInt ((p - 1) * l) = true).
  { unfold Prisma.fitsInt. apply andb_true_iff; split; apply Z.leb_le.
    - change (- 2 ^ 63) with (-9223372036854775808). nia.
    - change (2 ^ 63 - 1) with 9223372036854775807. nia. }
  assert (F2 : Prisma.fitsInt l = true).
  { unfold Prisma.fitsInt. apply andb_true_iff; split; apply Z.leb_le.
    - change (- 2 ^ 63) with (-9223372036854775808). lia.
    - change (2 ^ 63 - 1) with 9223372036854775807. nia. }
  split; [|split; [|split; [|split; [|split]]]].
  - rewrite (getTasks_succeeds h c st q p l w Ep Hw Hf Ea F1 F2).
    unfold total_, rows. rewrite selection_length. reflexivity.
  - apply (slice_length p l rows Hl).
  - intros t. apply selection_In.
  - apply f_equal, selection_length.
  - apply ceilDiv_spec; lia.
  - intros E. rewrite E. apply ceilDiv_0.
Qed.

(** Page 2 with limit 1 of three rows is the second row in the order of
    the query: the row without a due date comes first. *)
Lemma pagination_of_a_request_witness :
  getTasks sampleHost sampleCall storedStore
    (mkQuery None None None (Some (lit "2")) (Some (lit "1")))
  = Json 200 (Page [storedTask] (mkPagination 3 2 1 3)).
Proof.
  exact (proj1 (pagination_of_a_request sampleHost sampleCall storedStore
                  (mkQuery None None None (Some (lit "2")) (Some (lit "1")))
                  2 1
                  eq_refl eq_refl ltac:(discriminate) ltac:(discriminate)
                  eq_refl eq_refl eq_refl
                  ltac:(discriminate) eq_refl ltac:(discriminate))).
Defined.

(** On an empty store, page 1 with limit 10, written or by default, is
    the empty page with total 0 and 0 pages. *)
Example page_of_an_empty_store :
  getTasks sampleHost sampleCall []
    (mkQuery None None None (Some (lit "1")) (Some (lit "10")))
  = Json 200 (Page [] (mkPagination 0 1 10 0))
  /\ getTasks sampleHost sampleCall [] (mkQuery None None None None None)
     = Json 200 (Page [] (mkPagination 0 1 10 0)).
Proof. split; reflexivity. Qed.
